(** * Flow normalisation and the hierarchical decision pipeline

    A shallow embedding of [ml_inference.py], [ml_rest_server.py] and
    [classify_flows.py]: the format adapters and the coercion step, the
    artifact loaders, the two-stage (hierarchical) classifier of the batch
    path, the single-record classifier of the serving path, and the command
    line driver.

    Python values are an inductive type, floats are IEEE binary64 (Rocq's
    primitive floats), exceptions are an error result, and the calls made to
    the classifiers and to the output file are recorded in a trace.  The
    pandas and scikit-learn operations the code calls are modelled next to the
    function that uses them, each with the behaviour it is given here. *)

From Stdlib Require Import ZArith List String Ascii Bool Floats Lia DecimalString.
From stdpp Require Import gmap strings list.
Import ListNotations.

Set Warnings "-register-all".
Local Open Scope Z_scope.

(** ** Python values *)

(** What [json.loads] can return, which is also what a cell of an
    object-typed column can hold. *)
Inductive pyval : Type :=
| VNone
| VBool (b : bool)
| VInt (n : Z)
| VFloat (x : float)
| VStr (s : string)
| VList (l : list pyval)
| VDict (kv : list (string * pyval)).

(** The exceptions the modelled code can raise. *)
Inductive exn : Type :=
| FileNotFoundError
| JSONDecodeError
| UnpicklingError
| KeyError
| TypeError
| AttributeError
| IndexError
| ValueError
| IntCastingNaNError
| OverflowError
| RecursionError
| RuntimeError
| SystemExit (msg : string).

Inductive result (A : Type) : Type :=
| Ok (a : A)
| Raise (e : exn).
Arguments Ok {A} a.
Arguments Raise {A} e.

Definition bind {A B : Type} (r : result A) (k : A -> result B) : result B :=
  match r with
  | Ok a => k a
  | Raise e => Raise e
  end.

Notation "x <- r ;; k" := (bind r (fun x => k))
  (at level 100, r at next level, right associativity).

Definition is_ok {A : Type} (r : result A) : bool :=
  match r with Ok _ => true | Raise _ => false end.

(** A number as pandas reads it out of a cell: an integer, a float, a
    boolean, or an integer written as text, which comes with the float the
    parser of pandas gives the text. *)
Inductive num : Type :=
| NInt (n : Z)
| NFloat (x : float)
| NBool (b : bool)
| NText (n : Z) (x : float).

(** What the parser of pandas makes of a text that is a number: a float,
    or, for an integer literal, the integer and the float. *)
Inductive text_num : Type :=
| TextFloat (x : float)
| TextInt (n : Z) (x : float).

(** The parts of the Python runtime and of pandas that work on text:
    [repr] of a float, [str] of a list or dict, the reading of a string as a
    number ([None]: the string is not numeric), and what
    [Series.astype(str)] does with a missing cell,
    which depends on the version of pandas: pandas 3 keeps the cell missing,
    the versions before it render it as text.  They are an interface: every
    theorem below holds for each implementation of it. *)
Class PyRuntime : Type := {
  float_repr : float -> string;
  container_str : pyval -> string;
  parse_numeric : string -> option text_num;
  str_keeps_missing : bool
}.

Definition str_of_Z (n : Z) : string := NilZero.string_of_int (Z.to_int n).

Section Values.
Context {rt : PyRuntime}.

(** [str(v)]. *)
Definition py_str (v : pyval) : string :=
  match v with
  | VNone => "None"
  | VBool true => "True"
  | VBool false => "False"
  | VInt n => str_of_Z n
  | VFloat x => float_repr x
  | VStr s => s
  | VList _ | VDict _ => container_str v
  end.
End Values.

(** Truth value of [v], as [v or default] tests it. *)
Definition truthy (v : pyval) : bool :=
  match v with
  | VNone => false
  | VBool b => b
  | VInt n => negb (n =? 0)
  | VFloat x => negb (PrimFloat.is_zero x)
  | VStr s => negb (String.eqb s "")
  | VList l => match l with [] => false | _ => true end
  | VDict kv => match kv with [] => false | _ => true end
  end.

(** [x or y]. *)
Definition py_or (x y : pyval) : pyval := if truthy x then x else y.

(** Lookup in the items of a dict. *)
Fixpoint assoc {A : Type} (k : string) (kv : list (string * A)) : option A :=
  match kv with
  | [] => None
  | (k', v) :: rest => if String.eqb k k' then Some v else assoc k rest
  end.

(** [d.get(key, default)]: only a dict has the method. *)
Definition py_get (d : pyval) (key : string) (default : pyval) : result pyval :=
  match d with
  | VDict kv => Ok (match assoc key kv with Some v => v | None => default end)
  | _ => Raise AttributeError
  end.

(** [d[key]]: a missing key raises [KeyError]; a JSON value that is not a
    dict cannot be indexed by a string. *)
Definition py_index (d : pyval) (key : string) : result pyval :=
  match d with
  | VDict kv => match assoc key kv with Some v => Ok v | None => Raise KeyError end
  | _ => Raise TypeError
  end.

(** [v != "text"]. *)
Definition py_ne_str (v : pyval) (text : string) : bool :=
  match v with
  | VStr s => negb (String.eqb s text)
  | _ => true
  end.

(** ** Numbers: float64 and int64 *)

Definition int64_min : Z := - 2 ^ 63.
Definition int64_max : Z := 2 ^ 63 - 1.

Definition in_int64 (n : Z) : bool := (int64_min <=? n) && (n <=? int64_max).

(** The float64 nearest to an integer (round to nearest, ties to even). *)
Definition float_of_Z (n : Z) : float :=
  SF2Prim (binary_normalize prec emax n 0 false).

(** A finite float rounded toward zero, as a mathematical integer. *)
Definition trunc_float (x : float) : Z :=
  match Prim2SF x with
  | S754_finite s m e =>
      let v := if 0 <=? e then Z.pos m * 2 ^ e else Z.pos m / 2 ^ (- e) in
      if s then - v else v
  | _ => 0
  end.

(** The C cast from float64 to int64 that numpy's [astype] performs on a
    finite float: truncation; outside the int64 range the cast is left to the
    platform, and x86-64 yields the smallest int64. *)
Definition float_to_int64 (x : float) : Z :=
  let t := trunc_float x in
  if in_int64 t then t else int64_min.

Definition float_of_bool (b : bool) : float := if b then 1%float else 0%float.

(** ** Data frames *)

(** A column (a pandas Series) with its dtype. *)
Inductive column : Type :=
| ObjectCol (vs : list pyval)
| Int64Col (ns : list Z)
| Float64Col (xs : list float)
| BoolCol (bs : list bool).

(** The cells of a column as Python values. *)
Definition cells (c : column) : list pyval :=
  match c with
  | ObjectCol vs => vs
  | Int64Col ns => map VInt ns
  | Float64Col xs => map VFloat xs
  | BoolCol bs => map VBool bs
  end.

(** A frame: the length of its index and its named columns, in order.  The
    labels of the columns are strings. *)
Record DataFrame : Type := {
  nrows : nat;
  cols : list (string * column)
}.

Definition columns (df : DataFrame) : list string := map fst (cols df).

(** [c in df.columns]. *)
Definition has_column (df : DataFrame) (c : string) : bool :=
  existsb (String.eqb c) (columns df).

(** [df[c]]. *)
Definition get_col (df : DataFrame) (c : string) : option column :=
  assoc c (cols df).

Fixpoint replace_col (c : string) (col : column) (cs : list (string * column))
  : list (string * column) :=
  match cs with
  | [] => [(c, col)]
  | (c', col') :: rest =>
      if String.eqb c c' then (c, col) :: rest
      else (c', col') :: replace_col c col rest
  end.

(** [df[c] = col]: the column is replaced in place, or appended when new. *)
Definition set_col (df : DataFrame) (c : string) (col : column) : DataFrame :=
  {| nrows := nrows df; cols := replace_col c col (cols df) |}.

Fixpoint mapM_result {A B : Type} (f : A -> result B) (l : list A) : result (list B) :=
  match l with
  | [] => Ok []
  | a :: rest => b <- f a ;; bs <- mapM_result f rest ;; Ok (b :: bs)
  end.

(** [df[names]]: the listed columns in the listed order; a name that is not
    a column raises [KeyError].  The frames are taken to have one column for
    a label: where a label is that of several columns pandas returns them
    all, which this definition does not model. *)
Definition select (df : DataFrame) (names : list string) : result DataFrame :=
  cs <- mapM_result
          (fun c => match get_col df c with
                    | Some col => Ok (c, col)
                    | None => Raise KeyError
                    end) names ;;
  Ok {| nrows := nrows df; cols := cs |}.

(** [df.empty]: some axis has length zero. *)
Definition empty (df : DataFrame) : bool :=
  (nrows df =? 0)%nat || (length (cols df) =? 0)%nat.

(** Row [i] of a frame, as the named values a classifier is given. *)
Definition row_at (df : DataFrame) (i : nat) : list (string * pyval) :=
  map (fun nc => (fst nc, nth i (cells (snd nc)) VNone)) (cols df).

Definition frame_rows (df : DataFrame) : list (list (string * pyval)) :=
  map (row_at df) (seq 0 (nrows df)).

(** The columns of a frame all have the length of its index, and no two
    share a name. *)
Definition well_formed (df : DataFrame) : Prop :=
  NoDup (columns df) /\
  Forall (fun nc => length (cells (snd nc)) = nrows df) (cols df).

(** ** The coercion step: [_ensure_types] *)

(** A numeric Series: what [pd.to_numeric] returns, an array of dtype int64,
    uint64, float64 or bool. *)
Inductive numeric : Type :=
| NumInt (ns : list Z)
| NumUInt (ns : list Z)
| NumFloat (xs : list float)
| NumBool (bs : list bool).

Definition uint64_max : Z := 2 ^ 64 - 1.

(** The C cast from uint64 to int64: the values above the largest int64
    wrap around. *)
Definition wrap_int64 (n : Z) : Z := if n <=? int64_max then n else n - 2 ^ 64.

(** The element as it is stored in the float64, the integer and the bool
    array of the conversion. *)
Definition num_to_float (n : num) : float :=
  match n with
  | NInt z => float_of_Z z
  | NFloat x => x
  | NBool b => float_of_bool b
  | NText _ x => x
  end.

Definition num_to_Z (n : num) : Z :=
  match n with
  | NInt z | NText z _ => z
  | NFloat x => float_to_int64 x
  | NBool b => Z.b2z b
  end.

Definition num_to_bool (n : num) : bool :=
  match n with
  | NBool b => b
  | NInt z | NText z _ => negb (z =? 0)
  | NFloat x => negb (PrimFloat.is_zero x)
  end.

(** The flags pandas keeps while it passes over an object array ([Seen]): a
    negative integer that int64 holds, an integer above int64 that uint64
    holds, and an element that makes the result a float array, which is a
    float (NaN, the reading of a missing cell, included) or an integer that
    neither int64 nor uint64 holds. *)
Definition saw_sint (n : num) : bool :=
  match n with
  | NInt z | NText z _ => (int64_min <=? z) && (z <? 0)
  | _ => false
  end.

Definition saw_uint (n : num) : bool :=
  match n with
  | NInt z | NText z _ => (int64_max <? z) && (z <=? uint64_max)
  | _ => false
  end.

Definition saw_float (n : num) : bool :=
  match n with
  | NFloat _ => true
  | NInt z | NText z _ => (z <? int64_min) || (uint64_max <? z)
  | NBool _ => false
  end.

(** The array is float64: a float was seen, or integers that no one 64-bit
    integer type holds together. *)
Definition seen_float (ns : list num) : bool :=
  existsb saw_float ns || (existsb saw_sint ns && existsb saw_uint ns).

Definition num_is_int (n : num) : bool :=
  match n with NInt _ | NText _ _ => true | _ => false end.

(** [pd.isna(v)] for a cell. *)
Definition is_missing (v : pyval) : bool :=
  match v with
  | VNone => true
  | VFloat x => is_nan x
  | _ => false
  end.

(** The int64 that [values.astype("i8")] gives a cell of an object array,
    when the cast accepts the cell and the result compares equal to it. *)
Definition cell_int64 (v : pyval) : option Z :=
  match v with
  | VInt z => if in_int64 z then Some z else None
  | VBool b => Some (Z.b2z b)
  | VFloat x =>
      let t := trunc_float x in
      if is_finite x && in_int64 t && (float_of_Z t =? x)%float then Some t else None
  | _ => None
  end.

Fixpoint cells_int64 (vs : list pyval) : option (list Z) :=
  match vs with
  | [] => Some []
  | v :: rest =>
      match cell_int64 v, cells_int64 rest with
      | Some z, Some zs => Some (z :: zs)
      | _, _ => None
      end
  end.

(** The fast path of pandas' [maybe_convert_numeric]: when the first element
    is an integer, the whole array is cast to int64 and returned if every
    element compares equal to its cast. *)
Definition fast_ints (vs : list pyval) : option (list Z) :=
  match vs with
  | VInt _ :: _ => cells_int64 vs
  | _ => None
  end.

Section Coercion.
Context {rt : PyRuntime}.

(** One cell of [Series.astype(str)]: [str] of the cell; a missing cell is
    rendered like any other by the versions of pandas before 3 ("None",
    "nan") and stays missing, as NaN, from pandas 3 on. *)
Definition str_cell (v : pyval) : pyval :=
  if str_keeps_missing && is_missing v then VFloat nan else VStr (py_str v).

(** [Series.astype(str)]. *)
Definition astype_str (c : column) : column :=
  ObjectCol (map str_cell (cells c)).

(** How [pd.to_numeric(..., errors="coerce")] reads one cell of an object
    column: numbers as they are, numeric text as its number, everything else
    (missing, empty or non-numeric text, containers) as NaN.  Every element
    is also stored as a float64, and a Python integer that is too large for
    a float64 raises [OverflowError] there, which [errors="coerce"] does not
    catch; a text is stored as the float its parser gives, which raises
    nothing. *)
Definition cell_numeric (v : pyval) : result num :=
  match v with
  | VInt n => if is_infinity (float_of_Z n) then Raise OverflowError else Ok (NInt n)
  | VBool b => Ok (NBool b)
  | VFloat x => Ok (NFloat x)
  | VStr s =>
      if String.eqb s "" then Ok (NFloat nan)
      else match parse_numeric s with
           | Some (TextFloat x) => Ok (NFloat x)
           | Some (TextInt n x) => Ok (NText n x)
           | None => Ok (NFloat nan)
           end
  | VNone | VList _ | VDict _ => Ok (NFloat nan)
  end.

(** [lib.maybe_convert_numeric] on an object array, with [coerce_numeric]:
    after the fast path, the result array is float64 as soon as one element
    is a float (NaN included) or the integers fit no one integer type; else
    uint64 if an integer above int64 was seen, else int64 if an integer was
    seen, else bool. *)
Definition maybe_convert_numeric (vs : list pyval) : result numeric :=
  match fast_ints vs with
  | Some zs => Ok (NumInt zs)
  | None =>
      ns <- mapM_result cell_numeric vs ;;
      Ok (if seen_float ns then NumFloat (map num_to_float ns)
          else if existsb num_is_int ns then
            (if existsb saw_uint ns then NumUInt (map num_to_Z ns)
             else NumInt (map num_to_Z ns))
          else match ns with
               | [] => NumInt []
               | _ => NumBool (map num_to_bool ns)
               end)
  end.

(** [pd.to_numeric(c, errors="coerce")]: a numeric column is returned as it
    is, an object column is converted. *)
Definition to_numeric (c : column) : result numeric :=
  match c with
  | ObjectCol vs => maybe_convert_numeric vs
  | Int64Col ns => Ok (NumInt ns)
  | Float64Col xs => Ok (NumFloat xs)
  | BoolCol bs => Ok (NumBool bs)
  end.

(** [.fillna(fill)]: only a float column can hold NaN. *)
Definition fillna (fill : float) (s : numeric) : numeric :=
  match s with
  | NumFloat xs => NumFloat (map (fun x => if is_nan x then fill else x) xs)
  | _ => s
  end.

(** [.astype(int)]: pandas refuses a float column that holds a non-finite
    value and casts the others. *)
Definition astype_int (s : numeric) : result column :=
  match s with
  | NumInt ns => Ok (Int64Col ns)
  | NumUInt ns => Ok (Int64Col (map wrap_int64 ns))
  | NumBool bs => Ok (Int64Col (map Z.b2z bs))
  | NumFloat xs =>
      if forallb is_finite xs then Ok (Int64Col (map float_to_int64 xs))
      else Raise IntCastingNaNError
  end.

(** [.astype(float)]. *)
Definition astype_float (s : numeric) : column :=
  match s with
  | NumInt ns | NumUInt ns => Float64Col (map float_of_Z ns)
  | NumBool bs => Float64Col (map float_of_bool bs)
  | NumFloat xs => Float64Col xs
  end.

(** [if c in df.columns: df[c] = f(df[c])]. *)
Definition assign_if_present (c : string) (f : column -> result column)
  (df : DataFrame) : result DataFrame :=
  match get_col df c with
  | Some col => col' <- f col ;; Ok (set_col df c col')
  | None => Ok df
  end.

(** [for c in cs: df = body c df]. *)
Fixpoint for_each {A S : Type} (cs : list A) (body : A -> S -> result S) (s : S)
  : result S :=
  match cs with
  | [] => Ok s
  | c :: rest => s' <- body c s ;; for_each rest body s'
  end.

Definition count_columns : list string := ["spkts"; "dpkts"; "sbytes"; "dbytes"]%string.

Definition _ensure_types (df : DataFrame) (feature_list : list string)
  : result DataFrame :=
  df <- assign_if_present "proto" (fun c => Ok (astype_str c)) df ;;
  df <- assign_if_present "service" (fun c => Ok (astype_str c)) df ;;
  df <- for_each count_columns
          (fun c => assign_if_present c
                      (fun col => s <- to_numeric col ;;
                                  astype_int (fillna 0%float s))) df ;;
  df <- assign_if_present "dur"
          (fun col => s <- to_numeric col ;;
                      Ok (astype_float (fillna 0%float s))) df ;;
  select df feature_list.

End Coercion.

(** ** Building a frame from rows: [pd.DataFrame(rows, columns=feats)] *)

Definition is_object_cell (v : pyval) : bool :=
  match v with
  | VStr _ | VList _ | VDict _ => true
  | VInt n => negb (in_int64 n)
  | _ => false
  end.

Definition is_bool_cell (v : pyval) : bool :=
  match v with VBool _ => true | _ => false end.

Definition is_int_cell (v : pyval) : bool :=
  match v with VInt _ => true | _ => false end.

Definition is_float_cell (v : pyval) : bool :=
  match v with VFloat _ => true | _ => false end.

Definition is_number_cell (v : pyval) : bool := is_int_cell v || is_float_cell v.

Definition cell_bool (v : pyval) : bool :=
  match v with VBool b => b | _ => false end.

Definition cell_Z (v : pyval) : Z :=
  match v with VInt n => n | _ => 0 end.

(** A cell of a column that becomes float64: a missing value is NaN. *)
Definition cell_float (v : pyval) : float :=
  match v with
  | VFloat x => x
  | VInt n => float_of_Z n
  | _ => nan
  end.

(** The dtype pandas infers for a column of Python values: text, containers
    and mixtures with booleans stay objects; booleans alone are bool;
    integers alone are int64; numbers with a float or a missing value among
    them are float64; a column of missing values only, or of no value at
    all, stays an object column.  An integer that int64 cannot hold makes
    the column an object column here; pandas holds such integers, when
    uint64 holds them all, in a uint64 column, which the coercion step
    converts as it converts the object column of the same integers. *)
Definition infer_column (vs : list pyval) : column :=
  if existsb is_object_cell vs then ObjectCol vs
  else if existsb is_bool_cell vs then
    (if forallb is_bool_cell vs then BoolCol (map cell_bool vs) else ObjectCol vs)
  else if existsb is_number_cell vs then
    (if forallb is_int_cell vs then Int64Col (map cell_Z vs)
     else Float64Col (map cell_float vs))
  else ObjectCol vs.

(** Column [j] of a list of rows. *)
Definition column_of_rows (rows : list (list pyval)) (j : nat) : list pyval :=
  map (fun r => nth j r VNone) rows.

(** [pd.DataFrame(rows, columns=names)]: without rows the frame has the named
    columns and no row; with rows, every row must have one value per name. *)
Definition DataFrame_of_rows (rows : list (list pyval)) (names : list string)
  : result DataFrame :=
  match rows with
  | [] => Ok {| nrows := 0; cols := map (fun c => (c, ObjectCol [])) names |}
  | _ =>
      if forallb (fun r => (length r =? length names)%nat) rows then
        Ok {| nrows := length rows;
              cols := map (fun jc => (snd jc, infer_column (column_of_rows rows (fst jc))))
                          (combine (seq 0 (length names)) names) |}
      else Raise ValueError
  end.

(** A feature manifest as column labels.  The frames modelled here are
    labelled by strings: a manifest that is not a list of strings raises. *)
Definition labels (feats : pyval) : result (list string) :=
  match feats with
  | VList l => mapM_result (fun v => match v with
                                     | VStr s => Ok s
                                     | _ => Raise TypeError
                                     end) l
  | _ => Raise TypeError
  end.

(** ** Classifiers and files *)

(** One output of [model.predict], by what the code can observe of it:
    [IntLike n] is an [int] or [np.integer] whose [int(raw)] is [n];
    [StrLike s] is any other object, whose [str(raw)] is [s]. *)
Inductive raw_label : Type :=
| IntLike (n : Z)
| StrLike (s : string).

(** A row as a classifier is given it: the values under the column names. *)
Abbreviation record := (list (string * pyval)).

(** A trained pipeline, through its two methods, row by row: [predict] gives
    the class label and [predict_proba] the probability of the positive
    class, column 1 of scikit-learn's matrix. *)
Record pipeline : Type := {
  predict : record -> raw_label;
  predict_proba : record -> float
}.

(** A line of a log, by what the adapters make of it: [line.strip()] is
    empty, [json.loads(line)] raises an exception, or it returns a value.
    The exception of a line that is not JSON is [JSONDecodeError]; a line
    can also make [json.loads] raise another one, [ValueError] for an
    integer of more digits than Python converts, [RecursionError] for a
    nesting that is too deep. *)
Inductive line : Type :=
| Blank
| Raises (e : exn)
| Json (d : pyval).

(** A line that is not JSON. *)
Abbreviation Garbled := (Raises JSONDecodeError).

(** A file, by what each reader makes of it: [joblib.load], [json.load], the
    line-by-line reading of a text file, and [pd.read_csv]. *)
Record file : Type := {
  joblib_view : result pipeline;
  json_view : result pyval;
  lines_view : result (list line);
  csv_view : result DataFrame
}.

(** The file system: the files by their path. *)
Abbreviation filesystem := (gmap string file).

Definition ends_with_slash (s : string) : bool :=
  match rev (list_ascii_of_string s) with
  | c :: _ => Ascii.eqb c "/"
  | [] => false
  end.

(** [os.path.join(d, name)] for a relative [name]. *)
Definition path_join (d name : string) : string :=
  if String.eqb d "" then name
  else if ends_with_slash d then d +:+ name
  else d +:+ "/" +:+ name.

(** [open(path)]. *)
Definition open_file (fs : filesystem) (path : string) : result file :=
  match fs !! path with
  | Some f => Ok f
  | None => Raise FileNotFoundError
  end.

(** [joblib.load(path)]. *)
Definition joblib_load (fs : filesystem) (path : string) : result pipeline :=
  f <- open_file fs path ;; joblib_view f.

(** [with open(path) as f: json.load(f)]. *)
Definition json_load (fs : filesystem) (path : string) : result pyval :=
  f <- open_file fs path ;; json_view f.

(** [with open(path) as f: for line in f]. *)
Definition read_lines (fs : filesystem) (path : string) : result (list line) :=
  f <- open_file fs path ;; lines_view f.

(** [pd.read_csv(path)]. *)
Definition read_csv (fs : filesystem) (path : string) : result DataFrame :=
  f <- open_file fs path ;; csv_view f.

(** ** Loading the artifacts *)

Definition get_feature_list (fs : filesystem) (art_dir : string) : result pyval :=
  json_load fs (path_join art_dir "features.json").

Record flat_artifacts : Type := {
  flat_pipe_bin : pipeline;
  flat_pipe_tri : pipeline;
  flat_th : pyval;
  flat_feats : pyval
}.

Definition load_flat_artifacts (fs : filesystem) (art_dir : string)
  : result flat_artifacts :=
  pipe_bin <- joblib_load fs (path_join art_dir "rf_bin.joblib") ;;
  pipe_tri <- joblib_load fs (path_join art_dir "rf_tri.joblib") ;;
  j <- json_load fs (path_join art_dir "bin_threshold.json") ;;
  th <- py_index j "threshold" ;;
  feats <- get_feature_list fs art_dir ;;
  Ok {| flat_pipe_bin := pipe_bin; flat_pipe_tri := pipe_tri;
        flat_th := th; flat_feats := feats |}.

Record hier_artifacts : Type := {
  pipe_bin : pipeline;
  pipe_dos : pipeline;
  t1 : pyval;
  t2 : pyval;
  feats : pyval
}.

Definition load_hier_artifacts (fs : filesystem) (art_dir : string)
  : result hier_artifacts :=
  pipe_bin <- joblib_load fs (path_join art_dir "rf_bin.joblib") ;;
  pipe_dos <- joblib_load fs (path_join art_dir "rf_dos_vs_other.joblib") ;;
  j1 <- json_load fs (path_join art_dir "bin_threshold.json") ;;
  t1 <- py_index j1 "threshold" ;;
  j2 <- json_load fs (path_join art_dir "dos_threshold.json") ;;
  t2 <- py_index j2 "threshold" ;;
  feats <- get_feature_list fs art_dir ;;
  Ok {| pipe_bin := pipe_bin; pipe_dos := pipe_dos; t1 := t1; t2 := t2;
        feats := feats |}.

(** [load_models_default]. *)
Definition load_models_default (fs : filesystem) (art_dir : string)
  : result (pipeline * pipeline) :=
  art <- load_hier_artifacts fs art_dir ;;
  Ok (pipe_bin art, pipe_dos art).

(** ** Format adapters *)

Section Adapters.
Context {rt : PyRuntime}.

(** The body of the loop of [suricata_eve_to_features_df] for one parsed
    line: [None] when the line is passed over ([continue]), the row that is
    appended otherwise. *)
Definition eve_row (d : pyval) : result (option (list pyval)) :=
  event_type <- py_get d "event_type" VNone ;;
  if py_ne_str event_type "flow" then Ok None
  else
    flow <- py_get d "flow" (VDict []) ;;
    proto <- py_get d "proto" (VStr "unknown") ;;
    app_proto <- py_get d "app_proto" (VStr "unknown") ;;
    let service := py_or app_proto (VStr "unknown") in
    spkts <- py_get flow "pkts_toserver" (VInt 0) ;;
    dpkts <- py_get flow "pkts_toclient" (VInt 0) ;;
    sbytes <- py_get flow "bytes_toserver" (VInt 0) ;;
    dbytes <- py_get flow "bytes_toclient" (VInt 0) ;;
    dur <- py_get flow "duration" (VFloat 0%float) ;;
    Ok (Some [proto; service; spkts; dpkts; sbytes; dbytes; dur]).

(** The body of the loop of [zeek_conn_to_features_df]. *)
Definition zeek_row (d : pyval) : result (option (list pyval)) :=
  proto <- py_get d "proto" (VStr "unknown") ;;
  service0 <- py_get d "service" (VStr "unknown") ;;
  let service := py_or service0 (VStr "unknown") in
  spkts <- py_get d "orig_pkts" (VInt 0) ;;
  dpkts <- py_get d "resp_pkts" (VInt 0) ;;
  sbytes <- py_get d "orig_bytes" (VInt 0) ;;
  dbytes <- py_get d "resp_bytes" (VInt 0) ;;
  dur <- py_get d "duration" (VFloat 0%float) ;;
  Ok (Some [proto; service; spkts; dpkts; sbytes; dbytes; dur]).

(** The loop over the lines: blank lines are passed over, and so are the
    lines for which [json.loads] raises [JSONDecodeError], the one exception
    the loop catches; any other exception of [json.loads], and an exception
    of the body, end the loop. *)
Fixpoint collect_rows (body : pyval -> result (option (list pyval)))
  (ls : list line) : result (list (list pyval)) :=
  match ls with
  | [] => Ok []
  | Blank :: rest => collect_rows body rest
  | Raises e :: rest =>
      match e with
      | JSONDecodeError => collect_rows body rest
      | _ => Raise e
      end
  | Json d :: rest =>
      r <- body d ;;
      rows <- collect_rows body rest ;;
      Ok (match r with Some row => row :: rows | None => rows end)
  end.

Definition suricata_eve_to_features_df (fs : filesystem)
  (eve_json_path art_dir : string) : result DataFrame :=
  feats <- get_feature_list fs art_dir ;;
  ls <- read_lines fs eve_json_path ;;
  rows <- collect_rows eve_row ls ;;
  names <- labels feats ;;
  df <- DataFrame_of_rows rows names ;;
  _ensure_types df names.

Definition zeek_conn_to_features_df (fs : filesystem)
  (conn_log_path art_dir : string) : result DataFrame :=
  feats <- get_feature_list fs art_dir ;;
  ls <- read_lines fs conn_log_path ;;
  rows <- collect_rows zeek_row ls ;;
  names <- labels feats ;;
  df <- DataFrame_of_rows rows names ;;
  _ensure_types df names.

(** [load_features_from_csv] of [classify_flows.py]. *)
Definition load_features_from_csv (fs : filesystem) (csv_path art_dir : string)
  : result DataFrame :=
  feats <- get_feature_list fs art_dir ;;
  df_raw <- read_csv fs csv_path ;;
  names <- labels feats ;;
  let missing := List.filter (fun c => negb (has_column df_raw c)) names in
  match missing with
  | [] => select df_raw names
  | _ => Raise ValueError
  end.

End Adapters.

(** ** Effects: the calls to the classifiers and the output file *)

Inductive role : Type := ModelBin | ModelDos | ModelTri.

(** What a run does besides computing: it hands rows to a classifier, and it
    writes a table to a file. *)
Inductive event : Type :=
| PredictProba (r : role) (X : list record)
| Predict (r : role) (X : list record)
| ToCsv (path : string) (df : DataFrame).

(** A computation that may raise and that records its events in order. *)
Definition M (A : Type) : Type := (result A * list event)%type.

Definition ret {A : Type} (a : A) : M A := (Ok a, []).

Definition lift {A : Type} (r : result A) : M A := (r, []).

Definition bindM {A B : Type} (m : M A) (k : A -> M B) : M B :=
  match m with
  | (Ok a, t) => let (r, t') := k a in (r, t ++ t')
  | (Raise e, t) => (Raise e, t)
  end.

Notation "x <~ m ;; k" := (bindM m (fun x => k))
  (at level 100, m at next level, right associativity).

(** [pipe.predict_proba(X)[:, 1]]. *)
Definition call_predict_proba (r : role) (p : pipeline) (X : list record)
  : M (list float) :=
  (Ok (map (predict_proba p) X), [PredictProba r X]).

(** [pipe.predict(X)]. *)
Definition call_predict (r : role) (p : pipeline) (X : list record)
  : M (list raw_label) :=
  (Ok (map (predict p) X), [Predict r X]).

(** [df.to_csv(path, index=False)]: the event records the call with its
    arguments.  The write itself is taken to succeed; what the file system
    can make of it (a path that cannot be opened, a disk that is full) is
    not modelled, and [ToCsv] in a trace says that the write was asked for,
    not that the file exists. *)
Definition to_csv (df : DataFrame) (path : string) : M unit :=
  (Ok tt, [ToCsv path df]).

(** ** The batch classifiers *)

(** A threshold read from JSON, as the float64 numpy compares with. *)
Definition threshold_float (t : pyval) : option float :=
  match t with
  | VFloat x => Some x
  | VInt n => Some (float_of_Z n)
  | VBool b => Some (float_of_bool b)
  | _ => None
  end.

(** [scores >= t], element by element, for a threshold that is one value: a
    number is compared with every score, and a text, a missing value or a
    dict cannot be compared.  A threshold that is a JSON list is outside the
    model: numpy would broadcast it, and here it raises like a text. *)
Definition array_ge (scores : list float) (t : pyval) : result (list bool) :=
  match threshold_float t with
  | Some tf => Ok (map (fun s => (tf <=? s)%float) scores)
  | None => Raise TypeError
  end.

(** [xs[m]]: the elements at the positions where the mask holds. *)
Fixpoint mask {A : Type} (xs : list A) (m : list bool) : list A :=
  match xs, m with
  | x :: xs', b :: m' => if b then x :: mask xs' m' else mask xs' m'
  | _, _ => []
  end.

(** [base[m] = vals]: the values are written, in order, at the positions
    where the mask holds. *)
Fixpoint scatter {A : Type} (m : list bool) (vals : list A) (base : list A)
  : list A :=
  match m, base with
  | true :: m', x :: base' =>
      match vals with
      | v :: vals' => v :: scatter m' vals' base'
      | [] => x :: scatter m' [] base'
      end
  | false :: m', x :: base' => x :: scatter m' vals base'
  | _, _ => base
  end.

Record hier_predictions : Type := {
  binary_scores : list float;
  binary_labels : list Z;
  tri_labels : list Z
}.

(** Lines 142 to 146 of [predict_hier_from_df]: the second stage.  It
    returns the local score vector [s_dos], which exists only when some row
    is malicious, next to the labels [tri].  A classifier sees a table
    through its rows, so [X[is_mal]] is the rows at the positions where the
    mask holds. *)
Definition stage2 (art : hier_artifacts) (X : list record) (is_mal : list bool)
  : M (option (list float) * list Z) :=
  let tri := repeat 0 (length X) in
  if existsb id is_mal then
    let s_dos := repeat 0%float (length X) in
    p <~ call_predict_proba ModelDos (pipe_dos art) (mask X is_mal) ;;
    let s_dos := scatter is_mal p s_dos in
    ge <~ lift (array_ge (mask s_dos is_mal) (t2 art)) ;;
    ret (Some s_dos, scatter is_mal (map (fun b => Z.b2z b + 1) ge) tri)
  else ret (None, tri).

(** The prediction once the artifacts are loaded. *)
Definition predict_hier (art : hier_artifacts) (df_features : DataFrame)
  : M hier_predictions :=
  names <~ lift (labels (feats art)) ;;
  X <~ lift (select df_features names) ;;
  s_bin <~ call_predict_proba ModelBin (pipe_bin art) (frame_rows X) ;;
  is_mal <~ lift (array_ge s_bin (t1 art)) ;;
  st <~ stage2 art (frame_rows X) is_mal ;;
  labels_bin <~ lift (array_ge s_bin (t1 art)) ;;
  ret {| binary_scores := s_bin;
         binary_labels := map Z.b2z labels_bin;
         tri_labels := snd st |}.

Definition predict_hier_from_df (fs : filesystem) (df_features : DataFrame)
  (art_dir : string) : M hier_predictions :=
  art <~ lift (load_hier_artifacts fs art_dir) ;;
  predict_hier art df_features.

(** The dict that [predict_from_df] and [predict_hier_from_df] return: the
    binary scores and labels come together, the three-way labels may be
    absent. *)
Record predictions : Type := {
  out_binary : option (list float * list Z);
  out_tri : option (list raw_label)
}.

Definition is_mode (m : string) (ms : list string) : bool :=
  existsb (String.eqb m) ms.

Definition predict_from_df (fs : filesystem) (df_features : DataFrame)
  (mode art_dir : string) : M predictions :=
  art <~ lift (load_flat_artifacts fs art_dir) ;;
  names <~ lift (labels (flat_feats art)) ;;
  X <~ lift (select df_features names) ;;
  bin <~ (if is_mode mode ["binary"; "both"]%string then
            scores <~ call_predict_proba ModelBin (flat_pipe_bin art) (frame_rows X) ;;
            ge <~ lift (array_ge scores (flat_th art)) ;;
            ret (Some (scores, map Z.b2z ge))
          else ret None) ;;
  tri <~ (if is_mode mode ["tri"; "both"]%string then
            ls <~ call_predict ModelTri (flat_pipe_tri art) (frame_rows X) ;;
            ret (Some ls)
          else ret None) ;;
  ret {| out_binary := bin; out_tri := tri |}.

Definition TRI_LABEL_NAMES (k : Z) : option string :=
  if k =? 0 then Some "normal"%string
  else if k =? 1 then Some "dos"%string
  else if k =? 2 then Some "other_attack"%string
  else None.

(** A cell of [df["tri_label"].map(TRI_LABEL_NAMES)]: a label that is not a
    key of the dict maps to NaN. *)
Definition map_tri_name (l : raw_label) : pyval :=
  match l with
  | IntLike k => match TRI_LABEL_NAMES k with
                 | Some name => VStr name
                 | None => VFloat nan
                 end
  | StrLike _ => VFloat nan
  end.

Definition raw_is_int (l : raw_label) : bool :=
  match l with IntLike _ => true | StrLike _ => false end.

Definition raw_cell (l : raw_label) : pyval :=
  match l with IntLike n => VInt n | StrLike s => VStr s end.

(** The column an array of labels makes. *)
Definition label_column (ls : list raw_label) : column :=
  if forallb raw_is_int ls
  then Int64Col (map (fun l => match l with IntLike n => n | StrLike _ => 0 end) ls)
  else ObjectCol (map raw_cell ls).

Definition save_predictions_csv (fs : filesystem) (df_features : DataFrame)
  (out_csv mode art_dir : string) : M DataFrame :=
  out <~ (if String.eqb mode "flat" then
            predict_from_df fs df_features "both" art_dir
          else
            h <~ predict_hier_from_df fs df_features art_dir ;;
            ret {| out_binary := Some (binary_scores h, binary_labels h);
                   out_tri := Some (map IntLike (tri_labels h)) |}) ;;
  let df_out := df_features in
  let df_out :=
    match out_binary out with
    | Some (scores, ls) =>
        set_col (set_col df_out "bin_prob_mal" (Float64Col scores))
                "bin_label" (Int64Col ls)
    | None => df_out
    end in
  let df_out :=
    match out_tri out with
    | Some ls =>
        set_col (set_col df_out "tri_label" (label_column ls))
                "final_label" (ObjectCol (map map_tri_name ls))
    | None => df_out
    end in
  _ <~ to_csv df_out out_csv ;;
  ret df_out.

(** ** The command line driver: [main] of [classify_flows.py]

    The messages [main] prints, the label counts among them, are not part of
    the model. *)

(** The parsed arguments: [--data], [--eve], [--zeek] (one of them is
    given), [--mode], [--models] and [--out]. *)
Record args : Type := {
  arg_data : option string;
  arg_eve : option string;
  arg_zeek : option string;
  arg_mode : string;
  arg_models : string;
  arg_out : string
}.

(** [if args.x]: the option was given and is not the empty string. *)
Definition given (a : option string) : option string :=
  match a with
  | Some p => if String.eqb p "" then None else Some p
  | None => None
  end.

Section Main.
Context {rt : PyRuntime}.

(** The loading part of [main]: the adapter the arguments select. *)
Definition load_flows (fs : filesystem) (a : args) : result DataFrame :=
  match given (arg_data a) with
  | Some p => load_features_from_csv fs p (arg_models a)
  | None =>
      match given (arg_eve a) with
      | Some p => suricata_eve_to_features_df fs p (arg_models a)
      | None =>
          match arg_zeek a with
          | Some p => zeek_conn_to_features_df fs p (arg_models a)
          | None =>
              (* [zeek_conn_to_features_df(None, ...)]: the manifest is read
                 first, then [open(None)] raises *)
              _ <- get_feature_list fs (arg_models a) ;;
              Raise TypeError
          end
      end
  end.

Definition no_flows_message : string := "[ERROR] No flows found to classify.".

Definition main (fs : filesystem) (a : args) : M DataFrame :=
  df_feats <~ lift (load_flows fs a) ;;
  if empty df_feats then lift (Raise (SystemExit no_flows_message))
  else if String.eqb (arg_mode a) "hier" then
    save_predictions_csv fs df_feats (arg_out a) "hier" (arg_models a)
  else
    save_predictions_csv fs df_feats (arg_out a) "flat" (arg_models a).

End Main.

(** ** The serving path: [ml_rest_server.py] *)

Definition lower_ascii (c : ascii) : ascii :=
  let n := nat_of_ascii c in
  if ((65 <=? n) && (n <=? 90))%nat then ascii_of_nat (n + 32) else c.

(** [s.lower()].  The text is a string of bytes: the capital letters of
    ASCII are lowered and every other byte is kept, which decides the
    comparisons with ["normal"] and ["dos"] as Python's [lower] does. *)
Fixpoint lower (s : string) : string :=
  match s with
  | EmptyString => EmptyString
  | String c rest => String (lower_ascii c) (lower rest)
  end.

(** [load_model(filename)], with the directory [MODELS_DIR]. *)
Definition load_model (fs : filesystem) (MODELS_DIR filename : string)
  : result pipeline :=
  let path := path_join MODELS_DIR filename in
  match fs !! path with
  | None => Raise RuntimeError
  | Some f => joblib_view f
  end.

(** The two models the module loads when it is imported. *)
Record server : Type := {
  model_bin : pipeline;
  model_dos : pipeline
}.

Definition load_server (fs : filesystem) (MODELS_DIR : string) : result server :=
  model_bin <- load_model fs MODELS_DIR "rf_bin.joblib" ;;
  model_dos <- load_model fs MODELS_DIR "rf_dos_vs_other.joblib" ;;
  Ok {| model_bin := model_bin; model_dos := model_dos |}.

Record FlowInput : Type := {
  proto : string;
  service : string;
  spkts : Z;
  dpkts : Z;
  sbytes : Z;
  dbytes : Z;
  dur : float
}.

Record FlowOutput : Type := {
  bin_label : string;
  dos_vs_other_label : option string;
  final_label : string
}.

(** [flow.dict()]. *)
Definition flow_dict (flow : FlowInput) : record :=
  [("proto", VStr (proto flow)); ("service", VStr (service flow));
   ("spkts", VInt (spkts flow)); ("dpkts", VInt (dpkts flow));
   ("sbytes", VInt (sbytes flow)); ("dbytes", VInt (dbytes flow));
   ("dur", VFloat (dur flow))]%string.

Definition _is_attack_label (raw : raw_label) : bool :=
  match raw with
  | IntLike n => n =? 1
  | StrLike s => negb (String.eqb (lower s) "normal")
  end.

Definition _is_dos_label (raw : raw_label) : bool :=
  match raw with
  | IntLike n => n =? 1
  | StrLike s => String.eqb (lower s) "dos"
  end.

(** [a[0]]. *)
Definition first {A : Type} (a : list A) : result A :=
  match a with
  | x :: _ => Ok x
  | [] => Raise IndexError
  end.

(** [classify_flow(row)]: the one-row frame [pd.DataFrame([row])] holds the
    values of the record under its keys. *)
Definition classify_flow (srv : server) (row : record) : M FlowOutput :=
  let df := [row] in
  bin_raws <~ call_predict ModelBin (model_bin srv) df ;;
  bin_raw <~ lift (first bin_raws) ;;
  let is_attack := _is_attack_label bin_raw in
  let bin_label := if is_attack then "attack"%string else "normal"%string in
  if negb is_attack then
    ret {| bin_label := bin_label; dos_vs_other_label := None;
           final_label := "normal" |}
  else
    dos_raws <~ call_predict ModelDos (model_dos srv) df ;;
    dos_raw <~ lift (first dos_raws) ;;
    let is_dos := _is_dos_label dos_raw in
    let dos_vs_other_label := if is_dos then "dos"%string else "other_attack"%string in
    ret {| bin_label := bin_label; dos_vs_other_label := Some dos_vs_other_label;
           final_label := dos_vs_other_label |}.

(** [predict_one(flow)]. *)
Definition predict_one (srv : server) (flow : FlowInput) : M FlowOutput :=
  classify_flow srv (flow_dict flow).

(** * Definitions for the statements *)

Definition text_columns : list string := ["proto"; "service"]%string.

(** The names [_ensure_types] assigns to. *)
Definition coerced_columns : list string :=
  text_columns ++ count_columns ++ ["dur"%string].

(** The value [fillna] leaves in a float column. *)
Definition filled (x : float) : float := if is_nan x then 0%float else x.

Section CoercionSteps.
Context {rt : PyRuntime}.

(** The three coercions of [_ensure_types], by the column they are applied
    to. *)
Definition coerce_text (c : column) : result column := Ok (astype_str c).

Definition coerce_count (c : column) : result column :=
  s <- to_numeric c ;; astype_int (fillna 0%float s).

Definition coerce_dur (c : column) : result column :=
  s <- to_numeric c ;; Ok (astype_float (fillna 0%float s)).

(** The assignments of [_ensure_types] in their order. *)
Definition coercion_steps : list (string * (column -> result column)) :=
  [("proto", coerce_text); ("service", coerce_text);
   ("spkts", coerce_count); ("dpkts", coerce_count);
   ("sbytes", coerce_count); ("dbytes", coerce_count);
   ("dur", coerce_dur)]%string.

Definition run_steps (steps : list (string * (column -> result column)))
  (df : DataFrame) : result DataFrame :=
  for_each steps (fun s d => assign_if_present (fst s) (snd s) d) df.

(** The column a step leaves under a name. *)
Definition apply_step (f : column -> result column) (o : option column)
  : option column :=
  match o with
  | Some col => match f col with Ok col' => Some col' | Raise _ => None end
  | None => None
  end.

(** A cell that is missing or not numeric: [pd.to_numeric] reads it as NaN. *)
Definition reads_as_nan (v : pyval) : bool :=
  match cell_numeric v with
  | Ok (NFloat x) => is_nan x
  | _ => false
  end.

(** A cell of a count column that the conversion and the cast to int64
    accept: it does not read as an infinite number, which an infinite float
    does, a text that reads as one, and an integer too large for a
    float64. *)
Definition count_ok (v : pyval) : bool :=
  match cell_numeric v with
  | Ok n => negb (is_infinity (num_to_float n))
  | Raise _ => false
  end.

(** A cell of the duration column that the conversion accepts: it is not an
    integer too large for a float64.  An infinite float is accepted. *)
Definition dur_ok (v : pyval) : bool := is_ok (cell_numeric v).

(** The integer a cell of a count column becomes, where the cell alone
    decides it: 0 for a cell that is missing or not numeric, 0 or 1 for a
    boolean, an integer of magnitude at most 2^53 itself, and a float
    truncated toward zero when the result is an int64.  A larger integer
    depends on the other cells of its column (with a float or a missing
    value among them it passes through float64, and above int64 it wraps
    around), and so does nothing here. *)
Definition count_value (v : pyval) : option Z :=
  match cell_numeric v with
  | Ok (NBool b) => Some (Z.b2z b)
  | Ok (NInt z) => if Z.abs z <=? 2 ^ 53 then Some z else None
  | Ok (NFloat x) =>
      if is_nan x then Some 0
      else if is_finite x && in_int64 (trunc_float x) then Some (trunc_float x)
      else None
  | Ok (NText z x) =>
      (* an integer written as text, when the float of the parser is that
         integer *)
      if (Z.abs z <=? 2 ^ 53) && is_finite x && (trunc_float x =? z) then Some z
      else None
  | Raise _ => None
  end.

(** The float a cell of the duration column becomes: 0.0 for a cell that is
    missing or not numeric, 0.0 or 1.0 for a boolean, the float64 nearest to
    an integer, and a float that equals the float of the cell (which is that
    float, but for the sign of a zero).  An integer written as text becomes
    the float64 nearest to it or the float the parser gives the text, which
    are one float unless the integer is long. *)
Definition dur_value (v : pyval) (x : float) : Prop :=
  match cell_numeric v with
  | Ok (NBool b) => x = float_of_bool b
  | Ok (NInt z) => x = float_of_Z z
  | Ok (NFloat y) => if is_nan y then x = 0%float else (x =? y)%float = true
  | Ok (NText z y) => x = float_of_Z z \/ x = filled y
  | Raise _ => True
  end.

(** What a column is to a name of the schema once it is coerced ([col] before,
    [col'] after).  A text column holds [str] of each cell that is not
    missing, and for a missing cell what the version of pandas makes of it:
    its [str], or a missing value again.  A count column is an int64 column
    with the values of [count_value], 0 where the cell was missing or not
    numeric; the duration is a float64 column with the values of
    [dur_value], 0.0 there; any other column is kept. *)
Definition coerced (c : string) (col col' : column) : Prop :=
  length (cells col') = length (cells col) /\
  (c ∈ text_columns ->
   forall i v, cells col !! i = Some v ->
     cells col' !! i
     = Some (if is_missing v && str_keeps_missing then VFloat nan
             else VStr (py_str v))) /\
  (c ∈ count_columns ->
   exists ns, col' = Int64Col ns /\
     forall i v n, cells col !! i = Some v -> count_value v = Some n ->
                   ns !! i = Some n) /\
  (c = "dur"%string ->
   exists xs, col' = Float64Col xs /\
     forall i v, cells col !! i = Some v ->
                 exists x, xs !! i = Some x /\ dur_value v x) /\
  (c ∉ coerced_columns -> col' = col).

End CoercionSteps.

(** ** Inputs of the examples *)

(** A runtime for the examples: it reads plain decimal integers, prints the
    floats that are integers below ten to the sixteenth, NaN and the
    infinities as Python does, and leaves the other texts unspecified.  It
    renders a missing cell as text, as pandas 2 does; [example_runtime_3]
    keeps it missing, as pandas 3 does. *)
Definition example_parse_numeric (s : string) : option text_num :=
  match NilZero.int_of_string s with
  | Some d => Some (TextInt (Z.of_int d) (float_of_Z (Z.of_int d)))
  | None => None
  end.

Definition example_float_repr (x : float) : string :=
  if is_nan x then "nan"
  else if is_infinity x then (if (x <? 0)%float then "-inf" else "inf")
  else
    let t := trunc_float x in
    if (float_of_Z t =? x)%float && (Z.abs t <? 10 ^ 16) then
      (if get_sign x then "-" else "") +:+ str_of_Z (Z.abs t) +:+ ".0"
    else "<float>".

Definition example_runtime : PyRuntime :=
  {| float_repr := example_float_repr;
     container_str := fun _ => "<container>"%string;
     parse_numeric := example_parse_numeric;
     str_keeps_missing := false |}.

Definition example_runtime_3 : PyRuntime :=
  {| float_repr := example_float_repr;
     container_str := fun _ => "<container>"%string;
     parse_numeric := example_parse_numeric;
     str_keeps_missing := true |}.

(** The seven names of the canonical schema, in order. *)
Definition canonical_features : list string :=
  ["proto"; "service"; "spkts"; "dpkts"; "sbytes"; "dbytes"; "dur"]%string.

(** A raw table of two rows with text, numbers, missing values and text that
    is not numeric. *)
Definition example_raw_frame : DataFrame :=
  {| nrows := 2;
     cols := [("proto", ObjectCol [VStr "tcp"; VInt 6]);
              ("service", ObjectCol [VStr "-"; VStr "http"]);
              ("spkts", ObjectCol [VStr "abc"; VInt 10]);
              ("dpkts", Int64Col [1; 2]);
              ("sbytes", Float64Col [nan; 0x1.d99999999999ap+1%float]);
              ("dbytes", ObjectCol [VNone; VStr "2000"]);
              ("dur", ObjectCol [VStr "x"; VFloat 0x1.ccccccccccccdp-2%float])]%string |}.

(** The same table once coerced. *)
Definition example_coerced_frame : DataFrame :=
  {| nrows := 2;
     cols := [("proto", ObjectCol [VStr "tcp"; VStr "6"]);
              ("service", ObjectCol [VStr "-"; VStr "http"]);
              ("spkts", Int64Col [0; 10]);
              ("dpkts", Int64Col [1; 2]);
              ("sbytes", Int64Col [0; 3]);
              ("dbytes", Int64Col [0; 2000]);
              ("dur", Float64Col [0%float; 0x1.ccccccccccccdp-2%float])]%string |}.

(** One row whose protocol is the number 6, and one row whose packet count
    is infinite. *)
Definition frame_proto_6 : DataFrame :=
  {| nrows := 1;
     cols := [("proto", Int64Col [6]); ("service", ObjectCol [VStr "http"]);
              ("spkts", Int64Col [10]); ("dpkts", Int64Col [8]);
              ("sbytes", Int64Col [1500]); ("dbytes", Int64Col [2000]);
              ("dur", Float64Col [0x1.ccccccccccccdp-2%float])]%string |}.

Definition frame_infinite_count : DataFrame :=
  {| nrows := 1;
     cols := [("proto", ObjectCol [VStr "tcp"]); ("service", ObjectCol [VStr "http"]);
              ("spkts", Float64Col [infinity]); ("dpkts", Int64Col [8]);
              ("sbytes", Int64Col [1500]); ("dbytes", Int64Col [2000]);
              ("dur", Float64Col [0x1.ccccccccccccdp-2%float])]%string |}.

(** One row whose service is missing, and one row whose duration is the
    integer 2^1024, which no float64 holds. *)
Definition frame_missing_service : DataFrame :=
  {| nrows := 1;
     cols := [("proto", ObjectCol [VStr "tcp"]); ("service", ObjectCol [VNone]);
              ("spkts", Int64Col [10]); ("dpkts", Int64Col [8]);
              ("sbytes", Int64Col [1500]); ("dbytes", Int64Col [2000]);
              ("dur", Float64Col [0x1.ccccccccccccdp-2%float])]%string |}.

Definition frame_huge_duration : DataFrame :=
  {| nrows := 1;
     cols := [("proto", ObjectCol [VStr "tcp"]); ("service", ObjectCol [VStr "http"]);
              ("spkts", Int64Col [10]); ("dpkts", Int64Col [8]);
              ("sbytes", Int64Col [1500]); ("dbytes", Int64Col [2000]);
              ("dur", ObjectCol [VInt (2 ^ 1024)])]%string |}.

(** The raw table of [example_raw_frame] without its service column. *)
Definition raw_frame_no_service : DataFrame :=
  {| nrows := 2;
     cols := [("proto", ObjectCol [VStr "tcp"; VInt 6]);
              ("spkts", ObjectCol [VStr "abc"; VInt 10]);
              ("dpkts", Int64Col [1; 2]);
              ("sbytes", Float64Col [nan; 0x1.d99999999999ap+1%float]);
              ("dbytes", ObjectCol [VNone; VStr "2000"]);
              ("dur", ObjectCol [VStr "x"; VFloat 0x1.ccccccccccccdp-2%float])]%string |}.

(** A table whose count columns hold an integer above int64, a float beside
    an integer, a boolean beside a missing value and a text beside a
    negative integer, and what the coercion makes of it. *)
Definition frame_wide_counts : DataFrame :=
  {| nrows := 2;
     cols := [("proto", ObjectCol [VStr "tcp"; VStr "udp"]);
              ("service", ObjectCol [VStr "http"; VNone]);
              ("spkts", ObjectCol [VInt (2 ^ 64 - 1); VInt 7]);
              ("dpkts", ObjectCol [VInt 8; VFloat 0x1.4p+1%float]);
              ("sbytes", ObjectCol [VBool true; VNone]);
              ("dbytes", ObjectCol [VStr "2000"; VInt (-3)]);
              ("dur", ObjectCol [VInt 3; VStr ""])]%string |}.

Definition frame_wide_counts_coerced : DataFrame :=
  {| nrows := 2;
     cols := [("proto", ObjectCol [VStr "tcp"; VStr "udp"]);
              ("service", ObjectCol [VStr "http"; VStr "None"]);
              ("spkts", Int64Col [-1; 7]);
              ("dpkts", Int64Col [8; 2]);
              ("sbytes", Int64Col [1; 0]);
              ("dbytes", Int64Col [2000; -3]);
              ("dur", Float64Col [3%float; 0%float])]%string |}.


(** ** Statements about the loaders *)

(** The files each loader reads. *)
Definition hier_files : list string :=
  ["rf_bin.joblib"; "rf_dos_vs_other.joblib"; "bin_threshold.json";
   "dos_threshold.json"; "features.json"]%string.

Definition flat_files : list string :=
  ["rf_bin.joblib"; "rf_tri.joblib"; "bin_threshold.json"; "features.json"]%string.

(** A directory exists when it holds a file. *)
Definition dir_exists (fs : filesystem) (d : string) : Prop :=
  exists name, is_Some (fs !! path_join d name).

(** The threshold a file of the directory holds: the file is JSON and the
    value is a dict with the key "threshold". *)
Definition threshold_of (fs : filesystem) (d name : string) : result pyval :=
  j <- json_load fs (path_join d name) ;; py_index j "threshold".

(** Example files. *)
Definition joblib_file (p : pipeline) : file :=
  {| joblib_view := Ok p; json_view := Raise JSONDecodeError;
     lines_view := Raise ValueError; csv_view := Raise ValueError |}.

(** A JSON document written on one line. *)
Definition json_file (v : pyval) : file :=
  {| joblib_view := Raise UnpicklingError; json_view := Ok v;
     lines_view := Ok [Json v]; csv_view := Raise ValueError |}.

Definition log_file (ls : list line) : file :=
  {| joblib_view := Raise UnpicklingError; json_view := Raise JSONDecodeError;
     lines_view := Ok ls; csv_view := Raise ValueError |}.

(** A classifier that gives every row the same label and the same score. *)
Definition constant_pipeline (l : raw_label) (p : float) : pipeline :=
  {| predict := fun _ => l; predict_proba := fun _ => p |}.

Definition threshold_json (t : pyval) : pyval := VDict [("threshold"%string, t)].

Definition features_json (names : list string) : pyval := VList (map VStr names).

(** A directory whose thresholds are 7.5 and the text "high" and whose
    manifest is empty. *)
Definition fs_unvalidated : filesystem :=
  list_to_map
    [("models/rf_bin.joblib", joblib_file (constant_pipeline (IntLike 0) 0%float));
     ("models/rf_dos_vs_other.joblib", joblib_file (constant_pipeline (IntLike 0) 0%float));
     ("models/rf_tri.joblib", joblib_file (constant_pipeline (IntLike 0) 0%float));
     ("models/bin_threshold.json", json_file (threshold_json (VFloat 0x1.ep+2%float)));
     ("models/dos_threshold.json", json_file (threshold_json (VStr "high")));
     ("models/features.json", json_file (VList []))]%string.

(** ** Statements about the label normalisation *)

(** The representations of a label the serving code names: the integers 0
    and 1, and the texts "normal" and "dos", in any letter case. *)
Definition recognized (raw : raw_label) : bool :=
  match raw with
  | IntLike n => (n =? 0) || (n =? 1)
  | StrLike s => String.eqb (lower s) "normal" || String.eqb (lower s) "dos"
  end.

(** ** Inputs of the examples of the classifiers *)

(** The one-row table of a record of the canonical schema. *)
Definition flow_frame (flow : FlowInput) : DataFrame :=
  {| nrows := 1;
     cols := [("proto", ObjectCol [VStr (proto flow)]);
              ("service", ObjectCol [VStr (service flow)]);
              ("spkts", Int64Col [spkts flow]);
              ("dpkts", Int64Col [dpkts flow]);
              ("sbytes", Int64Col [sbytes flow]);
              ("dbytes", Int64Col [dbytes flow]);
              ("dur", Float64Col [dur flow])]%string |}.

Definition example_flow : FlowInput :=
  {| proto := "tcp"; service := "http"; spkts := 10; dpkts := 8;
     sbytes := 1500; dbytes := 2000; dur := 0x1.ccccccccccccdp-2%float |}.

(** A models directory with the two gates, their thresholds and the
    canonical manifest. *)
Definition models_dir (bin dos : pipeline) (th1 th2 : float) : filesystem :=
  list_to_map
    [("models/rf_bin.joblib", joblib_file bin);
     ("models/rf_dos_vs_other.joblib", joblib_file dos);
     ("models/bin_threshold.json", json_file (threshold_json (VFloat th1)));
     ("models/dos_threshold.json", json_file (threshold_json (VFloat th2)));
     ("models/features.json", json_file (features_json canonical_features))]%string.

(** Both gates score every row 0.5, and both thresholds are 0.5. *)
Definition fs_ties : filesystem :=
  models_dir (constant_pipeline (IntLike 1) 0x1p-1%float)
             (constant_pipeline (IntLike 1) 0x1p-1%float)
             0x1p-1%float 0x1p-1%float.

(** A classifier in the manner of scikit-learn: every row has the score
    [p], and the label is the class of the larger probability, 1 when [p]
    is above one half. *)
Definition argmax_pipeline (p : float) : pipeline :=
  {| predict := fun _ => IntLike (if (0x1p-1 <? p)%float then 1 else 0);
     predict_proba := fun _ => p |}.

(** Both gates score every row 0.4; the first threshold is 0.3 and the
    second 0.5. *)
Definition fs_low_threshold : filesystem :=
  models_dir (argmax_pipeline 0x1.999999999999ap-2%float)
             (argmax_pipeline 0x1.999999999999ap-2%float)
             0x1.3333333333333p-2%float 0x1p-1%float.

(** The serving process that has loaded the two gates of a bundle. *)
Definition server_of (art : hier_artifacts) : server :=
  {| model_bin := pipe_bin art; model_dos := pipe_dos art |}.

(** The bundle of [fs_ties]. *)
Definition art_ties : hier_artifacts :=
  {| pipe_bin := constant_pipeline (IntLike 1) 0x1p-1%float;
     pipe_dos := constant_pipeline (IntLike 1) 0x1p-1%float;
     t1 := VFloat 0x1p-1%float; t2 := VFloat 0x1p-1%float;
     feats := features_json canonical_features |}.

(** A classifier that looks at the packet count: above a hundred packets
    the score is 0.9 and the label 1, else 0.1 and 0. *)
Definition many_packets (r : record) : bool :=
  match assoc "spkts"%string r with
  | Some (VInt n) => 100 <? n
  | _ => false
  end.

Definition packet_pipeline : pipeline :=
  {| predict := fun r => IntLike (if many_packets r then 1 else 0);
     predict_proba := fun r => if many_packets r
                               then 0x1.ccccccccccccdp-1%float
                               else 0x1.999999999999ap-4%float |}.

Definition fs_packets : filesystem :=
  models_dir packet_pipeline packet_pipeline 0x1p-1%float 0x1p-1%float.

(** A coerced table of two flows, of 10 and of 500 packets. *)
Definition two_flows_frame : DataFrame :=
  {| nrows := 2;
     cols := [("proto", ObjectCol [VStr "tcp"; VStr "udp"]);
              ("service", ObjectCol [VStr "http"; VStr "dns"]);
              ("spkts", Int64Col [10; 500]);
              ("dpkts", Int64Col [8; 0]);
              ("sbytes", Int64Col [1500; 64000]);
              ("dbytes", Int64Col [2000; 0]);
              ("dur", Float64Col [0x1.ccccccccccccdp-2%float; 0x1p-1%float])]%string |}.

(** What the batch path predicts for it with the bundle of [fs_packets]. *)
Definition predictions_packets : hier_predictions :=
  {| binary_scores := [0x1.999999999999ap-4%float; 0x1.ccccccccccccdp-1%float];
     binary_labels := [0; 1];
     tri_labels := [0; 2] |}.

(** ** Inputs of the examples of the adapters and of [main] *)

(** A flow event with its statistics and neither protocol field. *)
Definition flow_event : pyval :=
  VDict [("event_type", VStr "flow");
         ("flow", VDict [("pkts_toserver", VInt 10); ("pkts_toclient", VInt 8);
                         ("bytes_toserver", VInt 1500); ("bytes_toclient", VInt 2000);
                         ("duration", VFloat 0x1.ccccccccccccdp-2%float)])]%string.

Definition dns_event : pyval :=
  VDict [("event_type", VStr "dns"); ("proto", VStr "UDP")]%string.

(** A directory with the manifest, and a log next to it. *)
Definition fs_with_log (ls : list line) : filesystem :=
  list_to_map
    [("models/features.json", json_file (features_json canonical_features));
     ("eve.json", log_file ls)]%string.

(** A log with a flow event, another event, a blank line and a line that is
    not JSON. *)
Definition fs_eve_scenario : filesystem :=
  fs_with_log [Json dns_event; Blank; Json flow_event; Garbled].

(** A log whose second line is the JSON text 42. *)
Definition fs_eve_scalar_line : filesystem :=
  fs_with_log [Json flow_event; Json (VInt 42)].

(** A log without any flow event. *)
Definition fs_eve_no_flow : filesystem :=
  fs_with_log [Json dns_event; Blank; Garbled].

Definition args_eve : args :=
  {| arg_data := None; arg_eve := Some "eve.json"%string; arg_zeek := None;
     arg_mode := "hier"; arg_models := "models"; arg_out := "out.csv" |}.

(** The canonical table without rows, as the coercion leaves it. *)
Definition empty_canonical_frame : DataFrame :=
  {| nrows := 0;
     cols := [("proto", ObjectCol []); ("service", ObjectCol []);
              ("spkts", Int64Col []); ("dpkts", Int64Col []);
              ("sbytes", Int64Col []); ("dbytes", Int64Col []);
              ("dur", Float64Col [])]%string |}.

(** A line the loop of the intrusion-event adapter passes over: a blank
    line, a line that is not JSON, and an event that is not a flow.  A line
    for which [json.loads] raises another exception than [JSONDecodeError]
    is not passed over. *)
Definition passed_over (l : line) : Prop :=
  match l with
  | Blank => True
  | Raises e => e = JSONDecodeError
  | Json d => exists kv, d = VDict kv /\
                         py_ne_str (match assoc "event_type"%string kv with
                                    | Some v => v
                                    | None => VNone
                                    end) "flow" = true
  end.

(** ** Definitions for the further properties *)

Definition is_dict (v : pyval) : bool :=
  match v with VDict _ => true | _ => false end.

(** A line that does not end the loop of an adapter before its body: it is
    blank, [json.loads] returns a value for it, or the exception
    [json.loads] raises is [JSONDecodeError]. *)
Definition readable (l : line) : bool :=
  match l with
  | Raises JSONDecodeError => true
  | Raises _ => false
  | _ => true
  end.

(** The values of the lines of a log that [json.loads] accepts, in order. *)
Definition parsed (ls : list line) : list pyval :=
  flat_map (fun l => match l with Json d => [d] | _ => [] end) ls.

(** A connection record whose service is the empty text. *)
Definition zeek_event : pyval :=
  VDict [("proto", VStr "tcp"); ("service", VStr "");
         ("orig_pkts", VInt 3); ("resp_pkts", VInt 2);
         ("orig_bytes", VInt 180); ("resp_bytes", VInt 120);
         ("duration", VFloat 0x1p-1%float)]%string.

(** A manifest of six names. *)
Definition six_features : list string :=
  ["proto"; "service"; "spkts"; "dpkts"; "sbytes"; "dbytes"]%string.

Definition fs_six_features : filesystem :=
  list_to_map
    [("models/features.json", json_file (features_json six_features));
     ("eve.json", log_file [Json flow_event])]%string.

(** The table without rows that has the named columns. *)
Definition empty_frame (names : list string) : DataFrame :=
  {| nrows := 0; cols := map (fun c => (c, ObjectCol [])) names |}.

(** A CSV export with the canonical columns and one more. *)
Definition csv_frame : DataFrame :=
  {| nrows := 2;
     cols := [("id", Int64Col [1; 2]);
              ("proto", ObjectCol [VStr "tcp"; VStr "udp"]);
              ("service", ObjectCol [VStr "http"; VStr "dns"]);
              ("spkts", Int64Col [10; 500]);
              ("dpkts", Int64Col [8; 0]);
              ("sbytes", Int64Col [1500; 64000]);
              ("dbytes", Int64Col [2000; 0]);
              ("dur", Float64Col [0x1.ccccccccccccdp-2%float; 0x1p-1%float])]%string |}.

Definition csv_file (t : DataFrame) : file :=
  {| joblib_view := Raise UnpicklingError; json_view := Raise JSONDecodeError;
     lines_view := Ok []; csv_view := Ok t |}.

Definition fs_csv (t : DataFrame) : filesystem :=
  list_to_map
    [("models/features.json", json_file (features_json canonical_features));
     ("flows.csv", csv_file t)]%string.

(** The same export without its duration column. *)
Definition csv_frame_no_dur : DataFrame :=
  {| nrows := 2;
     cols := [("proto", ObjectCol [VStr "tcp"; VStr "udp"]);
              ("service", ObjectCol [VStr "-"; VStr "dns"]);
              ("spkts", Int64Col [10; 500]);
              ("dpkts", Int64Col [8; 0]);
              ("sbytes", Int64Col [1500; 64000]);
              ("dbytes", Int64Col [2000; 0])]%string |}.

(** A directory that holds the two gates and nothing else. *)
Definition fs_models_only : filesystem :=
  list_to_map
    [("models/rf_bin.joblib", joblib_file (constant_pipeline (IntLike 0) 0%float));
     ("models/rf_dos_vs_other.joblib",
      joblib_file (constant_pipeline (IntLike 0) 0%float))]%string.

(** The directory of [fs_packets] with a three-way classifier added. *)
Definition fs_three_models : filesystem :=
  <["models/rf_tri.joblib"%string := joblib_file packet_pipeline]> fs_packets.

(** What the batch path predicts for [example_flow] with the bundle of
    [fs_ties]. *)
Definition predictions_ties : hier_predictions :=
  {| binary_scores := [0x1p-1%float]; binary_labels := [1]; tri_labels := [2] |}.

(** The bundle of [fs_packets], and the same with a threshold that is a
    text in the place of the first and of the second threshold. *)
Definition art_packets : hier_artifacts :=
  {| pipe_bin := packet_pipeline; pipe_dos := packet_pipeline;
     t1 := VFloat 0x1p-1%float; t2 := VFloat 0x1p-1%float;
     feats := features_json canonical_features |}.

Definition art_text_t1 : hier_artifacts :=
  {| pipe_bin := packet_pipeline; pipe_dos := packet_pipeline;
     t1 := VStr "high"; t2 := VFloat 0x1p-1%float;
     feats := features_json canonical_features |}.

Definition art_text_t2 : hier_artifacts :=
  {| pipe_bin := packet_pipeline; pipe_dos := packet_pipeline;
     t1 := VFloat 0x1p-1%float; t2 := VStr "high";
     feats := features_json canonical_features |}.

(** The flat predictions of [fs_three_models] for [two_flows_frame]. *)
Definition flat_predictions_packets : predictions :=
  {| out_binary := Some ([0x1.999999999999ap-4%float; 0x1.ccccccccccccdp-1%float],
                         [0; 1]);
     out_tri := Some [IntLike 0; IntLike 1] |}.

(** The flat bundle of [fs_three_models]. *)
Definition flat_art_packets : flat_artifacts :=
  {| flat_pipe_bin := packet_pipeline; flat_pipe_tri := packet_pipeline;
     flat_th := VFloat 0x1p-1%float;
     flat_feats := features_json canonical_features |}.

(** The events that write a file. *)
Definition is_write (e : event) : bool :=
  match e with ToCsv _ _ => true | _ => false end.

(** The columns the batch runner adds in hierarchical mode. *)
Definition derived_columns : list string :=
  ["bin_prob_mal"; "bin_label"; "tri_label"; "final_label"]%string.

(** The table the batch runner returns for [two_flows_frame] with the bundle
    of [fs_packets]. *)
Definition two_flows_labelled : DataFrame :=
  {| nrows := 2;
     cols := [("proto", ObjectCol [VStr "tcp"; VStr "udp"]);
              ("service", ObjectCol [VStr "http"; VStr "dns"]);
              ("spkts", Int64Col [10; 500]);
              ("dpkts", Int64Col [8; 0]);
              ("sbytes", Int64Col [1500; 64000]);
              ("dbytes", Int64Col [2000; 0]);
              ("dur", Float64Col [0x1.ccccccccccccdp-2%float; 0x1p-1%float]);
              ("bin_prob_mal",
               Float64Col [0x1.999999999999ap-4%float; 0x1.ccccccccccccdp-1%float]);
              ("bin_label", Int64Col [0; 1]);
              ("tri_label", Int64Col [0; 2]);
              ("final_label", ObjectCol [VStr "normal"; VStr "other_attack"])]%string |}.

(** * Properties *)

(** ** Floats: conversions never produce NaN, and equality implies order *)

Lemma is_nan_Prim2SF (x : float) : is_nan x = true <-> Prim2SF x = S754_nan.
Proof.
  unfold Prim2SF. destruct (is_nan x); [tauto|].
  split; [discriminate|].
  destruct (is_zero x); [discriminate|].
  destruct (is_infinity x); [discriminate|].
  destruct (Z.frexp x) as [r ex].
  destruct (shr_fexp _ _ _ _ _) as [sh e'].
  destruct (shr_m sh); discriminate.
Qed.

Lemma not_nan_Prim2SF (x : float) : Prim2SF x <> S754_nan -> is_nan x = false.
Proof.
  intros H. destruct (is_nan x) eqn:E; [|reflexivity].
  apply is_nan_Prim2SF in E. contradiction.
Qed.

Lemma shr_1_nonneg mrs : 0 <= shr_m mrs -> 0 <= shr_m (shr_1 mrs).
Proof.
  destruct mrs as [m r s]. simpl.
  destruct m as [|p|p]; simpl; try lia; destruct p; simpl; lia.
Qed.

Lemma iter_pos_nonneg p : forall mrs, 0 <= shr_m mrs -> 0 <= shr_m (SpecFloat.iter_pos shr_1 p mrs).
Proof.
  induction p as [p IH|p IH|]; intros mrs H; simpl.
  - apply IH, IH, shr_1_nonneg, H.
  - apply IH, IH, H.
  - apply shr_1_nonneg, H.
Qed.

Lemma shr_fexp_nonneg pr em m e l :
  0 <= m -> 0 <= shr_m (fst (shr_fexp pr em m e l)).
Proof.
  intros H. unfold shr_fexp, shr.
  assert (H0 : 0 <= shr_m (shr_record_of_loc m l)).
  { destruct l as [|[]]; simpl; exact H. }
  destruct (_ - e) as [|p|p]; simpl; try exact H0.
  apply iter_pos_nonneg, H0.
Qed.

Lemma round_nearest_even_nonneg m l : 0 <= m -> 0 <= round_nearest_even m l.
Proof.
  intros H. destruct l as [|[]]; simpl; try lia.
  destruct (Z.even m); lia.
Qed.

Lemma binary_round_aux_not_nan pr em sx m e l :
  0 <= m -> binary_round_aux pr em sx m e l <> S754_nan.
Proof.
  intros H. unfold binary_round_aux.
  pose proof (shr_fexp_nonneg pr em m e l H) as H1.
  destruct (shr_fexp pr em m e l) as [mrs' e']. simpl in H1.
  pose proof (shr_fexp_nonneg pr em _ e' loc_Exact
                (round_nearest_even_nonneg _ (loc_of_shr_record mrs') H1)) as H2.
  destruct (shr_fexp pr em _ e' loc_Exact) as [mrs'' e'']. simpl in H2.
  destruct (shr_m mrs'') as [|p|p]; try discriminate; [|lia].
  destruct (e'' <=? em - pr); discriminate.
Qed.

Lemma binary_round_not_nan pr em sx m e : binary_round pr em sx m e <> S754_nan.
Proof.
  unfold binary_round. destruct (shl_align _ _ _) as [mz ez].
  apply binary_round_aux_not_nan. lia.
Qed.

Lemma binary_normalize_not_nan pr em m e sz : binary_normalize pr em m e sz <> S754_nan.
Proof.
  destruct m; simpl; [discriminate| |]; apply binary_round_not_nan.
Qed.

Lemma SF2Prim_not_nan (r : spec_float) : r <> S754_nan -> is_nan (SF2Prim r) = false.
Proof.
  intros H. destruct r as [[]|[]| |s m e]; try reflexivity; [contradiction|].
  apply not_nan_Prim2SF. unfold SF2Prim.
  assert (Hl : Prim2SF (Z.ldexp (of_uint63 (Uint63.of_Z (Z.pos m))) e) <> S754_nan).
  { rewrite Z_ldexp_spec, of_uint63_spec. unfold SFldexp.
    pose proof (binary_normalize_not_nan prec emax
                  (Uint63.to_Z (Uint63.of_Z (Z.pos m))) 0 false) as Hn.
    destruct (binary_normalize _ _ _ _ _); try discriminate; [contradiction|].
    apply binary_round_not_nan. }
  destruct s; [|exact Hl].
  rewrite opp_spec. destruct (Prim2SF _); simpl; try discriminate. contradiction.
Qed.

Lemma float_of_Z_not_nan (n : Z) : is_nan (float_of_Z n) = false.
Proof. apply SF2Prim_not_nan, binary_normalize_not_nan. Qed.

Lemma SFcompare_Eq_sym x y : SFcompare x y = Some Eq -> SFcompare y x = Some Eq.
Proof.
  destruct x as [sx|sx| |sx mx ex], y as [sy|sy| |sy my ey]; simpl; try discriminate; auto;
    try (destruct sx; discriminate); try (destruct sy; discriminate).
  - destruct sx, sy; auto; discriminate.
  - intros H.
    assert (Hm : ex = ey /\ mx = my).
    { destruct sx, sy; try discriminate;
        destruct (ex ?= ey) eqn:E; try discriminate;
        apply Z.compare_eq in E; split; trivial; apply Pos.compare_eq;
        unfold Pos.compare; destruct (Pos.compare_cont Eq mx my); try discriminate;
        reflexivity. }
    destruct Hm as [-> ->]. destruct sx, sy; try discriminate; exact H.
Qed.

Lemma eqb_leb (s t : float) : (s =? t)%float = true -> (t <=? s)%float = true.
Proof.
  rewrite FloatAxioms.eqb_spec, FloatAxioms.leb_spec. unfold SFeqb, SFleb.
  destruct (SFcompare (Prim2SF s) (Prim2SF t)) as [[]|] eqn:E; try discriminate.
  intros _. rewrite (SFcompare_Eq_sym _ _ E). reflexivity.
Qed.

(** ** Floats: integers of at most 53 bits are held exactly *)

Lemma digits2_pos_bounds (m : positive) :
  2 ^ (Z.pos (digits2_pos m) - 1) <= Z.pos m < 2 ^ Z.pos (digits2_pos m).
Proof.
  induction m as [m IH|m IH|]; simpl digits2_pos.
  - rewrite Pos2Z.inj_succ.
    replace (Z.succ (Z.pos (digits2_pos m)) - 1)
      with (Z.succ (Z.pos (digits2_pos m) - 1)) by lia.
    rewrite !Z.pow_succ_r by lia. lia.
  - rewrite Pos2Z.inj_succ.
    replace (Z.succ (Z.pos (digits2_pos m)) - 1)
      with (Z.succ (Z.pos (digits2_pos m) - 1)) by lia.
    rewrite !Z.pow_succ_r by lia. lia.
  - simpl. lia.
Qed.

Lemma iter_xO_spec (d m : positive) :
  Z.pos (Pos.iter xO m d) = Z.pos m * 2 ^ Z.pos d /\
  digits2_pos (Pos.iter xO m d) = (digits2_pos m + d)%positive.
Proof.
  induction d as [|d [IH1 IH2]] using Pos.peano_ind.
  - simpl. split; [lia|]. rewrite Pos.add_1_r. reflexivity.
  - rewrite Pos.iter_succ. split.
    + rewrite Pos2Z.inj_xO, IH1, Pos2Z.inj_succ, Z.pow_succ_r by lia. lia.
    + simpl. rewrite IH2. lia.
Qed.

Lemma binary_round_aux_exact (s : bool) (m : positive) (e : Z) :
  Z.pos (digits2_pos m) = 53 -> -1074 <= e <= 971 ->
  binary_round_aux prec emax s (Z.pos m) e loc_Exact = S754_finite s m e.
Proof.
  intros Hd He.
  assert (Hz : fexp prec emax (Z.pos (digits2_pos m) + e) - e = 0).
  { rewrite Hd. unfold fexp, emin, prec, emax. lia. }
  unfold binary_round_aux, shr_fexp. cbn [Zdigits2]. rewrite Hz.
  cbn [shr shr_record_of_loc shr_m loc_of_shr_record round_nearest_even Zdigits2].
  rewrite Hz. cbn [shr shr_record_of_loc shr_m].
  replace (e <=? emax - prec) with true; [reflexivity|].
  symmetry. apply Z.leb_le. unfold emax, prec. lia.
Qed.

Lemma binary_round_exact (s : bool) (m : positive) :
  Z.pos m < 2 ^ 53 ->
  exists m' e',
    binary_round prec emax s m 0 = S754_finite s m' e' /\
    SpecFloat.valid_binary prec emax (S754_finite s m' e') = true /\
    e' <= 0 /\ Z.pos m' = Z.pos m * 2 ^ (- e').
Proof.
  intros Hm. pose proof (digits2_pos_bounds m) as [Hlo Hhi].
  assert (Hd : Z.pos (digits2_pos m) <= 53).
  { destruct (Z_le_gt_dec (Z.pos (digits2_pos m)) 53) as [H|H]; [exact H|].
    exfalso. assert (2 ^ 53 <= 2 ^ (Z.pos (digits2_pos m) - 1))
      by (apply Z.pow_le_mono_r; lia). lia. }
  assert (Hf : fexp prec emax (Z.pos (digits2_pos m) + 0) = Z.pos (digits2_pos m) - 53).
  { unfold fexp, emin, prec, emax. lia. }
  unfold binary_round, shl_align. rewrite Hf, Z.sub_0_r.
  destruct (Z.pos (digits2_pos m) - 53) as [|p|p] eqn:Ep; try lia.
  - exists m, 0. rewrite binary_round_aux_exact by lia.
    split; [reflexivity|]. split.
    { unfold SpecFloat.valid_binary, bounded, canonical_mantissa, fexp, emin, prec, emax.
      apply andb_true_iff. split; [apply Z.eqb_eq; lia | apply Z.leb_le; lia]. }
    split; [lia|]. simpl. lia.
  - destruct (iter_xO_spec p m) as [Hv Hdg].
    assert (Hdm : Z.pos (digits2_pos (Pos.iter xO m p)) = 53) by (rewrite Hdg; lia).
    exists (Pos.iter xO m p), (Z.neg p).
    rewrite binary_round_aux_exact by lia.
    split; [reflexivity|]. split.
    { unfold SpecFloat.valid_binary, bounded, canonical_mantissa, fexp, emin, prec, emax.
      rewrite Hdm. apply andb_true_iff. split; [apply Z.eqb_eq; lia | apply Z.leb_le; lia]. }
    split; [lia|]. rewrite Hv. reflexivity.
Qed.

Lemma trunc_float_of_Z_small (z : Z) :
  Z.abs z < 2 ^ 53 -> trunc_float (float_of_Z z) = z.
Proof.
  intros Hz. unfold float_of_Z, trunc_float.
  destruct z as [|m|m]; [reflexivity| |].
  - destruct (binary_round_exact false m) as (m' & e' & Hr & Hv & He & Hm');
      [simpl in Hz; lia|].
    simpl binary_normalize. rewrite Hr, (Prim2SF_SF2Prim _ Hv).
    destruct (0 <=? e') eqn:E.
    + apply Z.leb_le in E. assert (e' = 0) by lia. subst e'. simpl in *. lia.
    + rewrite Hm'. apply Z.div_mul. apply Z.pow_nonzero; lia.
  - destruct (binary_round_exact true m) as (m' & e' & Hr & Hv & He & Hm');
      [simpl in Hz; lia|].
    simpl binary_normalize. rewrite Hr, (Prim2SF_SF2Prim _ Hv).
    destruct (0 <=? e') eqn:E.
    + apply Z.leb_le in E. assert (e' = 0) by lia. subst e'. simpl in *. lia.
    + rewrite Hm', Z.div_mul by (apply Z.pow_nonzero; lia). reflexivity.
Qed.

(** The float64 of an integer of magnitude at most 2^53 is that integer. *)
Lemma trunc_float_of_Z (z : Z) :
  Z.abs z <= 2 ^ 53 -> trunc_float (float_of_Z z) = z.
Proof.
  intros Hz.
  assert (Hc : Z.abs z < 2 ^ 53 \/ z = 2 ^ 53 \/ z = - 2 ^ 53) by lia.
  destruct Hc as [H|[-> | ->]]; [apply trunc_float_of_Z_small, H | |];
    vm_compute; reflexivity.
Qed.

Lemma float_eqb_refl (x : float) : is_nan x = false -> (x =? x)%float = true.
Proof.
  intros Hn. rewrite FloatAxioms.eqb_spec. unfold SFeqb.
  destruct (Prim2SF x) as [s|s| |s m e] eqn:E; simpl.
  - reflexivity.
  - destruct s; reflexivity.
  - apply is_nan_Prim2SF in E. congruence.
  - destruct s; rewrite Z.compare_refl, Pos.compare_cont_refl; reflexivity.
Qed.

(** ** Results and lists *)

Lemma bind_Ok {A B : Type} (r : result A) (k : A -> result B) (b : B) :
  bind r k = Ok b -> exists a, r = Ok a /\ k a = Ok b.
Proof. destruct r as [a|e]; simpl; [eauto | discriminate]. Qed.

Lemma mapM_result_Forall2 {A B : Type} (f : A -> result B) (l : list A) (k : list B) :
  mapM_result f l = Ok k <-> Forall2 (fun a b => f a = Ok b) l k.
Proof.
  revert k. induction l as [|a l IH]; intros k; simpl.
  - split.
    + intros H. injection H as <-. constructor.
    + intros H. inversion H. reflexivity.
  - split.
    + intros H. apply bind_Ok in H as (b & Hb & H).
      apply bind_Ok in H as (bs & Hbs & H). injection H as <-.
      constructor; [exact Hb | apply IH, Hbs].
    + intros H. inversion H as [|? b ? bs Hb Hbs]; subst.
      rewrite Hb. simpl. apply IH in Hbs. rewrite Hbs. reflexivity.
Qed.

(** ** Frames: reading and assigning columns *)

Lemma assoc_replace_col (c c' : string) (col : column) (cs : list (string * column)) :
  assoc c' (replace_col c col cs) =
  if String.eqb c' c then Some col else assoc c' cs.
Proof.
  induction cs as [|[c0 col0] cs IH]; simpl.
  - destruct (String.eqb c' c); reflexivity.
  - destruct (String.eqb c c0) eqn:E0; simpl.
    + apply String.eqb_eq in E0. subst c0.
      destruct (String.eqb c' c); reflexivity.
    + destruct (String.eqb c' c0) eqn:E1.
      * apply String.eqb_eq in E1. subst c0.
        rewrite String.eqb_sym, E0. reflexivity.
      * exact IH.
Qed.

Lemma replace_col_same (c : string) (col : column) (cs : list (string * column)) :
  assoc c cs = Some col -> replace_col c col cs = cs.
Proof.
  induction cs as [|[c0 col0] cs IH]; simpl; [discriminate|].
  destruct (String.eqb c c0) eqn:E.
  - apply String.eqb_eq in E. subst c0. intros [= ->]. reflexivity.
  - intros H. rewrite (IH H). reflexivity.
Qed.

Lemma columns_replace_col (c : string) (col : column) (cs : list (string * column)) :
  assoc c cs <> None -> map fst (replace_col c col cs) = map fst cs.
Proof.
  induction cs as [|[c0 col0] cs IH]; simpl; [congruence|].
  destruct (String.eqb c c0) eqn:E; simpl.
  - apply String.eqb_eq in E. subst c0. reflexivity.
  - intros H. rewrite (IH H). reflexivity.
Qed.

Lemma has_column_get_col (df : DataFrame) (c : string) :
  has_column df c = true <-> get_col df c <> None.
Proof.
  unfold has_column, get_col, columns. induction (cols df) as [|[c0 col0] cs IH]; simpl.
  - split; [discriminate | congruence].
  - destruct (String.eqb c c0); simpl; [split; [discriminate | reflexivity] | exact IH].
Qed.

Section CoercionProofs.
Context {rt : PyRuntime}.

Lemma assign_if_present_spec (c : string) (f : column -> result column)
  (df df' : DataFrame) :
  assign_if_present c f df = Ok df' ->
  nrows df' = nrows df /\ columns df' = columns df /\
  forall c', get_col df' c' =
             if String.eqb c' c then apply_step f (get_col df c) else get_col df c'.
Proof.
  unfold assign_if_present. destruct (get_col df c) as [col|] eqn:Hc.
  - intros H. apply bind_Ok in H as (col' & Hf & H). injection H as <-.
    split; [reflexivity|]. split.
    + unfold columns, set_col. simpl. apply columns_replace_col.
      unfold get_col in Hc. congruence.
    + intros c'. unfold get_col at 1, set_col. simpl.
      rewrite assoc_replace_col. simpl. rewrite Hf. reflexivity.
  - intros [= <-]. split; [reflexivity|]. split; [reflexivity|].
    intros c'. destruct (String.eqb c' c) eqn:E; [|reflexivity].
    apply String.eqb_eq in E. subst c'. exact Hc.
Qed.

Lemma assoc_not_in {A : Type} (c : string) (kv : list (string * A)) :
  c ∉ map fst kv -> assoc c kv = None.
Proof.
  induction kv as [|[k v] kv IH]; simpl; [reflexivity|].
  intros H. apply not_elem_of_cons in H as [Hne H].
  destruct (String.eqb c k) eqn:E.
  - apply String.eqb_eq in E. congruence.
  - apply IH, H.
Qed.

Lemma run_steps_spec (steps : list (string * (column -> result column))) :
  NoDup (map fst steps) ->
  forall df df', run_steps steps df = Ok df' ->
  nrows df' = nrows df /\ columns df' = columns df /\
  forall c, get_col df' c =
            match assoc c steps with
            | Some f => apply_step f (get_col df c)
            | None => get_col df c
            end.
Proof.
  unfold run_steps.
  induction steps as [|[c1 f1] steps IH]; simpl; intros Hnd df df' H.
  - injection H as <-. auto.
  - apply bind_Ok in H as (df1 & H1 & H).
    apply assign_if_present_spec in H1 as (Hn1 & Hc1 & Hg1).
    apply NoDup_cons in Hnd as [Hnotin Hnd'].
    destruct (IH Hnd' df1 df' H) as (Hn & Hc & Hg).
    split; [congruence|]. split; [congruence|].
    intros c. rewrite Hg, Hg1. simpl.
    destruct (String.eqb c c1) eqn:E; [|reflexivity].
    apply String.eqb_eq in E. subst c1.
    rewrite (assoc_not_in c steps Hnotin). reflexivity.
Qed.

Lemma run_steps_ok (steps : list (string * (column -> result column))) :
  NoDup (map fst steps) ->
  forall df,
  (forall c f col, In (c, f) steps -> get_col df c = Some col -> is_ok (f col) = true) ->
  exists df', run_steps steps df = Ok df'.
Proof.
  unfold run_steps.
  induction steps as [|[c1 f1] steps IH]; simpl; intros Hnd df Hok.
  - eauto.
  - apply NoDup_cons in Hnd as [Hnotin Hnd'].
    assert (H1 : exists df1, assign_if_present c1 f1 df = Ok df1).
    { unfold assign_if_present. destruct (get_col df c1) as [col|] eqn:Hc; [|eauto].
      specialize (Hok c1 f1 col (or_introl eq_refl) Hc).
      destruct (f1 col); [simpl; eauto | discriminate]. }
    destruct H1 as (df1 & H1). rewrite H1. simpl.
    apply IH; [exact Hnd'|].
    intros c f col Hin Hc. apply (Hok c f col); [right; exact Hin|].
    apply assign_if_present_spec in H1 as (_ & _ & Hg1).
    rewrite Hg1 in Hc.
    destruct (String.eqb c c1) eqn:E; [|exact Hc].
    apply String.eqb_eq in E. subst c1. exfalso. apply Hnotin.
    apply list_elem_of_In. apply (in_map fst) in Hin. exact Hin.
Qed.

Lemma ensure_types_run_steps (df : DataFrame) (feature_list : list string) :
  _ensure_types df feature_list =
  (df' <- run_steps coercion_steps df ;; select df' feature_list).
Proof.
  unfold _ensure_types, run_steps, coercion_steps, count_columns. simpl.
  fold coerce_text coerce_count coerce_dur.
  destruct (assign_if_present "proto" _ df) as [d1|]; simpl; [|reflexivity].
  destruct (assign_if_present "service" _ d1) as [d2|]; simpl; [|reflexivity].
  destruct (assign_if_present "spkts" _ d2) as [d3|]; simpl; [|reflexivity].
  destruct (assign_if_present "dpkts" _ d3) as [d4|]; simpl; [|reflexivity].
  destruct (assign_if_present "sbytes" _ d4) as [d5|]; simpl; [|reflexivity].
  destruct (assign_if_present "dbytes" _ d5) as [d6|]; simpl; [|reflexivity].
  destruct (assign_if_present "dur" _ d6) as [d7|]; simpl; reflexivity.
Qed.

Lemma coercion_steps_NoDup : NoDup (map fst coercion_steps).
Proof.
  simpl.
  repeat (apply NoDup_cons; split;
          [rewrite ?elem_of_cons, elem_of_nil; intuition discriminate|]).
  apply NoDup_nil_2.
Qed.

End CoercionProofs.

(** ** Selecting columns *)

Lemma select_spec (df out : DataFrame) (names : list string) :
  select df names = Ok out <->
  nrows out = nrows df /\
  Forall2 (fun c nc => fst nc = c /\ get_col df c = Some (snd nc)) names (cols out).
Proof.
  unfold select. split.
  - intros H. apply bind_Ok in H as (cs & Hcs & H). injection H as <-. simpl.
    split; [reflexivity|]. apply mapM_result_Forall2 in Hcs.
    eapply Forall2_impl; [exact Hcs|]. intros c [c' col] Hc. simpl.
    destruct (get_col df c); [injection Hc as <- <-; auto | discriminate].
  - intros [Hn HF].
    assert (Hcs : mapM_result
                    (fun c => match get_col df c with
                              | Some col => Ok (c, col)
                              | None => Raise KeyError
                              end) names = Ok (cols out)).
    { apply mapM_result_Forall2. eapply Forall2_impl; [exact HF|].
      intros c [c' col] [Hc Hg]. simpl in *. subst c'. rewrite Hg. reflexivity. }
    rewrite Hcs. simpl. destruct out as [n cs]. simpl in *. congruence.
Qed.

Lemma select_columns (df out : DataFrame) (names : list string) :
  select df names = Ok out -> columns out = names.
Proof.
  intros H. apply select_spec in H as [_ HF]. unfold columns.
  induction HF as [|c nc names cs [Hc _] _ IH]; simpl; congruence.
Qed.

Lemma select_get_col (df out : DataFrame) (names : list string) (c : string) :
  select df names = Ok out -> c ∈ names -> get_col out c = get_col df c.
Proof.
  intros H Hin. apply select_spec in H as [_ HF]. unfold get_col at 1.
  induction HF as [|c0 [c0' col0] names cs [Hc Hg] _ IH]; simpl in *.
  - apply elem_of_nil in Hin. contradiction.
  - subst c0'. destruct (String.eqb c c0) eqn:E.
    + apply String.eqb_eq in E. subst c0. symmetry. exact Hg.
    + apply IH. apply elem_of_cons in Hin as [->|Hin]; [|exact Hin].
      rewrite String.eqb_refl in E. discriminate.
Qed.

Lemma select_ok (df : DataFrame) (names : list string) :
  Forall (fun c => has_column df c = true) names ->
  exists out, select df names = Ok out.
Proof.
  intros H. unfold select.
  assert (Hcs : exists cs, mapM_result
                    (fun c => match get_col df c with
                              | Some col => Ok (c, col)
                              | None => Raise KeyError
                              end) names = Ok cs).
  { induction H as [|c names Hc _ [cs IH]]; simpl; [eauto|].
    apply has_column_get_col in Hc. destruct (get_col df c); [|congruence].
    simpl. rewrite IH. simpl. eauto. }
  destruct Hcs as [cs ->]. simpl. eauto.
Qed.

(** ** The coercions, column by column *)

Section ColumnCoercions.
Context {rt : PyRuntime}.

Lemma filled_not_nan (x : float) : is_nan (filled x) = false.
Proof. unfold filled. destruct (is_nan x) eqn:E; [reflexivity | exact E]. Qed.

Lemma filled_id (x : float) : is_nan x = false -> filled x = x.
Proof. unfold filled. intros ->. reflexivity. Qed.

Lemma filled_finite (x : float) : is_infinity x = false -> is_finite (filled x) = true.
Proof.
  unfold filled. intros Hinf. destruct (is_nan x) eqn:E; [reflexivity|].
  unfold is_finite. rewrite E, Hinf. reflexivity.
Qed.

Lemma forallb_filled_finite (xs : list float) :
  Forall (fun x => is_infinity x = false) xs ->
  forallb is_finite (map filled xs) = true.
Proof.
  induction 1 as [|x xs Hx _ IH]; simpl; [reflexivity|].
  rewrite (filled_finite x Hx). exact IH.
Qed.

Lemma map_filled_id (xs : list float) :
  Forall (fun x => is_nan x = false) xs -> map filled xs = xs.
Proof.
  induction 1 as [|x xs Hx _ IH]; simpl; [reflexivity|].
  rewrite (filled_id x Hx), IH. reflexivity.
Qed.

Lemma float_to_int64_zero : float_to_int64 0%float = 0.
Proof. reflexivity. Qed.

Lemma float_of_bool_not_nan (b : bool) : is_nan (float_of_bool b) = false.
Proof. destruct b; reflexivity. Qed.

(** What a cell is read as when it is missing or is not a number. *)
Lemma reads_as_nan_missing :
  reads_as_nan VNone = true /\
  (forall l, reads_as_nan (VList l) = true) /\
  (forall kv, reads_as_nan (VDict kv) = true) /\
  reads_as_nan (VStr "") = true /\
  (forall s, parse_numeric s = None -> reads_as_nan (VStr s) = true) /\
  (forall x, reads_as_nan (VFloat x) = is_nan x) /\
  (forall n, reads_as_nan (VInt n) = false) /\
  (forall b, reads_as_nan (VBool b) = false).
Proof.
  unfold reads_as_nan. simpl. repeat split; try reflexivity.
  - intros s ->. destruct (String.eqb s ""); reflexivity.
  - intros n. destruct (is_infinity (float_of_Z n)); reflexivity.
Qed.

(** A cell that reads as NaN becomes 0 in a count column and 0.0 in the
    duration column. *)
Lemma reads_as_nan_values (v : pyval) :
  reads_as_nan v = true ->
  count_value v = Some 0 /\ forall x, dur_value v x <-> x = 0%float.
Proof.
  unfold reads_as_nan, count_value, dur_value.
  destruct (cell_numeric v) as [[z|y|b|z y]|e]; try discriminate.
  intros ->. split; [reflexivity | tauto].
Qed.

Lemma existsb_false_lookup {A : Type} (p : A -> bool) (l : list A) (i : nat) (a : A) :
  existsb p l = false -> l !! i = Some a -> p a = false.
Proof.
  revert i. induction l as [|b l IH]; intros i; simpl; [discriminate|].
  intros H. apply orb_false_iff in H as [Hb Hl].
  destruct i as [|i]; simpl; [intros [= <-]; exact Hb | apply IH, Hl].
Qed.

Lemma mapM_result_lookup {A B : Type} (f : A -> result B) (l : list A) (k : list B)
  (i : nat) (a : A) :
  mapM_result f l = Ok k -> l !! i = Some a ->
  exists b, f a = Ok b /\ k !! i = Some b.
Proof.
  intros H Hi. apply mapM_result_Forall2 in H.
  destruct (Forall2_lookup_l _ _ _ _ _ H Hi) as (b & Hb & Hf). eauto.
Qed.

Lemma mapM_result_length {A B : Type} (f : A -> result B) (l : list A) (k : list B) :
  mapM_result f l = Ok k -> length k = length l.
Proof.
  intros H. apply mapM_result_Forall2 in H. symmetry. exact (Forall2_length _ _ _ H).
Qed.

Lemma mapM_result_is_ok {A B : Type} (f : A -> result B) (l : list A) :
  Forall (fun a => is_ok (f a) = true) l -> exists k, mapM_result f l = Ok k.
Proof.
  induction 1 as [|a l Ha _ [k IH]]; simpl; [eauto|].
  destruct (f a) as [b|e]; [|discriminate]. simpl. rewrite IH. simpl. eauto.
Qed.

(** The fast path. *)
Lemma cells_int64_lookup (vs : list pyval) (zs : list Z) (i : nat) (v : pyval) :
  cells_int64 vs = Some zs -> vs !! i = Some v ->
  exists z, cell_int64 v = Some z /\ zs !! i = Some z.
Proof.
  revert zs i. induction vs as [|v0 vs IH]; intros zs i; simpl; [intros _ Hi; discriminate|].
  destruct (cell_int64 v0) as [z0|] eqn:E0; [|discriminate].
  destruct (cells_int64 vs) as [zs0|]; [|discriminate].
  intros [= <-]. destruct i as [|i]; simpl.
  - intros [= <-]. eauto.
  - intros Hi. exact (IH zs0 i eq_refl Hi).
Qed.

Lemma cells_int64_length (vs : list pyval) (zs : list Z) :
  cells_int64 vs = Some zs -> length zs = length vs.
Proof.
  revert zs. induction vs as [|v0 vs IH]; intros zs; simpl; [intros [= <-]; reflexivity|].
  destruct (cell_int64 v0); [|discriminate].
  destruct (cells_int64 vs) as [zs0|]; [|discriminate].
  intros [= <-]. simpl. rewrite (IH zs0 eq_refl). reflexivity.
Qed.

Lemma fast_ints_cells (vs : list pyval) (zs : list Z) :
  fast_ints vs = Some zs -> cells_int64 vs = Some zs.
Proof. unfold fast_ints. destruct vs as [|[] vs]; try discriminate. auto. Qed.

Lemma in_int64_small (z : Z) : Z.abs z <= 2 ^ 53 -> in_int64 z = true.
Proof.
  intros H. unfold in_int64, int64_min, int64_max.
  assert (H53 : 2 ^ 53 < 2 ^ 63) by (apply Z.pow_lt_mono_r; lia).
  apply andb_true_iff. split; apply Z.leb_le; lia.
Qed.

(** The value of a cell on each path of the conversion. *)
Lemma count_value_fast (v : pyval) (z n : Z) :
  cell_int64 v = Some z -> count_value v = Some n -> z = n.
Proof.
  unfold count_value. destruct v as [|b|k|x|s|l|kv]; simpl; try discriminate.
  - intros [= <-] [= <-]. reflexivity.
  - destruct (in_int64 k); [|discriminate]. intros [= <-].
    destruct (is_infinity (float_of_Z k)); [discriminate|].
    destruct (Z.abs k <=? 2 ^ 53); [|discriminate]. intros [= <-]. reflexivity.
  - destruct (is_finite x) eqn:Ef; [|discriminate].
    destruct (in_int64 (trunc_float x)) eqn:Ei; [|discriminate]. simpl.
    destruct (float_of_Z (trunc_float x) =? x)%float; [|discriminate].
    intros [= <-].
    assert (Hn : is_nan x = false).
    { unfold is_finite in Ef. destruct (is_nan x); [discriminate | reflexivity]. }
    rewrite Hn. simpl. intros [= <-]. reflexivity.
Qed.

Lemma count_value_float (v : pyval) (m : num) (n : Z) :
  cell_numeric v = Ok m -> count_value v = Some n ->
  float_to_int64 (filled (num_to_float m)) = n.
Proof.
  unfold count_value. intros ->. destruct m as [z|x|b|z x]; simpl.
  - destruct (Z.abs z <=? 2 ^ 53) eqn:E; [|discriminate]. intros [= <-].
    apply Z.leb_le in E. rewrite (filled_id _ (float_of_Z_not_nan z)).
    unfold float_to_int64. rewrite (trunc_float_of_Z z E), (in_int64_small z E).
    reflexivity.
  - unfold filled. destruct (is_nan x); [intros [= <-]; reflexivity|].
    destruct (is_finite x && in_int64 (trunc_float x)) eqn:E; [|discriminate].
    intros [= <-]. apply andb_true_iff in E as [_ E].
    unfold float_to_int64. rewrite E. reflexivity.
  - intros [= <-]. destruct b; vm_compute; reflexivity.
  - destruct ((Z.abs z <=? 2 ^ 53) && is_finite x && (trunc_float x =? z)) eqn:E;
      [|discriminate].
    intros [= <-]. apply andb_true_iff in E as [E Et].
    apply andb_true_iff in E as [Ez Ef]. apply Z.leb_le in Ez. apply Z.eqb_eq in Et.
    assert (Hn : is_nan x = false).
    { unfold is_finite in Ef. destruct (is_nan x); [discriminate | reflexivity]. }
    rewrite (filled_id x Hn). unfold float_to_int64.
    rewrite Et, (in_int64_small z Ez). reflexivity.
Qed.

Lemma count_value_int (v : pyval) (m : num) (n : Z) :
  cell_numeric v = Ok m -> saw_float m = false -> count_value v = Some n ->
  num_to_Z m = n /\ wrap_int64 (num_to_Z m) = n.
Proof.
  assert (Hw : forall z, Z.abs z <= 2 ^ 53 -> wrap_int64 z = z).
  { intros z E. pose proof (in_int64_small z E) as Hi. unfold in_int64 in Hi.
    apply andb_true_iff in Hi as [_ Hi]. unfold wrap_int64. rewrite Hi. reflexivity. }
  unfold count_value. intros ->. destruct m as [z|x|b|z x]; simpl; [|discriminate| |].
  - intros _. destruct (Z.abs z <=? 2 ^ 53) eqn:E; [|discriminate]. intros [= <-].
    split; [reflexivity|]. apply Hw, Z.leb_le, E.
  - intros _ [= <-]. split; [reflexivity|]. destruct b; reflexivity.
  - intros _.
    destruct ((Z.abs z <=? 2 ^ 53) && is_finite x && (trunc_float x =? z)) eqn:E;
      [|discriminate].
    intros [= <-]. split; [reflexivity|].
    apply andb_true_iff in E as [E _]. apply andb_true_iff in E as [E _].
    apply Hw, Z.leb_le, E.
Qed.

Lemma count_value_bool (v : pyval) (m : num) (n : Z) :
  cell_numeric v = Ok m -> saw_float m = false -> num_is_int m = false ->
  count_value v = Some n -> Z.b2z (num_to_bool m) = n.
Proof.
  unfold count_value. intros ->. destruct m as [z|x|b|z x]; simpl; try discriminate.
  intros _ _ [= <-]. reflexivity.
Qed.

Lemma seen_float_false (ns : list num) (i : nat) (n : num) :
  seen_float ns = false -> ns !! i = Some n -> saw_float n = false.
Proof.
  unfold seen_float. intros H. apply orb_false_iff in H as [H _].
  apply existsb_false_lookup, H.
Qed.

Lemma count_ok_is_ok (vs : list pyval) :
  Forall (fun v => count_ok v = true) vs ->
  Forall (fun v => is_ok (cell_numeric v) = true) vs.
Proof.
  intros H. eapply Forall_impl; [exact H|]. intros v. simpl. unfold count_ok.
  destruct (cell_numeric v); [reflexivity | discriminate].
Qed.

Lemma coerce_count_spec (c : column) :
  Forall (fun v => count_ok v = true) (cells c) ->
  exists ns, coerce_count c = Ok (Int64Col ns) /\
             length ns = length (cells c) /\
             forall i v n, cells c !! i = Some v -> count_value v = Some n ->
                           ns !! i = Some n.
Proof.
  intros Hok. unfold coerce_count. destruct c as [vs|ns|xs|bs]; simpl in *.
  - unfold maybe_convert_numeric.
    destruct (fast_ints vs) as [zs|] eqn:Efast.
    { apply fast_ints_cells in Efast. simpl. exists zs. split; [reflexivity|].
      split; [exact (cells_int64_length vs zs Efast)|].
      intros i v n Hi Hv.
      destruct (cells_int64_lookup vs zs i v Efast Hi) as (z & Hz & Hzi).
      rewrite Hzi, (count_value_fast v z n Hz Hv). reflexivity. }
    destruct (mapM_result_is_ok cell_numeric vs (count_ok_is_ok vs Hok)) as [ms Hms].
    rewrite Hms. simpl.
    pose proof (mapM_result_length _ _ _ Hms) as Hlen.
    destruct (seen_float ms) eqn:Ef; simpl.
    { fold filled.
      assert (Hfin : forallb is_finite (map filled (map num_to_float ms)) = true).
      { apply forallb_filled_finite. rewrite Forall_fmap. apply Forall_lookup.
        intros i m Hm. simpl.
        apply mapM_result_Forall2 in Hms.
        destruct (Forall2_lookup_r _ _ _ _ _ Hms Hm) as (v & Hv & Hc).
        pose proof (proj1 (Forall_lookup _ _) Hok i v Hv) as Hcv. simpl in Hcv.
        unfold count_ok in Hcv. rewrite Hc in Hcv. apply negb_true_iff in Hcv.
        exact Hcv. }
      rewrite Hfin. eexists. split; [reflexivity|].
      rewrite !length_map. split; [exact Hlen|].
      intros i v n Hi Hv.
      destruct (mapM_result_lookup _ _ _ i v Hms Hi) as (m & Hm & Hmi).
      rewrite !list_lookup_fmap, Hmi. simpl. f_equal.
      exact (count_value_float v m n Hm Hv). }
    destruct (existsb num_is_int ms) eqn:Ei.
    { destruct (existsb saw_uint ms); simpl; eexists; (split; [reflexivity|]);
        rewrite ?length_map; (split; [exact Hlen|]);
        intros i v n Hi Hv;
        destruct (mapM_result_lookup _ _ _ i v Hms Hi) as (m & Hm & Hmi);
        rewrite !list_lookup_fmap, Hmi; simpl; f_equal;
        apply (count_value_int v m n Hm (seen_float_false ms i m Ef Hmi) Hv). }
    assert (Hb : astype_int (fillna 0%float
                   match ms with
                   | [] => NumInt []
                   | _ :: _ => NumBool (map num_to_bool ms)
                   end) = Ok (Int64Col (map Z.b2z (map num_to_bool ms))))
      by (destruct ms; reflexivity).
    rewrite Hb. eexists. split; [reflexivity|].
    rewrite !length_map. split; [exact Hlen|].
    intros i v n Hi Hv.
    destruct (mapM_result_lookup _ _ _ i v Hms Hi) as (m & Hm & Hmi).
    rewrite !list_lookup_fmap, Hmi. simpl. f_equal.
    exact (count_value_bool v m n Hm (seen_float_false ms i m Ef Hmi)
             (existsb_false_lookup _ _ _ _ Ei Hmi) Hv).
  - exists ns. rewrite length_map. split; [reflexivity|]. split; [reflexivity|].
    intros i v n Hi Hv. rewrite list_lookup_fmap in Hi.
    destruct (ns !! i) as [z|]; [|discriminate]. injection Hi as <-.
    unfold count_value in Hv. simpl in Hv.
    destruct (is_infinity (float_of_Z z)); [discriminate|].
    destruct (Z.abs z <=? 2 ^ 53); [|discriminate]. injection Hv as <-. reflexivity.
  - fold filled.
    assert (Hfin : forallb is_finite (map filled xs) = true).
    { apply forallb_filled_finite. rewrite Forall_fmap in Hok.
      eapply Forall_impl; [exact Hok|]. intros x Hx. simpl in Hx.
      unfold count_ok in Hx. simpl in Hx. apply negb_true_iff in Hx. exact Hx. }
    rewrite Hfin. eexists. split; [reflexivity|]. rewrite !length_map.
    split; [reflexivity|].
    intros i v n Hi Hv. rewrite list_lookup_fmap in Hi.
    destruct (xs !! i) as [x|] eqn:Hx; [|discriminate]. injection Hi as <-.
    rewrite !list_lookup_fmap, Hx. simpl. f_equal.
    exact (count_value_float (VFloat x) (NFloat x) n eq_refl Hv).
  - eexists. split; [reflexivity|]. rewrite !length_map. split; [reflexivity|].
    intros i v n Hi Hv. rewrite list_lookup_fmap in Hi.
    destruct (bs !! i) as [b|] eqn:Hb; [|discriminate]. injection Hi as <-.
    rewrite list_lookup_fmap, Hb. simpl. f_equal.
    unfold count_value in Hv. simpl in Hv. congruence.
Qed.

(** The duration column: its values on each path of the conversion. *)
Lemma dur_value_fast (v : pyval) (z : Z) :
  cell_int64 v = Some z -> dur_value v (float_of_Z z).
Proof.
  unfold dur_value. destruct v as [|b|k|x|s|l|kv]; simpl; try discriminate.
  - intros [= <-]. destruct b; vm_compute; reflexivity.
  - destruct (in_int64 k); [|discriminate]. intros [= <-].
    destruct (is_infinity (float_of_Z k)); [exact I | reflexivity].
  - destruct (is_finite x) eqn:Ef; [|discriminate].
    destruct (in_int64 (trunc_float x)); [|discriminate]. simpl.
    destruct (float_of_Z (trunc_float x) =? x)%float eqn:E; [|discriminate].
    intros [= <-].
    assert (Hn : is_nan x = false).
    { unfold is_finite in Ef. destruct (is_nan x); [discriminate | reflexivity]. }
    rewrite Hn. exact E.
Qed.

Lemma dur_value_float (v : pyval) (m : num) :
  cell_numeric v = Ok m -> dur_value v (filled (num_to_float m)).
Proof.
  unfold dur_value. intros ->. destruct m as [z|x|b|z x]; simpl.
  - apply filled_id, float_of_Z_not_nan.
  - unfold filled. destruct (is_nan x) eqn:E; [reflexivity|].
    apply float_eqb_refl, E.
  - apply filled_id, float_of_bool_not_nan.
  - right. reflexivity.
Qed.

Lemma dur_value_int (v : pyval) (m : num) :
  cell_numeric v = Ok m -> saw_float m = false ->
  dur_value v (float_of_Z (num_to_Z m)).
Proof.
  unfold dur_value. intros ->. destruct m as [z|x|b|z x]; simpl; [|discriminate| |].
  - reflexivity.
  - intros _. destruct b; vm_compute; reflexivity.
  - left. reflexivity.
Qed.

Lemma dur_value_bool (v : pyval) (m : num) :
  cell_numeric v = Ok m -> saw_float m = false -> num_is_int m = false ->
  dur_value v (float_of_bool (num_to_bool m)).
Proof.
  unfold dur_value. intros ->. destruct m as [z|x|b|z x]; simpl; try discriminate.
  reflexivity.
Qed.

(** Whatever it is given, a duration column that is coerced is a float
    column without NaN. *)
Lemma astype_float_not_nan (s : numeric) :
  exists xs, astype_float (fillna 0%float s) = Float64Col xs /\
             Forall (fun x => is_nan x = false) xs.
Proof.
  destruct s as [ns|ns|xs|bs]; simpl; eexists; (split; [reflexivity|]);
    rewrite Forall_fmap; apply Forall_forall; intros a _; simpl.
  - apply float_of_Z_not_nan.
  - apply float_of_Z_not_nan.
  - apply filled_not_nan.
  - apply float_of_bool_not_nan.
Qed.

Lemma coerce_dur_spec (c : column) :
  Forall (fun v => dur_ok v = true) (cells c) ->
  exists xs, coerce_dur c = Ok (Float64Col xs) /\
             length xs = length (cells c) /\
             forall i v, cells c !! i = Some v ->
                         exists x, xs !! i = Some x /\ dur_value v x.
Proof.
  intros Hok. unfold coerce_dur. destruct c as [vs|ns|xs|bs]; simpl in *.
  - unfold maybe_convert_numeric.
    destruct (fast_ints vs) as [zs|] eqn:Efast.
    { apply fast_ints_cells in Efast. simpl. eexists. split; [reflexivity|].
      rewrite length_map. split; [exact (cells_int64_length vs zs Efast)|].
      intros i v Hi.
      destruct (cells_int64_lookup vs zs i v Efast Hi) as (z & Hz & Hzi).
      exists (float_of_Z z). rewrite list_lookup_fmap, Hzi.
      split; [reflexivity | exact (dur_value_fast v z Hz)]. }
    destruct (mapM_result_is_ok cell_numeric vs Hok) as [ms Hms].
    rewrite Hms. simpl.
    pose proof (mapM_result_length _ _ _ Hms) as Hlen.
    destruct (seen_float ms) eqn:Ef; simpl.
    { fold filled. eexists. split; [reflexivity|].
      rewrite !length_map. split; [exact Hlen|].
      intros i v Hi.
      destruct (mapM_result_lookup _ _ _ i v Hms Hi) as (m & Hm & Hmi).
      eexists. rewrite !list_lookup_fmap, Hmi. simpl.
      split; [reflexivity | exact (dur_value_float v m Hm)]. }
    destruct (existsb num_is_int ms) eqn:Ei.
    { destruct (existsb saw_uint ms); simpl; eexists; (split; [reflexivity|]);
        rewrite ?length_map; (split; [exact Hlen|]);
        intros i v Hi;
        destruct (mapM_result_lookup _ _ _ i v Hms Hi) as (m & Hm & Hmi);
        eexists; rewrite !list_lookup_fmap, Hmi; simpl;
        (split; [reflexivity|]);
        exact (dur_value_int v m Hm (seen_float_false ms i m Ef Hmi)). }
    assert (Hb : astype_float (fillna 0%float
                   match ms with
                   | [] => NumInt []
                   | _ :: _ => NumBool (map num_to_bool ms)
                   end) = Float64Col (map float_of_bool (map num_to_bool ms)))
      by (destruct ms; reflexivity).
    rewrite Hb. eexists. split; [reflexivity|].
    rewrite !length_map. split; [exact Hlen|].
    intros i v Hi.
    destruct (mapM_result_lookup _ _ _ i v Hms Hi) as (m & Hm & Hmi).
    eexists. rewrite !list_lookup_fmap, Hmi. simpl.
    split; [reflexivity|].
    exact (dur_value_bool v m Hm (seen_float_false ms i m Ef Hmi)
             (existsb_false_lookup _ _ _ _ Ei Hmi)).
  - eexists. split; [reflexivity|]. rewrite !length_map. split; [reflexivity|].
    intros i v Hi. rewrite list_lookup_fmap in Hi.
    destruct (ns !! i) as [z|] eqn:Hz; [|discriminate]. injection Hi as <-.
    exists (float_of_Z z). rewrite list_lookup_fmap, Hz. split; [reflexivity|].
    unfold dur_value. simpl. destruct (is_infinity (float_of_Z z)); [exact I | reflexivity].
  - fold filled. eexists. split; [reflexivity|]. rewrite !length_map.
    split; [reflexivity|].
    intros i v Hi. rewrite list_lookup_fmap in Hi.
    destruct (xs !! i) as [x|] eqn:Hx; [|discriminate]. injection Hi as <-.
    eexists. rewrite list_lookup_fmap, Hx. simpl. split; [reflexivity|].
    exact (dur_value_float (VFloat x) (NFloat x) eq_refl).
  - eexists. split; [reflexivity|]. rewrite !length_map. split; [reflexivity|].
    intros i v Hi. rewrite list_lookup_fmap in Hi.
    destruct (bs !! i) as [b|] eqn:Hb; [|discriminate]. injection Hi as <-.
    eexists. rewrite list_lookup_fmap, Hb. simpl. split; [reflexivity|].
    reflexivity.
Qed.

(** Each coercion leaves a column that it maps to itself. *)
Lemma str_cell_fixed (v : pyval) : str_cell (str_cell v) = str_cell v.
Proof.
  unfold str_cell. destruct (str_keeps_missing && is_missing v) eqn:E.
  - apply andb_true_iff in E as [-> _]. reflexivity.
  - simpl. rewrite andb_false_r. reflexivity.
Qed.

Lemma coerce_text_fixed (c c' : column) :
  coerce_text c = Ok c' -> coerce_text c' = Ok c'.
Proof.
  unfold coerce_text, astype_str. intros [= <-]. simpl.
  rewrite map_map. f_equal. f_equal. apply map_ext. intros v. apply str_cell_fixed.
Qed.

Lemma coerce_count_fixed (c c' : column) :
  coerce_count c = Ok c' -> coerce_count c' = Ok c'.
Proof.
  unfold coerce_count. intros H. apply bind_Ok in H as (s & _ & H).
  destruct s as [ns|ns|xs|bs]; simpl in H.
  - injection H as <-. reflexivity.
  - injection H as <-. reflexivity.
  - destruct (forallb is_finite _); [|discriminate]. injection H as <-. reflexivity.
  - injection H as <-. reflexivity.
Qed.

Lemma coerce_dur_fixed (c c' : column) :
  coerce_dur c = Ok c' -> coerce_dur c' = Ok c'.
Proof.
  unfold coerce_dur. intros H. apply bind_Ok in H as (s & _ & H).
  destruct (astype_float_not_nan s) as (xs & Hxs & Hnn).
  rewrite Hxs in H. injection H as <-. simpl. fold filled.
  rewrite (map_filled_id xs Hnn). reflexivity.
Qed.

Lemma coercion_steps_fixed (c : string) (f : column -> result column)
  (col col' : column) :
  In (c, f) coercion_steps -> f col = Ok col' -> f col' = Ok col'.
Proof.
  unfold coercion_steps. simpl.
  intros [H|[H|[H|[H|[H|[H|[H|[]]]]]]]]; injection H as _ <-;
    first [apply coerce_text_fixed | apply coerce_count_fixed | apply coerce_dur_fixed].
Qed.

End ColumnCoercions.

(** ** The coercion step on a frame *)

Section EnsureTypes.
Context {rt : PyRuntime}.

Lemma assoc_In_NoDup {A : Type} (c : string) (a : A) (kv : list (string * A)) :
  NoDup (map fst kv) -> In (c, a) kv -> assoc c kv = Some a.
Proof.
  induction kv as [|[k v] kv IH]; simpl; [tauto|].
  intros Hnd Hin. apply NoDup_cons in Hnd as [Hk Hnd].
  destruct Hin as [[= -> ->]|Hin]; [rewrite String.eqb_refl; reflexivity|].
  destruct (String.eqb c k) eqn:E; [|apply IH; assumption].
  apply String.eqb_eq in E. subst k. exfalso. apply Hk.
  apply list_elem_of_In. apply (in_map fst) in Hin. exact Hin.
Qed.

Lemma assoc_Some_In {A : Type} (c : string) (a : A) (kv : list (string * A)) :
  assoc c kv = Some a -> In (c, a) kv.
Proof.
  induction kv as [|[k v] kv IH]; simpl; [discriminate|].
  destruct (String.eqb c k) eqn:E.
  - apply String.eqb_eq in E. subst k. intros [= ->]. left. reflexivity.
  - intros H. right. apply IH, H.
Qed.

(** What a step of [_ensure_types] leaves under a name. *)
Lemma step_coerced (c : string) (f : column -> result column) (col col' : column) :
  In (c, f) coercion_steps ->
  (c ∈ count_columns -> Forall (fun v => count_ok v = true) (cells col)) ->
  (c = "dur"%string -> Forall (fun v => dur_ok v = true) (cells col)) ->
  f col = Ok col' -> coerced c col col'.
Proof.
  unfold coercion_steps, coerced, text_columns, coerced_columns, count_columns.
  simpl.
  intros [H|[H|[H|[H|[H|[H|[H|[]]]]]]]] Hok Hdur Hf; injection H as <- <-.
  1,2: (injection Hf as <-; simpl; rewrite length_map;
        split; [reflexivity|]; split;
        [intros _ i v Hi; rewrite list_lookup_fmap, Hi; simpl; unfold str_cell;
         rewrite andb_comm; reflexivity|];
        split; [rewrite ?elem_of_cons, elem_of_nil; intuition discriminate|];
        split; [discriminate|];
        rewrite ?elem_of_cons, elem_of_nil; intuition congruence).
  1,2,3,4: (destruct (coerce_count_spec col) as (ns & Hc & Hlen & Hz);
            [apply Hok; rewrite ?elem_of_cons; auto 6|];
            rewrite Hc in Hf; injection Hf as <-; simpl; rewrite length_map;
            split; [exact Hlen|]; split;
            [rewrite ?elem_of_cons, elem_of_nil; intuition discriminate|];
            split; [intros _; exists ns; auto|];
            split; [discriminate|];
            rewrite ?elem_of_cons, elem_of_nil; intuition congruence).
  destruct (coerce_dur_spec col (Hdur eq_refl)) as (xs & Hc & Hlen & Hz).
  rewrite Hc in Hf. injection Hf as <-. simpl. rewrite length_map.
  split; [exact Hlen|]. split;
    [rewrite ?elem_of_cons, elem_of_nil; intuition discriminate|].
  split; [rewrite ?elem_of_cons, elem_of_nil; intuition discriminate|].
  split; [intros _; exists xs; auto|].
  rewrite ?elem_of_cons, elem_of_nil. intuition congruence.
Qed.

(** The steps of the coercion go through when the cells of the count
    columns and of the duration column are accepted by the conversion. *)
Lemma coercion_steps_ok (df : DataFrame) :
  (forall c col, c ∈ count_columns -> get_col df c = Some col ->
                 Forall (fun v => count_ok v = true) (cells col)) ->
  (forall col, get_col df "dur" = Some col ->
               Forall (fun v => dur_ok v = true) (cells col)) ->
  forall c f col, In (c, f) coercion_steps -> get_col df c = Some col ->
                  is_ok (f col) = true.
Proof.
  intros Hok Hdur c f col Hin Hc.
  assert (Hcase : (c ∈ count_columns /\ f = coerce_count) \/
                  f col = coerce_text col \/
                  (c = "dur"%string /\ f = coerce_dur)).
  { unfold coercion_steps in Hin. simpl in Hin. unfold count_columns.
    rewrite ?elem_of_cons.
    destruct Hin as [H|[H|[H|[H|[H|[H|[H|[]]]]]]]]; injection H as <- <-; auto 10. }
  destruct Hcase as [[Hcnt ->]|[->|[-> ->]]]; [|reflexivity|].
  - destruct (coerce_count_spec col (Hok c col Hcnt Hc)) as (ns & -> & _).
    reflexivity.
  - destruct (coerce_dur_spec col (Hdur col Hc)) as (xs & -> & _). reflexivity.
Qed.

Lemma not_step_coerced (c : string) (col : column) :
  assoc c coercion_steps = None -> coerced c col col.
Proof.
  intros Hnone. unfold coerced.
  assert (Hnot : c ∉ coerced_columns).
  { intros Hin. unfold coerced_columns, text_columns, count_columns in Hin.
    simpl in Hin. rewrite ?elem_of_cons, elem_of_nil in Hin.
    unfold coercion_steps in Hnone. simpl in Hnone.
    destruct Hin as [->|[->|[->|[->|[->|[->|[->|[]]]]]]]]; discriminate. }
  split; [reflexivity|].
  unfold coerced_columns in Hnot.
  rewrite !elem_of_app in Hnot.
  split; [intros H; exfalso; apply Hnot; auto|].
  split; [intros H; exfalso; apply Hnot; auto|].
  split; [intros ->; exfalso; apply Hnot; right; right; apply list_elem_of_here|].
  reflexivity.
Qed.

(** C3, amended: on a table that has the columns of the feature list,
    [_ensure_types] returns a table with exactly those columns and as many
    rows, provided no cell of the four count columns reads as an infinite
    number and no cell of [dur] is an integer too large for a float64.  In
    it, [proto] and [service] hold [str] of each cell that is not missing,
    so text is kept and a value that is not text is rendered, not replaced
    by "unknown"; a missing cell is rendered too ("None", "nan") or stays
    missing, as the version of pandas has it, and is not replaced by
    "unknown" either.  The count columns are int64: 0 where the cell was
    missing or not numeric, 0 or 1 for a boolean, an integer of magnitude at
    most 2^53 itself, a float truncated toward zero.  [dur] is float64: 0.0
    where the cell was missing or not numeric, the float64 of an integer, a
    float itself. *)
Theorem ensure_types_coerces (df : DataFrame) (feature_list : list string) :
  well_formed df ->
  Forall (fun c => has_column df c = true) feature_list ->
  (forall c col, c ∈ count_columns -> get_col df c = Some col ->
                 Forall (fun v => count_ok v = true) (cells col)) ->
  (forall col, get_col df "dur" = Some col ->
               Forall (fun v => dur_ok v = true) (cells col)) ->
  exists out,
    _ensure_types df feature_list = Ok out /\
    columns out = feature_list /\
    nrows out = nrows df /\
    forall c col, c ∈ feature_list -> get_col df c = Some col ->
      exists col', get_col out c = Some col' /\ coerced c col col'.
Proof.
  intros _ Hcols Hok Hdur.
  destruct (run_steps_ok coercion_steps coercion_steps_NoDup df
              (coercion_steps_ok df Hok Hdur)) as [df' Hrun].
  pose proof (run_steps_spec coercion_steps coercion_steps_NoDup df df' Hrun)
    as (Hn & Hc & Hg).
  destruct (select_ok df' feature_list) as [out Hsel].
  { eapply Forall_impl; [exact Hcols|]. intros c Hc'. simpl in *.
    unfold has_column in *. rewrite Hc. exact Hc'. }
  exists out. rewrite ensure_types_run_steps, Hrun. simpl.
  split; [exact Hsel|]. split; [eapply select_columns; exact Hsel|].
  split; [apply select_spec in Hsel as [Hn' _]; congruence|].
  intros c col Hin Hcol.
  rewrite (select_get_col df' out feature_list c Hsel Hin), Hg, Hcol.
  destruct (assoc c coercion_steps) as [f|] eqn:Hf.
  - pose proof (assoc_Some_In _ _ _ Hf) as Hstep. simpl.
    destruct (f col) as [col'|e] eqn:Hfc.
    + exists col'. split; [reflexivity|].
      apply (step_coerced c f col col' Hstep); [| |exact Hfc].
      * intros Hcnt. exact (Hok c col Hcnt Hcol).
      * intros ->. exact (Hdur col Hcol).
    + exfalso.
      pose proof (coercion_steps_ok df Hok Hdur c f col Hstep Hcol) as Hisok.
      rewrite Hfc in Hisok. discriminate.
  - exists col. split; [reflexivity|]. apply not_step_coerced, Hf.
Qed.

Lemma run_steps_fixed (steps : list (string * (column -> result column)))
  (d : DataFrame) :
  (forall c f col, In (c, f) steps -> get_col d c = Some col -> f col = Ok col) ->
  run_steps steps d = Ok d.
Proof.
  unfold run_steps. induction steps as [|[c f] steps IH]; simpl; intros H.
  - reflexivity.
  - assert (H1 : assign_if_present c f d = Ok d).
    { unfold assign_if_present. destruct (get_col d c) as [col|] eqn:Hc; [|reflexivity].
      rewrite (H c f col (or_introl eq_refl) Hc). simpl.
      unfold set_col. rewrite (replace_col_same c col (cols d) Hc).
      destruct d. reflexivity. }
    rewrite H1. simpl. apply IH. intros c' f' col Hin. apply H. right. exact Hin.
Qed.

Lemma Forall2_impl_elem {A B : Type} (P Q : A -> B -> Prop) (l : list A) (k : list B) :
  Forall2 P l k -> (forall a b, a ∈ l -> P a b -> Q a b) -> Forall2 Q l k.
Proof.
  induction 1 as [|a b l k Hab _ IH]; intros H; constructor.
  - apply H; [apply list_elem_of_here | exact Hab].
  - apply IH. intros a' b' Hin. apply H. apply list_elem_of_further, Hin.
Qed.

Lemma get_col_Some_columns (d : DataFrame) (c : string) (col : column) :
  get_col d c = Some col -> c ∈ columns d.
Proof.
  intros H. apply assoc_Some_In in H. apply list_elem_of_In.
  apply (in_map fst) in H. exact H.
Qed.

(** C8: the coercion step is idempotent.  Applied to the table it has
    returned, [_ensure_types] returns that table again. *)
Theorem ensure_types_idempotent (df out : DataFrame) (feature_list : list string) :
  well_formed df ->
  NoDup feature_list ->
  _ensure_types df feature_list = Ok out ->
  _ensure_types out feature_list = Ok out.
Proof.
  intros _ _ H. rewrite ensure_types_run_steps in H.
  apply bind_Ok in H as (df' & Hrun & Hsel).
  pose proof (run_steps_spec coercion_steps coercion_steps_NoDup df df' Hrun)
    as (_ & _ & Hg).
  rewrite ensure_types_run_steps.
  rewrite (run_steps_fixed coercion_steps out).
  - simpl. apply select_spec. split; [reflexivity|].
    pose proof Hsel as Hsel'. apply select_spec in Hsel' as [_ HF].
    eapply Forall2_impl_elem; [exact HF|].
    intros c nc Hin [Hc Hget]. split; [exact Hc|].
    rewrite (select_get_col df' out feature_list c Hsel Hin). exact Hget.
  - intros c f col Hin Hc.
    assert (Hcin : c ∈ feature_list).
    { apply get_col_Some_columns in Hc. rewrite (select_columns _ _ _ Hsel) in Hc.
      exact Hc. }
    rewrite (select_get_col df' out feature_list c Hsel Hcin), Hg in Hc.
    rewrite (assoc_In_NoDup c f coercion_steps coercion_steps_NoDup Hin) in Hc.
    unfold apply_step in Hc. destruct (get_col df c) as [col0|]; [|discriminate].
    destruct (f col0) as [col1|] eqn:Hf; [|discriminate]. injection Hc as ->.
    exact (coercion_steps_fixed c f col0 col Hin Hf).
Qed.

End EnsureTypes.

Lemma canonical_features_NoDup : NoDup canonical_features.
Proof.
  unfold canonical_features.
  repeat (apply NoDup_cons; split;
          [rewrite ?elem_of_cons, elem_of_nil; intuition discriminate|]).
  apply NoDup_nil_2.
Defined.

Lemma example_raw_frame_well_formed : well_formed example_raw_frame.
Proof. split; [exact canonical_features_NoDup | repeat constructor]. Defined.

(** C3 fails as stated: a protocol that is the number 6 is coerced to the
    text "6", not to "unknown"; a service that is missing becomes the text
    "None" with the one pandas and stays missing with the other, and is not
    "unknown" with either; a table whose packet count is infinite makes the
    coercion raise, and so does a duration that is an integer no float64
    holds. *)
Lemma ensure_types_counterexample :
  (exists out,
     _ensure_types (rt := example_runtime) frame_proto_6 canonical_features = Ok out /\
     get_col out "proto" = Some (ObjectCol [VStr "6"])) /\
  (exists out,
     _ensure_types (rt := example_runtime) frame_missing_service canonical_features
     = Ok out /\
     get_col out "service" = Some (ObjectCol [VStr "None"])) /\
  (exists out,
     _ensure_types (rt := example_runtime_3) frame_missing_service canonical_features
     = Ok out /\
     get_col out "service" = Some (ObjectCol [VFloat nan])) /\
  _ensure_types (rt := example_runtime) frame_infinite_count canonical_features
  = Raise IntCastingNaNError /\
  _ensure_types (rt := example_runtime) frame_huge_duration canonical_features
  = Raise OverflowError.
Proof.
  split; [eexists; split; [vm_compute; reflexivity | reflexivity]|].
  split; [eexists; split; [vm_compute; reflexivity | reflexivity]|].
  split; [eexists; split; [vm_compute; reflexivity | reflexivity]|].
  split; vm_compute; reflexivity.
Qed.

Lemma ensure_types_coerces_witness :
  exists out,
    _ensure_types (rt := example_runtime) example_raw_frame canonical_features = Ok out /\
    columns out = canonical_features /\
    nrows out = nrows example_raw_frame /\
    forall c col, c ∈ canonical_features -> get_col example_raw_frame c = Some col ->
      exists col', get_col out c = Some col' /\ coerced (rt := example_runtime) c col col'.
Proof.
  apply (ensure_types_coerces (rt := example_runtime) example_raw_frame canonical_features).
  - exact example_raw_frame_well_formed.
  - repeat constructor.
  - intros c col Hc Hg. unfold count_columns in Hc.
    rewrite ?elem_of_cons, elem_of_nil in Hc.
    destruct Hc as [->|[->|[->|[->|[]]]]]; vm_compute in Hg; injection Hg as <-;
      repeat constructor.
  - intros col Hg. vm_compute in Hg. injection Hg as <-. repeat constructor.
Defined.

(** The conversion on its several paths: an integer above int64 alone with
    smaller ones is held as uint64 and wraps around; a float beside an
    integer makes a float array, which is truncated; a boolean beside a
    missing value becomes 1 beside 0; a text is read as its number. *)
Example ensure_types_wide_counts :
  _ensure_types (rt := example_runtime) frame_wide_counts canonical_features
  = Ok frame_wide_counts_coerced.
Proof. vm_compute. reflexivity. Qed.

Lemma ensure_types_idempotent_witness :
  _ensure_types (rt := example_runtime) example_coerced_frame canonical_features
  = Ok example_coerced_frame.
Proof.
  apply (ensure_types_idempotent (rt := example_runtime)
           example_raw_frame example_coerced_frame canonical_features).
  - exact example_raw_frame_well_formed.
  - exact canonical_features_NoDup.
  - vm_compute. reflexivity.
Defined.

(** ** The normalisation of classifier outputs *)

(** C4 fails as stated: the text "foo" is not a recognized output, and the
    second gate maps it to other_attack, not to dos; the integer 2 is not
    recognized either, and the first gate maps it to normal. *)
Lemma unknown_labels_counterexample :
  recognized (StrLike "foo") = false /\ _is_dos_label (StrLike "foo") = false /\
  recognized (IntLike 2) = false /\ _is_attack_label (IntLike 2) = false.
Proof. repeat split. Qed.

(** C4, amended: an output that is not recognized is mapped by the second
    gate to other_attack, its negative class; the first gate maps it to
    malicious when it is not an integer, and to normal when it is one. *)
Theorem unknown_labels (raw : raw_label) :
  recognized raw = false ->
  _is_dos_label raw = false /\ _is_attack_label raw = negb (raw_is_int raw).
Proof.
  destruct raw as [n|s]; simpl; intros H; apply orb_false_iff in H as [H0 H1].
  - rewrite H1. auto.
  - rewrite H0, H1. auto.
Qed.

Lemma unknown_labels_witness :
  _is_dos_label (StrLike "foo") = false /\
  _is_attack_label (StrLike "foo") = negb (raw_is_int (StrLike "foo")).
Proof. apply (unknown_labels (StrLike "foo")). reflexivity. Defined.

(** ** The artifact loaders *)

Lemma open_file_None (fs : filesystem) (path : string) :
  fs !! path = None -> open_file fs path = Raise FileNotFoundError.
Proof. unfold open_file. intros ->. reflexivity. Qed.

Lemma load_hier_artifacts_Ok (fs : filesystem) (d : string) (art : hier_artifacts) :
  load_hier_artifacts fs d = Ok art <->
  joblib_load fs (path_join d "rf_bin.joblib") = Ok (pipe_bin art) /\
  joblib_load fs (path_join d "rf_dos_vs_other.joblib") = Ok (pipe_dos art) /\
  threshold_of fs d "bin_threshold.json" = Ok (t1 art) /\
  threshold_of fs d "dos_threshold.json" = Ok (t2 art) /\
  get_feature_list fs d = Ok (feats art).
Proof.
  unfold load_hier_artifacts, threshold_of. split.
  - intros H.
    apply bind_Ok in H as (pb & Hpb & H). apply bind_Ok in H as (pd & Hpd & H).
    apply bind_Ok in H as (j1 & Hj1 & H). apply bind_Ok in H as (v1 & Hv1 & H).
    apply bind_Ok in H as (j2 & Hj2 & H). apply bind_Ok in H as (v2 & Hv2 & H).
    apply bind_Ok in H as (fl & Hfl & H). injection H as <-. simpl.
    rewrite Hj1, Hj2. simpl. auto.
  - intros (Hpb & Hpd & H1 & H2 & Hfl). rewrite Hpb, Hpd. simpl.
    destruct (json_load fs (path_join d "bin_threshold.json")); simpl in *; [|discriminate].
    rewrite H1. simpl.
    destruct (json_load fs (path_join d "dos_threshold.json")); simpl in *; [|discriminate].
    rewrite H2, Hfl. simpl. destruct art. reflexivity.
Qed.

Lemma load_flat_artifacts_Ok (fs : filesystem) (d : string) (art : flat_artifacts) :
  load_flat_artifacts fs d = Ok art <->
  joblib_load fs (path_join d "rf_bin.joblib") = Ok (flat_pipe_bin art) /\
  joblib_load fs (path_join d "rf_tri.joblib") = Ok (flat_pipe_tri art) /\
  threshold_of fs d "bin_threshold.json" = Ok (flat_th art) /\
  get_feature_list fs d = Ok (flat_feats art).
Proof.
  unfold load_flat_artifacts, threshold_of. split.
  - intros H.
    apply bind_Ok in H as (pb & Hpb & H). apply bind_Ok in H as (pt & Hpt & H).
    apply bind_Ok in H as (j1 & Hj1 & H). apply bind_Ok in H as (v1 & Hv1 & H).
    apply bind_Ok in H as (fl & Hfl & H). injection H as <-. simpl.
    rewrite Hj1. simpl. auto.
  - intros (Hpb & Hpt & H1 & Hfl). rewrite Hpb, Hpt. simpl.
    destruct (json_load fs (path_join d "bin_threshold.json")); simpl in *; [|discriminate].
    rewrite H1, Hfl. simpl. destruct art. reflexivity.
Qed.

Lemma load_hier_artifacts_missing (fs : filesystem) (d name : string) :
  name ∈ hier_files -> fs !! path_join d name = None ->
  is_ok (load_hier_artifacts fs d) = false.
Proof.
  intros Hin Hnone.
  destruct (load_hier_artifacts fs d) as [art|] eqn:H; [|reflexivity].
  apply load_hier_artifacts_Ok in H as (Hpb & Hpd & H1 & H2 & Hfl).
  unfold threshold_of, get_feature_list, joblib_load, json_load in *.
  unfold hier_files in Hin. rewrite ?elem_of_cons, elem_of_nil in Hin.
  destruct Hin as [->|[->|[->|[->|[->|[]]]]]];
    rewrite (open_file_None fs _ Hnone) in *; discriminate.
Qed.

Lemma load_flat_artifacts_missing (fs : filesystem) (d name : string) :
  name ∈ flat_files -> fs !! path_join d name = None ->
  is_ok (load_flat_artifacts fs d) = false.
Proof.
  intros Hin Hnone.
  destruct (load_flat_artifacts fs d) as [art|] eqn:H; [|reflexivity].
  apply load_flat_artifacts_Ok in H as (Hpb & Hpt & H1 & Hfl).
  unfold threshold_of, get_feature_list, joblib_load, json_load in *.
  unfold flat_files in Hin. rewrite ?elem_of_cons, elem_of_nil in Hin.
  destruct Hin as [->|[->|[->|[->|[]]]]];
    rewrite (open_file_None fs _ Hnone) in *; discriminate.
Qed.

Lemma dir_missing_file (fs : filesystem) (d name : string) :
  ~ dir_exists fs d -> fs !! path_join d name = None.
Proof.
  intros H. destruct (fs !! path_join d name) eqn:E; [|reflexivity].
  exfalso. apply H. exists name. rewrite E. eauto.
Qed.

(** C2 fails as stated: the loader returns a bundle whose first threshold is
    7.5, whose second threshold is a text and whose manifest is empty. *)
Lemma loader_counterexample :
  exists art,
    load_hier_artifacts fs_unvalidated "models" = Ok art /\
    t1 art = VFloat 0x1.ep+2%float /\ t2 art = VStr "high" /\ feats art = VList [].
Proof. eexists. split; [vm_compute; reflexivity | repeat split]. Qed.

(** C2, amended: each loader returns a bundle exactly when every file it
    needs is there and is read (the two models by joblib, each threshold
    file as a JSON dict with the key "threshold", the manifest as JSON), and
    the bundle then holds what was read; so it fails when the directory does
    not exist, when a required file is absent and when a threshold file is
    not such a JSON document, and it returns no partial bundle.  Neither the
    range of a threshold nor the length of the manifest is checked. *)
Theorem loaders_all_or_nothing (fs : filesystem) (d : string) :
  (forall art,
     load_hier_artifacts fs d = Ok art <->
     joblib_load fs (path_join d "rf_bin.joblib") = Ok (pipe_bin art) /\
     joblib_load fs (path_join d "rf_dos_vs_other.joblib") = Ok (pipe_dos art) /\
     threshold_of fs d "bin_threshold.json" = Ok (t1 art) /\
     threshold_of fs d "dos_threshold.json" = Ok (t2 art) /\
     get_feature_list fs d = Ok (feats art)) /\
  (forall art,
     load_flat_artifacts fs d = Ok art <->
     joblib_load fs (path_join d "rf_bin.joblib") = Ok (flat_pipe_bin art) /\
     joblib_load fs (path_join d "rf_tri.joblib") = Ok (flat_pipe_tri art) /\
     threshold_of fs d "bin_threshold.json" = Ok (flat_th art) /\
     get_feature_list fs d = Ok (flat_feats art)) /\
  (forall name, name ∈ hier_files -> fs !! path_join d name = None ->
                is_ok (load_hier_artifacts fs d) = false) /\
  (forall name, name ∈ flat_files -> fs !! path_join d name = None ->
                is_ok (load_flat_artifacts fs d) = false) /\
  (forall name, name ∈ ["bin_threshold.json"; "dos_threshold.json"]%string ->
                is_ok (threshold_of fs d name) = false ->
                is_ok (load_hier_artifacts fs d) = false) /\
  (is_ok (threshold_of fs d "bin_threshold.json") = false ->
   is_ok (load_flat_artifacts fs d) = false) /\
  (~ dir_exists fs d ->
   is_ok (load_hier_artifacts fs d) = false /\
   is_ok (load_flat_artifacts fs d) = false).
Proof.
  split; [intros art; apply load_hier_artifacts_Ok|].
  split; [intros art; apply load_flat_artifacts_Ok|].
  split; [intros name; apply load_hier_artifacts_missing|].
  split; [intros name; apply load_flat_artifacts_missing|].
  split.
  { intros name Hin Hth.
    destruct (load_hier_artifacts fs d) as [art|] eqn:H; [|reflexivity].
    apply load_hier_artifacts_Ok in H as (_ & _ & H1 & H2 & _).
    rewrite ?elem_of_cons, elem_of_nil in Hin.
    destruct Hin as [->|[->|[]]]; [rewrite H1 in Hth | rewrite H2 in Hth];
      discriminate. }
  split.
  { intros Hth.
    destruct (load_flat_artifacts fs d) as [art|] eqn:H; [|reflexivity].
    apply load_flat_artifacts_Ok in H as (_ & _ & H1 & _).
    rewrite H1 in Hth. discriminate. }
  intros Hd. split.
  - apply (load_hier_artifacts_missing fs d "features.json").
    + unfold hier_files. rewrite ?elem_of_cons. auto 8.
    + apply dir_missing_file, Hd.
  - apply (load_flat_artifacts_missing fs d "features.json").
    + unfold flat_files. rewrite ?elem_of_cons. auto 8.
    + apply dir_missing_file, Hd.
Qed.

(** ** Masks *)

Lemma length_mask {A B : Type} (m : list bool) :
  forall (xs : list A) (ys : list B),
    length xs = length ys -> length (mask xs m) = length (mask ys m).
Proof.
  induction m as [|b m IH]; intros [|x xs] [|y ys] H; simpl in *;
    try reflexivity; try discriminate.
  injection H as H. destruct b; simpl; auto.
Qed.

Lemma mask_map {A B : Type} (f : A -> B) (m : list bool) :
  forall xs : list A, mask (map f xs) m = map f (mask xs m).
Proof.
  induction m as [|b m IH]; intros [|x xs]; simpl; try reflexivity.
  destruct b; simpl; rewrite IH; reflexivity.
Qed.

Lemma length_scatter {A : Type} (m : list bool) :
  forall (vals base : list A), length (scatter m vals base) = length base.
Proof.
  induction m as [|b m IH]; intros vals base; [destruct base; reflexivity|].
  destruct base as [|x base]; destruct b; simpl; try reflexivity;
    [destruct vals|]; simpl; f_equal; apply IH.
Qed.

Lemma mask_scatter {A : Type} (m : list bool) :
  forall (vals base : list A),
    length base = length m -> length vals = length (mask base m) ->
    mask (scatter m vals base) m = vals.
Proof.
  induction m as [|b m IH]; intros vals base Hb Hv.
  - destruct base; [|discriminate]. simpl in *.
    destruct vals; [reflexivity | discriminate].
  - destruct base as [|x base]; [discriminate|]. injection Hb as Hb.
    destruct b; simpl in *.
    + destruct vals as [|v vals]; [discriminate|]. injection Hv as Hv.
      simpl. rewrite IH; auto.
    + apply IH; auto.
Qed.

Lemma scatter_lookup_false {A : Type} (m : list bool) :
  forall (vals base : list A) (i : nat),
    m !! i = Some false -> scatter m vals base !! i = base !! i.
Proof.
  induction m as [|b m IH]; intros vals base i Hi; [destruct i; discriminate|].
  destruct base as [|x base]; [destruct b; reflexivity|].
  destruct i as [|i]; simpl in Hi.
  - injection Hi as ->. reflexivity.
  - destruct b; [destruct vals|]; simpl; apply IH; exact Hi.
Qed.

Lemma scatter_lookup_true {A : Type} (m : list bool) :
  forall (vals base : list A) (i : nat),
    length base = length m -> length vals = length (mask base m) ->
    m !! i = Some true ->
    exists v, scatter m vals base !! i = Some v /\ In v vals.
Proof.
  induction m as [|b m IH]; intros vals base i Hb Hv Hi; [destruct i; discriminate|].
  destruct base as [|x base]; [discriminate|]. injection Hb as Hb.
  destruct i as [|i]; simpl in Hi.
  - injection Hi as ->. simpl in Hv. destruct vals as [|v vals]; [discriminate|].
    exists v. simpl. auto.
  - destruct b; simpl in *.
    + destruct vals as [|v vals]; [discriminate|]. injection Hv as Hv.
      destruct (IH vals base i Hb Hv Hi) as (w & Hw & Hin).
      exists w. simpl. auto.
    + apply IH; auto.
Qed.

Lemma existsb_id_false (m : list bool) (i : nat) (b : bool) :
  existsb id m = false -> m !! i = Some b -> b = false.
Proof. intros H Hi. exact (existsb_false_lookup id m i b H Hi). Qed.

Lemma lookup_repeat {A : Type} (x : A) (n i : nat) (y : A) :
  repeat x n !! i = Some y -> y = x.
Proof.
  revert i. induction n as [|n IH]; intros [|i]; simpl; try discriminate.
  - intros [= <-]. reflexivity.
  - apply IH.
Qed.

Lemma lookup_repeat_lt {A : Type} (x : A) (n i : nat) :
  (i < n)%nat -> repeat x n !! i = Some x.
Proof.
  revert i. induction n as [|n IH]; intros [|i] H; simpl; try lia; [reflexivity|].
  apply IH. lia.
Qed.

(** ** The trace monad *)

Lemma bindM_Ok {A B : Type} (m : M A) (k : A -> M B) (b : B) (t : list event) :
  bindM m k = (Ok b, t) ->
  exists a t1 t2, m = (Ok a, t1) /\ k a = (Ok b, t2) /\ t = t1 ++ t2.
Proof.
  unfold bindM. destruct m as [[a|e] t1]; [|discriminate].
  destruct (k a) as [r t2] eqn:E. intros [= -> <-]. eauto 6.
Qed.

Lemma lift_Ok {A : Type} (r : result A) (a : A) (t : list event) :
  lift r = (Ok a, t) -> r = Ok a /\ t = [].
Proof. unfold lift. intros [= -> <-]. auto. Qed.

Lemma array_ge_Ok (scores : list float) (t : pyval) (bs : list bool) :
  array_ge scores t = Ok bs ->
  exists tf, threshold_float t = Some tf /\ bs = map (fun s => (tf <=? s)%float) scores.
Proof.
  unfold array_ge. destruct (threshold_float t) as [tf|]; [|discriminate].
  intros [= <-]. eauto.
Qed.

(** ** The hierarchical classifier *)

Lemma stage2_Ok (art : hier_artifacts) (rows : list record) (is_mal : list bool)
  (s_dos : option (list float)) (tri : list Z) (tr : list event) :
  length is_mal = length rows ->
  stage2 art rows is_mal = (Ok (s_dos, tri), tr) ->
  (existsb id is_mal = false /\ s_dos = None /\
   tri = repeat 0 (length rows) /\ tr = []) \/
  (existsb id is_mal = true /\
   exists tf2, threshold_float (t2 art) = Some tf2 /\
     let p := map (predict_proba (pipe_dos art)) (mask rows is_mal) in
     s_dos = Some (scatter is_mal p (repeat 0%float (length rows))) /\
     tri = scatter is_mal (map (fun s => Z.b2z (tf2 <=? s)%float + 1) p)
                   (repeat 0 (length rows)) /\
     tr = [PredictProba ModelDos (mask rows is_mal)]).
Proof.
  intros Hlen. unfold stage2. destruct (existsb id is_mal).
  - intros H. right. split; [reflexivity|].
    unfold call_predict_proba, bindM, lift, ret in H.
    rewrite mask_scatter in H.
    + unfold array_ge in H. destruct (threshold_float (t2 art)) as [tf2|];
        [|discriminate].
      exists tf2. split; [reflexivity|]. simpl. rewrite map_map in H.
      injection H as <- <- <-. auto.
    + rewrite repeat_length. symmetry. exact Hlen.
    + rewrite length_map. apply length_mask. rewrite repeat_length. reflexivity.
  - intros [= <- <- <-]. left. auto.
Qed.

Lemma predict_hier_Ok (art : hier_artifacts) (df : DataFrame)
  (out : hier_predictions) (tr : list event) :
  predict_hier art df = (Ok out, tr) ->
  exists names X tf1 s_dos tr2,
    labels (feats art) = Ok names /\ select df names = Ok X /\
    threshold_float (t1 art) = Some tf1 /\
    binary_scores out = map (predict_proba (pipe_bin art)) (frame_rows X) /\
    binary_labels out =
      map Z.b2z (map (fun s => (tf1 <=? s)%float) (binary_scores out)) /\
    stage2 art (frame_rows X) (map (fun s => (tf1 <=? s)%float) (binary_scores out))
      = (Ok (s_dos, tri_labels out), tr2) /\
    tr = PredictProba ModelBin (frame_rows X) :: tr2.
Proof.
  unfold predict_hier. intros H.
  apply bindM_Ok in H as (names & t0 & t0' & Hn & H & ->).
  apply lift_Ok in Hn as [Hn ->].
  apply bindM_Ok in H as (X & ta & ta' & HX & H & ->).
  apply lift_Ok in HX as [HX ->].
  apply bindM_Ok in H as (s_bin & tb & tb' & Hs & H & ->).
  unfold call_predict_proba in Hs. injection Hs as <- <-.
  apply bindM_Ok in H as (is_mal & tc & tc' & Hm & H & ->).
  apply lift_Ok in Hm as [Hm ->].
  apply array_ge_Ok in Hm as (tf1 & Ht1 & ->).
  apply bindM_Ok in H as ([s_dos tri] & td & td' & Hst & H & ->).
  apply bindM_Ok in H as (lb & te & te' & Hl & H & ->).
  apply lift_Ok in Hl as [Hl ->].
  apply array_ge_Ok in Hl as (tf1' & Ht1' & ->).
  rewrite Ht1 in Ht1'. injection Ht1' as <-.
  unfold ret in H. injection H as <- <-. simpl.
  exists names, X, tf1, s_dos, td. rewrite app_nil_r. auto 10.
Qed.

Lemma predict_hier_from_df_Ok (fs : filesystem) (df : DataFrame) (art_dir : string)
  (out : hier_predictions) (tr : list event) :
  predict_hier_from_df fs df art_dir = (Ok out, tr) ->
  exists art, load_hier_artifacts fs art_dir = Ok art /\
              predict_hier art df = (Ok out, tr).
Proof.
  unfold predict_hier_from_df. intros H.
  apply bindM_Ok in H as (art & t0 & t0' & Ha & H & ->).
  apply lift_Ok in Ha as [Ha ->]. eauto.
Qed.

(** X20: the hierarchical prediction returns when the bundle has numeric
    thresholds and a manifest whose names are columns of the table. *)
Lemma predict_hier_returns (art : hier_artifacts) (df : DataFrame)
  (names : list string) (tf1 tf2 : float) :
  labels (feats art) = Ok names ->
  Forall (fun c => has_column df c = true) names ->
  threshold_float (t1 art) = Some tf1 ->
  threshold_float (t2 art) = Some tf2 ->
  exists out tr, predict_hier art df = (Ok out, tr).
Proof.
  intros Hn Hcols H1 H2. destruct (select_ok df names Hcols) as [X HX].
  unfold predict_hier. rewrite Hn.
  cbv beta iota delta [bindM lift ret call_predict_proba stage2 array_ge].
  rewrite HX, H1.
  destruct (existsb id _); [rewrite H2|]; eauto.
Qed.

(** The three-way label of a row after the second stage: 0 when the row is
    not malicious, 1 or 2 when it is. *)
Lemma stage2_labels (art : hier_artifacts) (rows : list record) (is_mal : list bool)
  (s_dos : option (list float)) (tri : list Z) (tr : list event) :
  length is_mal = length rows ->
  stage2 art rows is_mal = (Ok (s_dos, tri), tr) ->
  length tri = length rows /\
  forall (i : nat) (b : bool) (t : Z),
    is_mal !! i = Some b -> tri !! i = Some t ->
    if b then t = 1 \/ t = 2 else t = 0.
Proof.
  intros Hlen H. apply stage2_Ok in H; [|exact Hlen].
  destruct H as [(Hnone & _ & -> & _)|(_ & tf2 & _ & _ & -> & _)].
  - split; [apply repeat_length|]. intros i b t Hb Ht.
    rewrite (existsb_id_false is_mal i b Hnone Hb).
    exact (lookup_repeat 0 _ i t Ht).
  - split; [rewrite length_scatter; apply repeat_length|].
    intros i b t Hb Ht. destruct b.
    + destruct (scatter_lookup_true is_mal
                  (map (fun s => Z.b2z (tf2 <=? s)%float + 1)
                       (map (predict_proba (pipe_dos art)) (mask rows is_mal)))
                  (repeat 0 (length rows)) i) as (v & Hv & Hin).
      * rewrite repeat_length. symmetry. exact Hlen.
      * rewrite !length_map. apply length_mask. rewrite repeat_length. reflexivity.
      * exact Hb.
      * rewrite Hv in Ht. injection Ht as <-.
        apply in_map_iff in Hin as (s & <- & _).
        destruct (tf2 <=? s)%float; simpl; auto.
    + rewrite scatter_lookup_false in Ht; [|exact Hb].
      exact (lookup_repeat 0 _ i t Ht).
Qed.

(** The local score vector of the second stage holds 0 at every row that is
    not malicious. *)
Lemma stage2_scores_default (art : hier_artifacts) (rows : list record)
  (is_mal : list bool) (s_dos : list float) (tri : list Z) (tr : list event) (i : nat) :
  length is_mal = length rows ->
  stage2 art rows is_mal = (Ok (Some s_dos, tri), tr) ->
  is_mal !! i = Some false ->
  s_dos !! i = Some 0%float.
Proof.
  intros Hlen H Hi. apply stage2_Ok in H; [|exact Hlen].
  destruct H as [(_ & Hs & _)|(_ & tf2 & _ & Hs & _)]; [discriminate|].
  injection Hs as ->. rewrite scatter_lookup_false; [|exact Hi].
  apply lookup_repeat_lt. rewrite <- Hlen. apply lookup_lt_Some in Hi. exact Hi.
Qed.

Lemma classify_flow_run (srv : server) (row : record) :
  classify_flow srv row =
  if _is_attack_label (predict (model_bin srv) row) then
    let label := if _is_dos_label (predict (model_dos srv) row)
                 then "dos"%string else "other_attack"%string in
    (Ok {| bin_label := "attack"; dos_vs_other_label := Some label;
           final_label := label |},
     [Predict ModelBin [row]; Predict ModelDos [row]])
  else
    (Ok {| bin_label := "normal"; dos_vs_other_label := None;
           final_label := "normal" |},
     [Predict ModelBin [row]]).
Proof.
  unfold classify_flow, call_predict, bindM, lift, ret, first. simpl.
  destruct (_is_attack_label (predict (model_bin srv) row)); reflexivity.
Qed.

Lemma binary_labels_lookup (tf1 : float) (scores : list float) (i : nat) (b : Z) :
  map Z.b2z (map (fun s => (tf1 <=? s)%float) scores) !! i = Some b ->
  exists m, map (fun s => (tf1 <=? s)%float) scores !! i = Some m /\ b = Z.b2z m.
Proof.
  rewrite list_lookup_fmap.
  destruct (map (fun s => (tf1 <=? s)%float) scores !! i) as [m|]; simpl;
    [|discriminate].
  intros [= <-]. eauto.
Qed.

(** C7: in hierarchical mode the subtype label is defined exactly when the
    binary label is attack.  In the batch path the three-way label of a row
    is not 0 exactly when its binary label is 1, and its final label is
    normal exactly when its binary label is 0; in the serving path the
    subtype label is not null exactly when the binary label is attack, and
    the final label is normal exactly when the binary label is normal. *)
Theorem subtype_defined_iff_attack (fs : filesystem) (df : DataFrame)
  (art_dir : string) (out : hier_predictions) (tr : list event)
  (srv : server) (row : record) :
  predict_hier_from_df fs df art_dir = (Ok out, tr) ->
  Forall2 (fun b t => (t <> 0 <-> b = 1) /\
                      (map_tri_name (IntLike t) = VStr "normal" <-> b = 0))
          (binary_labels out) (tri_labels out) /\
  exists o tr',
    classify_flow srv row = (Ok o, tr') /\
    (dos_vs_other_label o <> None <-> bin_label o = "attack"%string) /\
    (final_label o = "normal"%string <-> bin_label o = "normal"%string).
Proof.
  intros H. split.
  - apply predict_hier_from_df_Ok in H as (art & _ & H).
    apply predict_hier_Ok in H
      as (names & X & tf1 & s_dos & tr2 & _ & _ & _ & Hs & Hb & Hst & _).
    assert (Hlen : length (map (fun s => (tf1 <=? s)%float) (binary_scores out))
                   = length (frame_rows X))
      by (rewrite Hs, !length_map; reflexivity).
    destruct (stage2_labels _ _ _ _ _ _ Hlen Hst) as [Hlt Hlab].
    apply Forall2_same_length_lookup. split.
    + rewrite Hb, length_map, Hlen, Hlt. reflexivity.
    + intros i b t Hbi Hti. rewrite Hb in Hbi.
      apply binary_labels_lookup in Hbi as (m & Hm & ->).
      specialize (Hlab i m t Hm Hti). destruct m; simpl.
      * destruct Hlab as [-> | ->]; simpl; split; split; intros; try lia;
          try reflexivity; discriminate.
      * subst t. simpl. split; split; intros; try lia; try reflexivity;
          try contradiction; discriminate.
  - rewrite classify_flow_run.
    destruct (_is_attack_label (predict (model_bin srv) row)).
    + eexists _, _. split; [reflexivity|]. simpl.
      split; [split; [reflexivity | discriminate]|].
      destruct (_is_dos_label (predict (model_dos srv) row));
        split; discriminate.
    + eexists _, _. split; [reflexivity|]. simpl.
      split; [split; [intros Hn; contradiction | discriminate]|].
      split; reflexivity.
Qed.

Lemma mask_filter {A : Type} (p : A -> bool) (xs : list A) :
  mask xs (map p xs) = List.filter p xs.
Proof.
  induction xs as [|x xs IH]; simpl; [reflexivity|].
  destruct (p x); rewrite IH; reflexivity.
Qed.

Lemma existsb_id_map {A : Type} (p : A -> bool) (xs : list A) :
  existsb id (map p xs) = existsb p xs.
Proof.
  induction xs as [|x xs IH]; simpl; [reflexivity|]. rewrite IH. reflexivity.
Qed.

(** C6: the second-stage classifier is given exactly the rows whose binary
    score reaches [t1].  A run that returns has called the first stage on all
    the rows of the table and then, when some row is malicious, the second
    stage once, on the rows whose score reaches [t1], in their order, and
    on no other row: a row is in that call exactly when it is a row of the
    table and its score reaches [t1].  For every row that is not malicious
    the three-way label is 0, which is final label normal, and the score
    vector of the second stage, when it exists, holds 0. *)
Theorem stage2_only_for_malicious (fs : filesystem) (df : DataFrame)
  (art_dir : string) (out : hier_predictions) (tr : list event) :
  predict_hier_from_df fs df art_dir = (Ok out, tr) ->
  exists art names X tf1,
    load_hier_artifacts fs art_dir = Ok art /\
    labels (feats art) = Ok names /\
    select df names = Ok X /\
    threshold_float (t1 art) = Some tf1 /\
    let rows := frame_rows X in
    let malicious := fun r => (tf1 <=? predict_proba (pipe_bin art) r)%float in
    binary_scores out = map (predict_proba (pipe_bin art)) rows /\
    tr = PredictProba ModelBin rows ::
         (if existsb malicious rows
          then [PredictProba ModelDos (List.filter malicious rows)]
          else []) /\
    (forall r, r ∈ List.filter malicious rows <-> r ∈ rows /\ malicious r = true) /\
    forall i r, rows !! i = Some r -> malicious r = false ->
      tri_labels out !! i = Some 0 /\
      map_tri_name (IntLike 0) = VStr "normal" /\
      forall s_dos tri tr2,
        stage2 art rows (map malicious rows) = (Ok (Some s_dos, tri), tr2) ->
        s_dos !! i = Some 0%float.
Proof.
  intros H. apply predict_hier_from_df_Ok in H as (art & Hart & H).
  apply predict_hier_Ok in H
    as (names & X & tf1 & s_dos & tr2 & Hn & HX & Ht1 & Hs & Hb & Hst & ->).
  exists art, names, X, tf1.
  split; [exact Hart|]. split; [exact Hn|]. split; [exact HX|]. split; [exact Ht1|].
  cbv zeta.
  set (malicious := fun r => (tf1 <=? predict_proba (pipe_bin art) r)%float).
  assert (Hmal : map (fun s => (tf1 <=? s)%float) (binary_scores out)
                 = map malicious (frame_rows X))
    by (rewrite Hs, map_map; reflexivity).
  rewrite Hmal in Hst.
  assert (Hlen : length (map malicious (frame_rows X)) = length (frame_rows X))
    by apply length_map.
  split; [exact Hs|]. split.
  { f_equal. pose proof (stage2_Ok _ _ _ _ _ _ Hlen Hst) as Hcase.
    rewrite existsb_id_map, mask_filter in Hcase.
    destruct Hcase as [(-> & _ & _ & ->)|(-> & tf2 & _ & _ & _ & ->)]; reflexivity. }
  split.
  { intros r. rewrite !list_elem_of_In. apply filter_In. }
  intros i r Hi Hr.
  assert (Him : map malicious (frame_rows X) !! i = Some false)
    by (rewrite list_lookup_fmap, Hi; simpl; rewrite Hr; reflexivity).
  destruct (stage2_labels _ _ _ _ _ _ Hlen Hst) as [Hlt Hlab].
  split.
  - assert (Hlt' : (i < length (tri_labels out))%nat).
    { rewrite Hlt. apply lookup_lt_Some in Hi. exact Hi. }
    apply lookup_lt_is_Some in Hlt' as [t Ht].
    rewrite Ht. f_equal. exact (Hlab i false t Him Ht).
  - split; [reflexivity|]. intros s tri' tr' Hs2.
    exact (stage2_scores_default _ _ _ _ _ _ i Hlen Hs2 Him).
Qed.

(** X16: the first threshold is inclusive.  A binary score equal to a
    numeric [t1] gives the binary label 1, attack. *)
Lemma binary_tie_is_attack (art : hier_artifacts) (df : DataFrame)
  (out : hier_predictions) (tr : list event) (tf1 : float) (i : nat) (s : float) :
  predict_hier art df = (Ok out, tr) ->
  threshold_float (t1 art) = Some tf1 ->
  binary_scores out !! i = Some s -> (s =? tf1)%float = true ->
  binary_labels out !! i = Some 1.
Proof.
  intros H Ht Hs Heq.
  apply predict_hier_Ok in H as (_ & _ & tf1' & _ & _ & _ & _ & Ht' & _ & Hb & _).
  rewrite Ht in Ht'. injection Ht' as <-.
  rewrite Hb, !list_lookup_fmap, Hs. simpl. rewrite (eqb_leb s tf1 Heq). reflexivity.
Qed.

(** ** One record through the batch path *)

Lemma labels_features_json (names : list string) :
  labels (features_json names) = Ok names.
Proof.
  unfold labels, features_json. induction names as [|c names IH]; simpl;
    [reflexivity|]. rewrite IH. reflexivity.
Qed.

Lemma frame_rows_flow_frame (flow : FlowInput) :
  frame_rows (flow_frame flow) = [flow_dict flow].
Proof. reflexivity. Qed.

Lemma select_flow_frame (flow : FlowInput) :
  select (flow_frame flow) canonical_features = Ok (flow_frame flow).
Proof. reflexivity. Qed.

(** The hierarchical prediction for the one-row table of a record. *)
Lemma predict_hier_one_row (art : hier_artifacts) (flow : FlowInput) (tf1 tf2 : float) :
  feats art = features_json canonical_features ->
  threshold_float (t1 art) = Some tf1 ->
  threshold_float (t2 art) = Some tf2 ->
  predict_hier art (flow_frame flow) =
  let r := flow_dict flow in
  let s1 := predict_proba (pipe_bin art) r in
  if (tf1 <=? s1)%float then
    (Ok {| binary_scores := [s1]; binary_labels := [1];
           tri_labels := [Z.b2z (tf2 <=? predict_proba (pipe_dos art) r)%float + 1] |},
     [PredictProba ModelBin [r]; PredictProba ModelDos [r]])
  else
    (Ok {| binary_scores := [s1]; binary_labels := [0]; tri_labels := [0] |},
     [PredictProba ModelBin [r]]).
Proof.
  intros Hf H1 H2. unfold predict_hier.
  rewrite Hf, labels_features_json.
  cbv beta iota delta [bindM lift ret call_predict_proba stage2 array_ge].
  rewrite select_flow_frame, frame_rows_flow_frame, H1. simpl.
  destruct (tf1 <=? predict_proba (pipe_bin art) (flow_dict flow))%float; simpl.
  - rewrite H2. reflexivity.
  - reflexivity.
Qed.

(** The table the batch runner writes for the one-row table of a record. *)
Lemma save_predictions_one_row (fs : filesystem) (art_dir out_csv : string)
  (art : hier_artifacts) (flow : FlowInput) (tf1 tf2 : float) :
  load_hier_artifacts fs art_dir = Ok art ->
  feats art = features_json canonical_features ->
  threshold_float (t1 art) = Some tf1 ->
  threshold_float (t2 art) = Some tf2 ->
  exists df_out tr,
    save_predictions_csv fs (flow_frame flow) out_csv "hier" art_dir
    = (Ok df_out, tr) /\
    let r := flow_dict flow in
    let b := (tf1 <=? predict_proba (pipe_bin art) r)%float in
    let t := if b then Z.b2z (tf2 <=? predict_proba (pipe_dos art) r)%float + 1 else 0 in
    get_col df_out "bin_prob_mal" = Some (Float64Col [predict_proba (pipe_bin art) r]) /\
    get_col df_out "bin_label" = Some (Int64Col [Z.b2z b]) /\
    get_col df_out "tri_label" = Some (Int64Col [t]) /\
    get_col df_out "final_label" = Some (ObjectCol [map_tri_name (IntLike t)]).
Proof.
  intros Ha Hf H1 H2. unfold save_predictions_csv, predict_hier_from_df.
  rewrite Ha. cbv beta iota delta [bindM lift ret to_csv].
  rewrite (predict_hier_one_row art flow tf1 tf2 Hf H1 H2). simpl.
  destruct (tf1 <=? predict_proba (pipe_bin art) (flow_dict flow))%float; simpl;
    eexists _, _; (split; [reflexivity|]); simpl; repeat split.
Qed.

Lemma subtype_defined_iff_attack_witness :
  Forall2 (fun b t => (t <> 0 <-> b = 1) /\
                      (map_tri_name (IntLike t) = VStr "normal" <-> b = 0))
          (binary_labels predictions_packets) (tri_labels predictions_packets) /\
  exists o tr',
    classify_flow (server_of art_ties) (flow_dict example_flow) = (Ok o, tr') /\
    (dos_vs_other_label o <> None <-> bin_label o = "attack"%string) /\
    (final_label o = "normal"%string <-> bin_label o = "normal"%string).
Proof.
  eapply (subtype_defined_iff_attack fs_packets two_flows_frame "models"
            predictions_packets _ (server_of art_ties) (flow_dict example_flow)).
  vm_compute. reflexivity.
Defined.

Lemma stage2_only_for_malicious_witness :
  exists art names X tf1,
    load_hier_artifacts fs_packets "models" = Ok art /\
    labels (feats art) = Ok names /\
    select two_flows_frame names = Ok X /\
    threshold_float (t1 art) = Some tf1 /\
    let rows := frame_rows X in
    let malicious := fun r => (tf1 <=? predict_proba (pipe_bin art) r)%float in
    binary_scores predictions_packets = map (predict_proba (pipe_bin art)) rows /\
    [PredictProba ModelBin (frame_rows two_flows_frame);
     PredictProba ModelDos [row_at two_flows_frame 1]]
    = PredictProba ModelBin rows ::
      (if existsb malicious rows
       then [PredictProba ModelDos (List.filter malicious rows)]
       else []) /\
    (forall r, r ∈ List.filter malicious rows <-> r ∈ rows /\ malicious r = true) /\
    forall i r, rows !! i = Some r -> malicious r = false ->
      tri_labels predictions_packets !! i = Some 0 /\
      map_tri_name (IntLike 0) = VStr "normal" /\
      forall s_dos tri tr2,
        stage2 art rows (map malicious rows) = (Ok (Some s_dos, tri), tr2) ->
        s_dos !! i = Some 0%float.
Proof.
  apply (stage2_only_for_malicious fs_packets two_flows_frame "models").
  vm_compute. reflexivity.
Defined.

(** C5 at a tie: both gates score the row 0.5 and both thresholds are 0.5.
    The binary label is 1, attack; the three-way label is 2 and the final
    label other_attack, where the claim has dos. *)
Theorem subtype_tie_is_other_attack :
  exists df_out tr,
    save_predictions_csv fs_ties (flow_frame example_flow) "out.csv" "hier" "models"
    = (Ok df_out, tr) /\
    get_col df_out "bin_prob_mal" = Some (Float64Col [0x1p-1%float]) /\
    get_col df_out "bin_label" = Some (Int64Col [1]) /\
    get_col df_out "tri_label" = Some (Int64Col [2]) /\
    get_col df_out "final_label" = Some (ObjectCol [VStr "other_attack"]).
Proof. eexists _, _. split; [vm_compute; reflexivity | repeat split]. Qed.

(** The same for every record and bundle: a malicious row whose subtype
    score reaches [t2] gets the final label other_attack, and dos when the
    score is below [t2]. *)
Lemma one_row_subtype_label (fs : filesystem) (art_dir out_csv : string)
  (art : hier_artifacts) (flow : FlowInput) (tf1 tf2 : float) :
  load_hier_artifacts fs art_dir = Ok art ->
  feats art = features_json canonical_features ->
  threshold_float (t1 art) = Some tf1 ->
  threshold_float (t2 art) = Some tf2 ->
  (tf1 <=? predict_proba (pipe_bin art) (flow_dict flow))%float = true ->
  exists df_out tr,
    save_predictions_csv fs (flow_frame flow) out_csv "hier" art_dir = (Ok df_out, tr) /\
    get_col df_out "final_label" =
    Some (ObjectCol [VStr (if (tf2 <=? predict_proba (pipe_dos art) (flow_dict flow))%float
                           then "other_attack" else "dos")]).
Proof.
  intros Ha Hf H1 H2 Hm.
  destruct (save_predictions_one_row fs art_dir out_csv art flow tf1 tf2 Ha Hf H1 H2)
    as (df_out & tr & Hs & _ & _ & _ & Hfin).
  exists df_out, tr. split; [exact Hs|]. rewrite Hfin. simpl. rewrite Hm.
  destruct (tf2 <=? predict_proba (pipe_dos art) (flow_dict flow))%float; reflexivity.
Qed.

(** ** The serving path against the batch path *)

(** X9: a directory from which the batch path loads its bundle is one from
    which the serving path loads its models, and these are the two gates of
    the bundle. *)
Lemma load_server_of_bundle (fs : filesystem) (d : string) (art : hier_artifacts) :
  load_hier_artifacts fs d = Ok art -> load_server fs d = Ok (server_of art).
Proof.
  intros H. apply load_hier_artifacts_Ok in H as (Hb & Hd & _).
  unfold load_server, load_model, joblib_load, open_file in *.
  destruct (fs !! path_join d "rf_bin.joblib"); [|discriminate].
  destruct (fs !! path_join d "rf_dos_vs_other.joblib"); [|discriminate].
  simpl in *. rewrite Hb, Hd. reflexivity.
Qed.

(** C1 fails as stated: with a first threshold of 0.3 and a classifier that
    scores the record 0.4, and so predicts the label 0, the serving path
    answers normal and the batch path answers attack and dos. *)
Lemma single_record_counterexample :
  exists srv o tr df_out tr',
    load_server fs_low_threshold "models" = Ok srv /\
    predict_one srv example_flow = (Ok o, tr) /\
    bin_label o = "normal"%string /\ dos_vs_other_label o = None /\
    final_label o = "normal"%string /\
    save_predictions_csv fs_low_threshold (flow_frame example_flow)
      "out.csv" "hier" "models" = (Ok df_out, tr') /\
    get_col df_out "bin_label" = Some (Int64Col [1]) /\
    get_col df_out "tri_label" = Some (Int64Col [1]) /\
    get_col df_out "final_label" = Some (ObjectCol [VStr "dos"]).
Proof.
  eexists _, _, _, _, _.
  split; [vm_compute; reflexivity|].
  split; [vm_compute; reflexivity|].
  split; [reflexivity|]. split; [reflexivity|]. split; [reflexivity|].
  split; [vm_compute; reflexivity|]. repeat split.
Qed.

(** C1, amended: for a record of the canonical schema and one bundle with
    numeric thresholds and the canonical manifest, when the label the first
    classifier predicts is, once normalised, attack exactly when its score
    reaches [t1], the serving path and the batch path on the one-row table
    agree on the gate: the binary label is attack exactly when [bin_label] is
    1, the final label is normal in the one exactly when it is in the other,
    and the subtype label is null exactly when [tri_label] is 0.  Which
    subtype a malicious record gets is not part of the agreement. *)
Theorem single_record_agrees_on_gate (fs : filesystem) (art_dir out_csv : string)
  (art : hier_artifacts) (flow : FlowInput) (tf1 tf2 : float) :
  load_hier_artifacts fs art_dir = Ok art ->
  feats art = features_json canonical_features ->
  threshold_float (t1 art) = Some tf1 ->
  threshold_float (t2 art) = Some tf2 ->
  _is_attack_label (predict (pipe_bin art) (flow_dict flow))
  = (tf1 <=? predict_proba (pipe_bin art) (flow_dict flow))%float ->
  exists o tr df_out tr' b t,
    predict_one (server_of art) flow = (Ok o, tr) /\
    save_predictions_csv fs (flow_frame flow) out_csv "hier" art_dir = (Ok df_out, tr') /\
    get_col df_out "bin_label" = Some (Int64Col [b]) /\
    get_col df_out "tri_label" = Some (Int64Col [t]) /\
    get_col df_out "final_label" = Some (ObjectCol [map_tri_name (IntLike t)]) /\
    (bin_label o = "attack"%string <-> b = 1) /\
    (bin_label o = "normal"%string <-> b = 0) /\
    (final_label o = "normal"%string <-> map_tri_name (IntLike t) = VStr "normal") /\
    (dos_vs_other_label o = None <-> t = 0).
Proof.
  intros Ha Hf H1 H2 Hagree.
  destruct (save_predictions_one_row fs art_dir out_csv art flow tf1 tf2 Ha Hf H1 H2)
    as (df_out & tr' & Hs & _ & Hb & Ht & Hfin).
  unfold predict_one. rewrite classify_flow_run. simpl in *. rewrite Hagree.
  destruct (tf1 <=? predict_proba (pipe_bin art) (flow_dict flow))%float.
  - eexists _, _, df_out, tr', _, _.
    split; [reflexivity|]. split; [exact Hs|]. split; [exact Hb|].
    split; [exact Ht|]. split; [exact Hfin|]. simpl.
    split; [split; reflexivity|]. split; [split; discriminate|].
    destruct (_is_dos_label (predict (pipe_dos art) (flow_dict flow)));
      destruct (tf2 <=? predict_proba (pipe_dos art) (flow_dict flow))%float; simpl;
      (split; split; intros; try discriminate; lia).
  - eexists _, _, df_out, tr', _, _.
    split; [reflexivity|]. split; [exact Hs|]. split; [exact Hb|].
    split; [exact Ht|]. split; [exact Hfin|]. simpl.
    split; [split; discriminate|]. repeat split.
Qed.

Lemma single_record_agrees_on_gate_witness :
  exists o tr df_out tr' b t,
    predict_one (server_of art_ties) example_flow = (Ok o, tr) /\
    save_predictions_csv fs_ties (flow_frame example_flow) "out.csv" "hier" "models"
    = (Ok df_out, tr') /\
    get_col df_out "bin_label" = Some (Int64Col [b]) /\
    get_col df_out "tri_label" = Some (Int64Col [t]) /\
    get_col df_out "final_label" = Some (ObjectCol [map_tri_name (IntLike t)]) /\
    (bin_label o = "attack"%string <-> b = 1) /\
    (bin_label o = "normal"%string <-> b = 0) /\
    (final_label o = "normal"%string <-> map_tri_name (IntLike t) = VStr "normal") /\
    (dos_vs_other_label o = None <-> t = 0).
Proof.
  apply (single_record_agrees_on_gate fs_ties "models" "out.csv" art_ties
           example_flow 0x1p-1%float 0x1p-1%float).
  - vm_compute. reflexivity.
  - reflexivity.
  - reflexivity.
  - reflexivity.
  - reflexivity.
Defined.

(** ** The intrusion-event adapter *)

(** Blank lines, lines that are not JSON and events that are not flows add
    no row and raise nothing. *)
Lemma collect_rows_passed_over (ls : list line) (rows : list (list pyval)) :
  Forall passed_over ls ->
  forall rest, collect_rows eve_row rest = Ok rows ->
               collect_rows eve_row (ls ++ rest) = Ok rows.
Proof.
  induction 1 as [|l ls Hl _ IH]; intros rest Hrest; simpl; [exact Hrest|].
  destruct l as [|e|d]; [apply IH; exact Hrest | |].
  { simpl in Hl. subst e. apply IH. exact Hrest. }
  destruct Hl as (kv & -> & Hne). unfold eve_row at 1. simpl. rewrite Hne. simpl.
  rewrite (IH rest Hrest). reflexivity.
Qed.

(** The scenario of the specification: of the four lines only the flow event
    gives a row, and the row has the defaults for the two protocol fields. *)
Lemma eve_scenario :
  suricata_eve_to_features_df (rt := example_runtime) fs_eve_scenario "eve.json" "models"
  = Ok {| nrows := 1;
          cols := [("proto", ObjectCol [VStr "unknown"]);
                   ("service", ObjectCol [VStr "unknown"]);
                   ("spkts", Int64Col [10]); ("dpkts", Int64Col [8]);
                   ("sbytes", Int64Col [1500]); ("dbytes", Int64Col [2000]);
                   ("dur", Float64Col [0x1.ccccccccccccdp-2%float])]%string |}.
Proof. vm_compute. reflexivity. Qed.

(** A line that is JSON but not an object ends the loop with an exception,
    whatever the runtime and the other lines. *)
Lemma collect_rows_scalar_line (ls rest : list line) (n : Z) (rows : list (list pyval)) :
  collect_rows eve_row ls = Ok rows ->
  collect_rows eve_row (ls ++ Json (VInt n) :: rest) = Raise AttributeError.
Proof.
  revert rows. induction ls as [|l ls IH]; intros rows H; simpl in *; [reflexivity|].
  destruct l as [|e|d]; [eapply IH; exact H | |].
  { destruct e; try discriminate. eapply IH. exact H. }
  destruct (eve_row d) as [r|e]; simpl in *; [|discriminate].
  destruct (collect_rows eve_row ls) as [rows'|e] eqn:E; simpl in *; [|discriminate].
  rewrite (IH rows' eq_refl). reflexivity.
Qed.

(** C9 at a log whose second line is the JSON text 42: the line parses, it
    is not a flow event, and the adapter raises instead of passing over it;
    the row of the flow event before it is lost with the run. *)
Theorem eve_scalar_line_raises :
  suricata_eve_to_features_df (rt := example_runtime) fs_eve_scalar_line
    "eve.json" "models"
  = Raise AttributeError.
Proof. vm_compute. reflexivity. Qed.

(** ** The driver *)

Section MainProofs.
Context {rt : PyRuntime}.

(** C10: when the adapter returns a table without rows, [main] raises the
    empty-result error, a [SystemExit] with its own message, and the trace of
    the run is empty: no classifier was called and no file was written. *)
Theorem no_flows_no_classifier (fs : filesystem) (a : args) (df : DataFrame) :
  load_flows fs a = Ok df ->
  nrows df = 0%nat ->
  main fs a = (Raise (SystemExit no_flows_message), []).
Proof.
  intros Hload Hn. unfold main. rewrite Hload.
  cbv beta iota delta [bindM lift]. unfold empty. rewrite Hn. reflexivity.
Qed.

End MainProofs.

Lemma no_flows_no_classifier_witness :
  main (rt := example_runtime) fs_eve_no_flow args_eve
  = (Raise (SystemExit no_flows_message), []).
Proof.
  apply (no_flows_no_classifier (rt := example_runtime) fs_eve_no_flow args_eve
           empty_canonical_frame).
  - vm_compute. reflexivity.
  - reflexivity.
Defined.

(** * Further properties of the code *)

(** ** The rows the adapters build *)

Lemma truthy_py_or_unknown (v : pyval) : truthy (py_or v (VStr "unknown")) = true.
Proof. unfold py_or. destruct (truthy v) eqn:E; [exact E | reflexivity]. Qed.

Lemma eve_row_shape (d : pyval) (row : list pyval) :
  eve_row d = Ok (Some row) ->
  length row = 7%nat /\ exists v, row !! 1%nat = Some v /\ truthy v = true.
Proof.
  unfold eve_row. intros H.
  apply bind_Ok in H as (et & _ & H).
  destruct (py_ne_str et "flow"); [discriminate|].
  apply bind_Ok in H as (flow & _ & H). apply bind_Ok in H as (pr & _ & H).
  apply bind_Ok in H as (app & _ & H). apply bind_Ok in H as (sp & _ & H).
  apply bind_Ok in H as (dp & _ & H). apply bind_Ok in H as (sb & _ & H).
  apply bind_Ok in H as (db & _ & H). apply bind_Ok in H as (du & _ & H).
  injection H as <-. split; [reflexivity|].
  eexists. split; [reflexivity | apply truthy_py_or_unknown].
Qed.

Lemma zeek_row_shape (d : pyval) (row : list pyval) :
  zeek_row d = Ok (Some row) ->
  length row = 7%nat /\ exists v, row !! 1%nat = Some v /\ truthy v = true.
Proof.
  unfold zeek_row. intros H.
  apply bind_Ok in H as (pr & _ & H). apply bind_Ok in H as (sv & _ & H).
  apply bind_Ok in H as (sp & _ & H). apply bind_Ok in H as (dp & _ & H).
  apply bind_Ok in H as (sb & _ & H). apply bind_Ok in H as (db & _ & H).
  apply bind_Ok in H as (du & _ & H).
  injection H as <-. split; [reflexivity|].
  eexists. split; [reflexivity | apply truthy_py_or_unknown].
Qed.

Lemma zeek_row_dict (kv : list (string * pyval)) :
  exists row, zeek_row (VDict kv) = Ok (Some row).
Proof. unfold zeek_row. simpl. eauto. Qed.

Lemma body_not_dict (v : pyval) :
  is_dict v = false ->
  eve_row v = Raise AttributeError /\ zeek_row v = Raise AttributeError.
Proof. destruct v; simpl; try discriminate; intros _; split; reflexivity. Qed.

(** What holds of every row of the body holds of the rows collected. *)
Lemma collect_rows_Forall (body : pyval -> result (option (list pyval)))
  (P : list pyval -> Prop) :
  (forall d row, body d = Ok (Some row) -> P row) ->
  forall ls rows, collect_rows body ls = Ok rows -> Forall P rows.
Proof.
  intros HP. induction ls as [|l ls IH]; simpl; intros rows H.
  - injection H as <-. constructor.
  - destruct l as [|e|d]; [apply IH; exact H | |].
    { destruct e; try discriminate. apply IH. exact H. }
    apply bind_Ok in H as (r & Hr & H). apply bind_Ok in H as (rs & Hrs & H).
    injection H as <-. destruct r as [row|]; [|apply IH; exact Hrs].
    constructor; [exact (HP d row Hr) | apply IH; exact Hrs].
Qed.

Lemma collect_rows_abort (body : pyval -> result (option (list pyval)))
  (ls rest : list line) (v : pyval) (e : exn) (rows : list (list pyval)) :
  body v = Raise e ->
  collect_rows body ls = Ok rows ->
  collect_rows body (ls ++ Json v :: rest) = Raise e.
Proof.
  intros Hv. revert rows. induction ls as [|l ls IH]; intros rows H; simpl in *.
  - rewrite Hv. reflexivity.
  - destruct l as [|e'|d]; [eapply IH; exact H | |].
    { destruct e'; try discriminate. eapply IH. exact H. }
    destruct (body d) as [r|e']; simpl in *; [|discriminate].
    destruct (collect_rows body ls) as [rows'|e'] eqn:E; simpl in *; [|discriminate].
    rewrite (IH rows' eq_refl). reflexivity.
Qed.

(** X1: the connection-log adapter has no filter.  When no line makes
    [json.loads] raise another exception than [JSONDecodeError] and every
    line that parses is an object, its loop raises nothing and builds one
    row of seven values for each line that parses; blank lines and lines
    that are not JSON give none. *)
Theorem zeek_one_row_per_parsed_line (ls : list line) :
  Forall (fun l => readable l = true) ls ->
  Forall (fun d => is_dict d = true) (parsed ls) ->
  exists rows,
    collect_rows zeek_row ls = Ok rows /\
    length rows = length (parsed ls) /\
    Forall (fun row => length row = 7%nat) rows.
Proof.
  induction ls as [|l ls IH]; simpl; intros Hr H.
  - exists []. repeat split. constructor.
  - apply Forall_cons in Hr as [Hl Hr].
    destruct l as [|e|d]; simpl in H; [apply IH; assumption | |].
    { destruct e; try discriminate. apply IH; assumption. }
    apply Forall_cons in H as [Hd H]. destruct (IH Hr H) as (rows & Hrows & Hlen & Hw).
    destruct d; try discriminate. destruct (zeek_row_dict kv) as [row Hrow].
    exists (row :: rows). rewrite Hrow, Hrows. simpl.
    split; [reflexivity|]. split; [congruence|].
    constructor; [apply (zeek_row_shape _ _ Hrow) | exact Hw].
Qed.

Lemma zeek_one_row_per_parsed_line_witness :
  exists rows,
    collect_rows zeek_row [Json zeek_event; Garbled; Blank; Json (VDict [])] = Ok rows /\
    length rows = length (parsed [Json zeek_event; Garbled; Blank; Json (VDict [])]) /\
    Forall (fun row => length row = 7%nat) rows.
Proof.
  apply (zeek_one_row_per_parsed_line [Json zeek_event; Garbled; Blank; Json (VDict [])]);
    repeat constructor.
Defined.



Section AdapterProofs.
Context {rt : PyRuntime}.

(** X2: a line that parses to a value that is not an object ends either
    adapter with [AttributeError], whatever the lines before and after it. *)
Theorem non_object_line_aborts (fs : filesystem) (path art_dir : string)
  (manifest v : pyval) (ls rest : list line) (rows1 rows2 : list (list pyval)) :
  get_feature_list fs art_dir = Ok manifest ->
  read_lines fs path = Ok (ls ++ Json v :: rest) ->
  is_dict v = false ->
  collect_rows eve_row ls = Ok rows1 ->
  collect_rows zeek_row ls = Ok rows2 ->
  suricata_eve_to_features_df fs path art_dir = Raise AttributeError /\
  zeek_conn_to_features_df fs path art_dir = Raise AttributeError.
Proof.
  intros Hm Hl Hv H1 H2. destruct (body_not_dict v Hv) as [He Hz].
  unfold suricata_eve_to_features_df, zeek_conn_to_features_df.
  rewrite Hm, Hl. simpl.
  rewrite (collect_rows_abort eve_row ls rest v _ rows1 He H1).
  rewrite (collect_rows_abort zeek_row ls rest v _ rows2 Hz H2).
  split; reflexivity.
Qed.

(** X4: the rows have seven values whatever the manifest says.  With a
    manifest that does not have seven names, the intrusion-event adapter
    raises [ValueError] as soon as the log holds one flow event. *)
Theorem manifest_width_mismatch (fs : filesystem) (path art_dir : string)
  (manifest : pyval) (names : list string) (ls : list line)
  (row : list pyval) (rows : list (list pyval)) :
  get_feature_list fs art_dir = Ok manifest ->
  labels manifest = Ok names ->
  read_lines fs path = Ok ls ->
  collect_rows eve_row ls = Ok (row :: rows) ->
  length names <> 7%nat ->
  suricata_eve_to_features_df fs path art_dir = Raise ValueError.
Proof.
  intros Hm Hn Hl Hrows Hlen. unfold suricata_eve_to_features_df.
  rewrite Hm, Hl. simpl. rewrite Hrows. simpl. rewrite Hn. simpl.
  pose proof (collect_rows_Forall eve_row (fun r => length r = 7%nat)
                (fun d r H => proj1 (eve_row_shape d r H)) ls _ Hrows) as Hw.
  apply Forall_cons in Hw as [Hrow _].
  unfold DataFrame_of_rows. simpl. rewrite Hrow.
  destruct (length names) as [|[|[|[|[|[|[|[|n]]]]]]]] eqn:E; simpl;
    try reflexivity. contradiction.
Qed.

End AdapterProofs.

Lemma non_object_line_aborts_witness :
  suricata_eve_to_features_df (rt := example_runtime) fs_eve_scalar_line
    "eve.json" "models" = Raise AttributeError /\
  zeek_conn_to_features_df (rt := example_runtime) fs_eve_scalar_line
    "eve.json" "models" = Raise AttributeError.
Proof.
  eapply (non_object_line_aborts (rt := example_runtime) fs_eve_scalar_line
            "eve.json" "models" _ (VInt 42) [Json flow_event] []);
    vm_compute; reflexivity.
Defined.

Lemma manifest_width_mismatch_witness :
  suricata_eve_to_features_df (rt := example_runtime) fs_six_features
    "eve.json" "models" = Raise ValueError.
Proof.
  eapply (manifest_width_mismatch (rt := example_runtime) fs_six_features
            "eve.json" "models" _ six_features [Json flow_event]).
  - vm_compute. reflexivity.
  - reflexivity.
  - vm_compute. reflexivity.
  - vm_compute. reflexivity.
  - vm_compute. discriminate.
Defined.

(** ** A log without flows, and the tabular adapter *)

Lemma has_column_elem (df : DataFrame) (c : string) :
  c ∈ columns df <-> has_column df c = true.
Proof.
  unfold has_column. induction (columns df) as [|c0 cs IH]; simpl.
  - split; [intros H; apply elem_of_nil in H; contradiction | discriminate].
  - rewrite elem_of_cons, orb_true_iff, IH. split.
    + intros [->|H]; [left; apply String.eqb_refl | right; exact H].
    + intros [H|H]; [left; apply String.eqb_eq; exact H | right; exact H].
Qed.

Lemma columns_empty_frame (names : list string) :
  columns (empty_frame names) = names.
Proof.
  unfold columns, empty_frame. simpl. rewrite map_map. simpl. apply map_id.
Qed.

Lemma get_col_empty_frame (names : list string) (c : string) (col : column) :
  get_col (empty_frame names) c = Some col -> col = ObjectCol [].
Proof.
  unfold get_col, empty_frame. simpl. induction names as [|c0 names IH]; simpl;
    [discriminate|].
  destruct (String.eqb c c0); [intros [= <-]; reflexivity | exact IH].
Qed.

Lemma mapM_result_KeyError (df : DataFrame) (names : list string) (c : string) :
  c ∈ names -> has_column df c = false ->
  mapM_result (fun c => match get_col df c with
                        | Some col => Ok (c, col)
                        | None => Raise KeyError
                        end) names = Raise KeyError.
Proof.
  intros Hin Hc. induction names as [|c0 names IH]; simpl.
  - apply elem_of_nil in Hin. contradiction.
  - destruct (get_col df c0) as [col|] eqn:E; [|reflexivity]. simpl.
    apply elem_of_cons in Hin as [->|Hin].
    + assert (Hh : has_column df c0 = true)
        by (apply has_column_get_col; congruence).
      congruence.
    + rewrite (IH Hin). reflexivity.
Qed.

Lemma select_KeyError (df : DataFrame) (names : list string) (c : string) :
  c ∈ names -> has_column df c = false -> select df names = Raise KeyError.
Proof.
  intros Hin Hc. unfold select. rewrite (mapM_result_KeyError df names c Hin Hc).
  reflexivity.
Qed.

Section TabularProofs.
Context {rt : PyRuntime}.

Lemma ensure_types_empty_frame (names : list string) :
  exists out, _ensure_types (empty_frame names) names = Ok out /\
              nrows out = 0%nat /\ columns out = names.
Proof.
  destruct (run_steps_ok coercion_steps coercion_steps_NoDup (empty_frame names))
    as [df' Hrun].
  { intros c f col Hin Hc. apply get_col_empty_frame in Hc. subst col.
    unfold coercion_steps in Hin. simpl in Hin.
    destruct Hin as [H|[H|[H|[H|[H|[H|[H|[]]]]]]]]; injection H as _ <-; reflexivity. }
  pose proof (run_steps_spec coercion_steps coercion_steps_NoDup _ df' Hrun)
    as (Hn & Hc & _).
  destruct (select_ok df' names) as [out Hsel].
  { apply Forall_forall. intros c Hin. apply has_column_elem.
    rewrite Hc, columns_empty_frame. exact Hin. }
  exists out. rewrite ensure_types_run_steps, Hrun. simpl.
  split; [exact Hsel|]. split; [|eapply select_columns; exact Hsel].
  apply select_spec in Hsel as [Hn' _]. rewrite Hn', Hn. reflexivity.
Qed.

(** X5: a log in which every line is blank, is not JSON or is an event other
    than a flow gives no error: with a manifest of distinct names, the
    intrusion-event adapter returns the table without rows that has the
    columns of the manifest.  A line for which [json.loads] raises another
    exception than [JSONDecodeError] is none of these lines. *)
Theorem log_without_flows (fs : filesystem) (path art_dir : string)
  (manifest : pyval) (names : list string) (ls : list line) :
  get_feature_list fs art_dir = Ok manifest ->
  labels manifest = Ok names ->
  NoDup names ->
  read_lines fs path = Ok ls ->
  Forall passed_over ls ->
  exists out,
    suricata_eve_to_features_df fs path art_dir = Ok out /\
    nrows out = 0%nat /\ columns out = names /\ empty out = true.
Proof.
  intros Hm Hn _ Hl Hp. unfold suricata_eve_to_features_df.
  rewrite Hm, Hl. simpl.
  pose proof (collect_rows_passed_over ls [] Hp [] eq_refl) as Hrows.
  rewrite app_nil_r in Hrows. rewrite Hrows. simpl. rewrite Hn. simpl.
  destruct (ensure_types_empty_frame names) as (out & Hout & Hz & Hc).
  exists out. split; [exact Hout|]. split; [exact Hz|]. split; [exact Hc|].
  unfold empty. rewrite Hz. reflexivity.
Qed.

(** X6: the tabular adapter returns the columns of the manifest, in the
    order of the manifest, with the rows of the file and the cells as
    [pd.read_csv] gave them: it selects and does not coerce. *)
Theorem csv_selects_manifest (fs : filesystem) (csv_path art_dir : string)
  (out : DataFrame) :
  load_features_from_csv fs csv_path art_dir = Ok out ->
  exists manifest names df_raw,
    get_feature_list fs art_dir = Ok manifest /\
    labels manifest = Ok names /\
    read_csv fs csv_path = Ok df_raw /\
    columns out = names /\ nrows out = nrows df_raw /\
    forall c, c ∈ names -> get_col out c = get_col df_raw c /\ get_col out c <> None.
Proof.
  unfold load_features_from_csv. intros H.
  apply bind_Ok in H as (manifest & Hm & H). apply bind_Ok in H as (df_raw & Hr & H).
  apply bind_Ok in H as (names & Hn & H).
  destruct (List.filter _ names) eqn:Hf; [|discriminate].
  exists manifest, names, df_raw. split; [exact Hm|]. split; [exact Hn|].
  split; [exact Hr|]. split; [eapply select_columns; exact H|].
  split; [apply select_spec in H as [Hrows _]; exact Hrows|].
  intros c Hin. rewrite (select_get_col df_raw out names c H Hin).
  split; [reflexivity|]. apply has_column_get_col.
  destruct (has_column df_raw c) eqn:Hc; [reflexivity|].
  assert (Hin' : In c (List.filter (fun c => negb (has_column df_raw c)) names)).
  { apply filter_In. split; [apply list_elem_of_In; exact Hin | rewrite Hc; reflexivity]. }
  rewrite Hf in Hin'. contradiction.
Qed.

(** X7: when the file lacks a column of the manifest, the tabular adapter
    raises [ValueError]; no table is returned. *)
Theorem csv_missing_column (fs : filesystem) (csv_path art_dir : string)
  (manifest : pyval) (names : list string) (df_raw : DataFrame) (c : string) :
  get_feature_list fs art_dir = Ok manifest ->
  labels manifest = Ok names ->
  read_csv fs csv_path = Ok df_raw ->
  c ∈ names -> has_column df_raw c = false ->
  load_features_from_csv fs csv_path art_dir = Raise ValueError.
Proof.
  intros Hm Hn Hr Hin Hc. unfold load_features_from_csv.
  rewrite Hm, Hr. simpl. rewrite Hn. simpl.
  destruct (List.filter _ names) eqn:Hf; [|reflexivity].
  assert (Hin' : In c (List.filter (fun c => negb (has_column df_raw c)) names)).
  { apply filter_In. split; [apply list_elem_of_In; exact Hin | rewrite Hc; reflexivity]. }
  rewrite Hf in Hin'. contradiction.
Qed.

(** X8: [_ensure_types] raises [KeyError] when a name of the feature list is
    not a column of the table and the coercions of the columns that are
    there go through: a missing feature is not defaulted. *)
Theorem ensure_types_missing_feature (df : DataFrame) (feature_list : list string)
  (c : string) :
  (forall c col, c ∈ count_columns -> get_col df c = Some col ->
                 Forall (fun v => count_ok v = true) (cells col)) ->
  (forall col, get_col df "dur" = Some col ->
               Forall (fun v => dur_ok v = true) (cells col)) ->
  c ∈ feature_list -> has_column df c = false ->
  _ensure_types df feature_list = Raise KeyError.
Proof.
  intros Hok Hdur Hin Hc.
  destruct (run_steps_ok coercion_steps coercion_steps_NoDup df
              (coercion_steps_ok df Hok Hdur)) as [df' Hrun].
  pose proof (run_steps_spec coercion_steps coercion_steps_NoDup df df' Hrun)
    as (_ & Hcols & _).
  rewrite ensure_types_run_steps, Hrun. simpl.
  apply (select_KeyError df' feature_list c Hin).
  unfold has_column in *. rewrite Hcols. exact Hc.
Qed.

End TabularProofs.

Lemma log_without_flows_witness :
  exists out,
    suricata_eve_to_features_df (rt := example_runtime) fs_eve_no_flow
      "eve.json" "models" = Ok out /\
    nrows out = 0%nat /\ columns out = canonical_features /\ empty out = true.
Proof.
  eapply (log_without_flows (rt := example_runtime) fs_eve_no_flow "eve.json" "models"
            _ canonical_features [Json dns_event; Blank; Garbled]).
  - vm_compute. reflexivity.
  - reflexivity.
  - exact canonical_features_NoDup.
  - vm_compute. reflexivity.
  - repeat constructor. exists [("event_type", VStr "dns"); ("proto", VStr "UDP")]%string.
    split; reflexivity.
Defined.

Lemma csv_selects_manifest_witness :
  exists manifest names df_raw,
    get_feature_list (fs_csv csv_frame) "models" = Ok manifest /\
    labels manifest = Ok names /\
    read_csv (fs_csv csv_frame) "flows.csv" = Ok df_raw /\
    columns two_flows_frame = names /\ nrows two_flows_frame = nrows df_raw /\
    forall c, c ∈ names ->
      get_col two_flows_frame c = get_col df_raw c /\ get_col two_flows_frame c <> None.
Proof.
  apply (csv_selects_manifest (fs_csv csv_frame) "flows.csv" "models" two_flows_frame).
  vm_compute. reflexivity.
Defined.

Lemma csv_missing_column_witness :
  load_features_from_csv (fs_csv csv_frame_no_dur) "flows.csv" "models"
  = Raise ValueError.
Proof.
  eapply (csv_missing_column (fs_csv csv_frame_no_dur) "flows.csv" "models"
            _ canonical_features csv_frame_no_dur "dur").
  - vm_compute. reflexivity.
  - reflexivity.
  - vm_compute. reflexivity.
  - unfold canonical_features. rewrite ?elem_of_cons. auto 10.
  - reflexivity.
Defined.

Lemma ensure_types_missing_feature_witness :
  _ensure_types (rt := example_runtime) raw_frame_no_service canonical_features
  = Raise KeyError.
Proof.
  apply (ensure_types_missing_feature (rt := example_runtime)
           raw_frame_no_service canonical_features "service").
  - intros c col Hc Hg. unfold count_columns in Hc.
    rewrite ?elem_of_cons, elem_of_nil in Hc.
    destruct Hc as [->|[->|[->|[->|[]]]]]; vm_compute in Hg; injection Hg as <-;
      repeat constructor.
  - intros col Hg. vm_compute in Hg. injection Hg as <-. repeat constructor.
  - unfold canonical_features. rewrite ?elem_of_cons. auto 10.
  - reflexivity.
Defined.

(** ** The loaders of the two paths *)

Lemma load_server_of_bundle_witness :
  load_server fs_ties "models" = Ok (server_of art_ties).
Proof. apply (load_server_of_bundle fs_ties "models" art_ties). vm_compute. reflexivity. Defined.

(** X10: [load_models_default] returns the two classifiers of the bundle
    [load_hier_artifacts] loads, and so it fails when any of the five files
    is absent, the threshold files and the manifest included, although it
    returns none of them. *)
Theorem load_models_default_needs_bundle (fs : filesystem) (d : string) :
  (forall name, name ∈ hier_files -> fs !! path_join d name = None ->
                is_ok (load_models_default fs d) = false) /\
  (forall a b, load_models_default fs d = Ok (a, b) ->
               exists art, load_hier_artifacts fs d = Ok art /\
                           a = pipe_bin art /\ b = pipe_dos art).
Proof.
  unfold load_models_default. split.
  - intros name Hin Hnone.
    pose proof (load_hier_artifacts_missing fs d name Hin Hnone) as H.
    destruct (load_hier_artifacts fs d); [discriminate | reflexivity].
  - intros a b H. apply bind_Ok in H as (art & Ha & H). injection H as <- <-.
    eauto.
Qed.

(** ** The flat classifier *)

Lemma predict_from_df_both_Ok (fs : filesystem) (df : DataFrame) (art_dir : string)
  (out : predictions) (tr : list event) :
  predict_from_df fs df "both" art_dir = (Ok out, tr) ->
  exists art names X tf,
    load_flat_artifacts fs art_dir = Ok art /\
    labels (flat_feats art) = Ok names /\ select df names = Ok X /\
    threshold_float (flat_th art) = Some tf /\
    out_binary out =
      Some (map (predict_proba (flat_pipe_bin art)) (frame_rows X),
            map Z.b2z (map (fun s => (tf <=? s)%float)
                           (map (predict_proba (flat_pipe_bin art)) (frame_rows X)))) /\
    out_tri out = Some (map (predict (flat_pipe_tri art)) (frame_rows X)) /\
    tr = [PredictProba ModelBin (frame_rows X); Predict ModelTri (frame_rows X)].
Proof.
  unfold predict_from_df. intros H.
  apply bindM_Ok in H as (art & t0 & t0' & Ha & H & ->).
  apply lift_Ok in Ha as [Ha ->].
  apply bindM_Ok in H as (names & ta & ta' & Hn & H & ->).
  apply lift_Ok in Hn as [Hn ->].
  apply bindM_Ok in H as (X & tb & tb' & HX & H & ->).
  apply lift_Ok in HX as [HX ->].
  apply bindM_Ok in H as (bin & tc & tc' & Hb & H & ->).
  change (is_mode "both" ["binary"; "both"]%string) with true in Hb.
  change (is_mode "both" ["tri"; "both"]%string) with true in H.
  cbv iota in Hb, H.
  apply bindM_Ok in Hb as (scores & td & td' & Hs & Hb & ->).
  unfold call_predict_proba in Hs. injection Hs as <- <-.
  apply bindM_Ok in Hb as (ge & te & te' & Hg & Hb & ->).
  apply lift_Ok in Hg as [Hg ->]. apply array_ge_Ok in Hg as (tf & Hth & ->).
  unfold ret in Hb. injection Hb as <- <-.
  apply bindM_Ok in H as (tri & tg & tg' & Ht & H & ->).
  apply bindM_Ok in Ht as (ls & th & th' & Hl & Ht & ->).
  unfold call_predict in Hl. injection Hl as <- <-.
  unfold ret in Ht. injection Ht as <- <-.
  unfold ret in H. injection H as <- <-. simpl.
  exists art, names, X, tf. auto 10.
Qed.

Lemma length_frame_rows (df : DataFrame) : length (frame_rows df) = nrows df.
Proof. unfold frame_rows. rewrite length_map. apply length_seq. Qed.

Lemma select_nrows (df X : DataFrame) (names : list string) :
  select df names = Ok X -> nrows X = nrows df.
Proof. intros H. apply select_spec in H as [H _]. exact H. Qed.

(** X11: in flat mode the three-way classifier is not gated.  A run in mode
    "both" that returns has called the binary classifier and then the
    three-way classifier, each once and on all the rows, and reports a
    binary score, a binary label and a three-way label for every row. *)
Theorem flat_mode_scores_every_row (fs : filesystem) (df : DataFrame)
  (art_dir : string) (out : predictions) (tr : list event) :
  predict_from_df fs df "both" art_dir = (Ok out, tr) ->
  exists rows scores ls labels3,
    out_binary out = Some (scores, ls) /\ out_tri out = Some labels3 /\
    tr = [PredictProba ModelBin rows; Predict ModelTri rows] /\
    length rows = nrows df /\ length scores = nrows df /\
    length ls = nrows df /\ length labels3 = nrows df.
Proof.
  intros H. apply predict_from_df_both_Ok in H
    as (art & names & X & tf & _ & _ & HX & _ & Hb & Ht & ->).
  eexists _, _, _, _. split; [exact Hb|]. split; [exact Ht|].
  split; [reflexivity|].
  rewrite !length_map, length_frame_rows, (select_nrows _ _ _ HX). auto.
Qed.

(** X12: the other modes of [predict_from_df].  In mode "tri" only the
    three-way classifier is called and the threshold is not looked at; a
    mode that is none of "binary", "tri" and "both" calls no classifier and
    returns a dict without any prediction. *)
Theorem flat_mode_selects_classifiers (fs : filesystem) (df : DataFrame)
  (art_dir : string) (art : flat_artifacts) (names : list string) (X : DataFrame) :
  load_flat_artifacts fs art_dir = Ok art ->
  labels (flat_feats art) = Ok names ->
  select df names = Ok X ->
  predict_from_df fs df "tri" art_dir
  = (Ok {| out_binary := None;
           out_tri := Some (map (predict (flat_pipe_tri art)) (frame_rows X)) |},
     [Predict ModelTri (frame_rows X)]) /\
  forall mode,
    is_mode mode ["binary"; "both"]%string = false ->
    is_mode mode ["tri"; "both"]%string = false ->
    predict_from_df fs df mode art_dir
    = (Ok {| out_binary := None; out_tri := None |}, []).
Proof.
  intros Ha Hn HX. unfold predict_from_df. rewrite Ha.
  cbv beta iota delta [bindM lift ret call_predict call_predict_proba].
  rewrite Hn, HX. split; [reflexivity|].
  intros mode H1 H2. rewrite H1, H2. reflexivity.
Qed.

(** X13: the binary half of flat mode is that of hierarchical mode.  On one
    directory and one table, the binary scores and labels of
    [predict_from_df] are those of [predict_hier_from_df]. *)
Theorem flat_binary_agrees_with_hier (fs : filesystem) (df : DataFrame)
  (art_dir : string) (h : hier_predictions) (f : predictions) (tr tr' : list event) :
  predict_hier_from_df fs df art_dir = (Ok h, tr) ->
  predict_from_df fs df "both" art_dir = (Ok f, tr') ->
  out_binary f = Some (binary_scores h, binary_labels h).
Proof.
  intros Hh Hf.
  apply predict_hier_from_df_Ok in Hh as (art & Ha & Hh).
  apply predict_hier_Ok in Hh
    as (names & X & tf1 & s_dos & tr2 & Hn & HX & Ht & Hs & Hb & _).
  apply predict_from_df_both_Ok in Hf
    as (art' & names' & X' & tf & Ha' & Hn' & HX' & Ht' & Hout & _).
  apply load_hier_artifacts_Ok in Ha as (Hp & _ & H1 & _ & Hfe).
  apply load_flat_artifacts_Ok in Ha' as (Hp' & _ & H1' & Hfe').
  rewrite Hp in Hp'. injection Hp' as Hp'.
  rewrite H1 in H1'. injection H1' as H1'.
  rewrite Hfe in Hfe'. injection Hfe' as Hfe'.
  rewrite <- Hfe', Hn in Hn'. injection Hn' as <-.
  rewrite HX in HX'. injection HX' as <-.
  rewrite <- H1', Ht in Ht'. injection Ht' as <-.
  rewrite Hout, <- Hp', Hb, Hs. reflexivity.
Qed.

Lemma flat_mode_scores_every_row_witness :
  exists rows scores ls labels3,
    out_binary flat_predictions_packets = Some (scores, ls) /\
    out_tri flat_predictions_packets = Some labels3 /\
    [PredictProba ModelBin (frame_rows two_flows_frame);
     Predict ModelTri (frame_rows two_flows_frame)]
    = [PredictProba ModelBin rows; Predict ModelTri rows] /\
    length rows = nrows two_flows_frame /\ length scores = nrows two_flows_frame /\
    length ls = nrows two_flows_frame /\ length labels3 = nrows two_flows_frame.
Proof.
  apply (flat_mode_scores_every_row fs_three_models two_flows_frame "models").
  vm_compute. reflexivity.
Defined.

Lemma flat_mode_selects_classifiers_witness :
  predict_from_df fs_three_models two_flows_frame "tri" "models"
  = (Ok {| out_binary := None;
           out_tri := Some (map (predict (flat_pipe_tri flat_art_packets))
                                (frame_rows two_flows_frame)) |},
     [Predict ModelTri (frame_rows two_flows_frame)]) /\
  forall mode,
    is_mode mode ["binary"; "both"]%string = false ->
    is_mode mode ["tri"; "both"]%string = false ->
    predict_from_df fs_three_models two_flows_frame mode "models"
    = (Ok {| out_binary := None; out_tri := None |}, []).
Proof.
  apply (flat_mode_selects_classifiers fs_three_models two_flows_frame "models"
           flat_art_packets canonical_features two_flows_frame).
  - vm_compute. reflexivity.
  - reflexivity.
  - reflexivity.
Defined.

Lemma flat_binary_agrees_with_hier_witness :
  out_binary flat_predictions_packets
  = Some (binary_scores predictions_packets, binary_labels predictions_packets).
Proof.
  eapply (flat_binary_agrees_with_hier fs_three_models two_flows_frame "models"
            predictions_packets flat_predictions_packets);
    vm_compute; reflexivity.
Defined.

(** ** The hierarchical classifier, row by row *)

Lemma scatter_map_mask_lookup {A B : Type} (f : A -> B) (m : list bool) :
  forall (xs : list A) (base : list B) (i : nat),
    length xs = length m -> length base = length m ->
    scatter m (map f (mask xs m)) base !! i =
    match m !! i with
    | Some true => f <$> xs !! i
    | _ => base !! i
    end.
Proof.
  induction m as [|b m IH]; intros xs base i Hx Hb.
  - destruct xs; [|discriminate]. destruct base; [|discriminate].
    destruct i; reflexivity.
  - destruct xs as [|x xs]; [discriminate|]. destruct base as [|y base]; [discriminate|].
    injection Hx as Hx. injection Hb as Hb.
    destruct b; simpl; destruct i as [|i]; simpl; try reflexivity; apply IH; assumption.
Qed.

Lemma stage2_tri_lookup (art : hier_artifacts) (rows : list record)
  (is_mal : list bool) (s_dos : option (list float)) (tri : list Z)
  (tr : list event) (i : nat) (r : record) (b : bool) :
  length is_mal = length rows ->
  stage2 art rows is_mal = (Ok (s_dos, tri), tr) ->
  rows !! i = Some r -> is_mal !! i = Some b ->
  if b then
    exists tf2, threshold_float (t2 art) = Some tf2 /\
                tri !! i = Some (Z.b2z (tf2 <=? predict_proba (pipe_dos art) r)%float + 1)
  else tri !! i = Some 0.
Proof.
  intros Hlen H Hr Hb. apply stage2_Ok in H; [|exact Hlen].
  assert (Hi : (i < length rows)%nat) by (apply lookup_lt_Some in Hr; exact Hr).
  destruct H as [(Hnone & _ & -> & _)|(_ & tf2 & Ht2 & _ & -> & _)].
  - rewrite (existsb_id_false is_mal i b Hnone Hb).
    apply lookup_repeat_lt. exact Hi.
  - rewrite map_map, scatter_map_mask_lookup, Hb;
      [|symmetry; exact Hlen | rewrite repeat_length; symmetry; exact Hlen].
    destruct b.
    + exists tf2. split; [exact Ht2|]. rewrite Hr. reflexivity.
    + apply lookup_repeat_lt. exact Hi.
Qed.

(** X14: the three arrays of a hierarchical prediction have one entry for
    each row of the table; a binary label is 0 or 1, and a three-way label
    is a key of [TRI_LABEL_NAMES], so that the final label of the batch
    runner is always one of the three names and never missing. *)
Theorem hier_outputs_shape (fs : filesystem) (df : DataFrame) (art_dir : string)
  (out : hier_predictions) (tr : list event) :
  predict_hier_from_df fs df art_dir = (Ok out, tr) ->
  length (binary_scores out) = nrows df /\
  length (binary_labels out) = nrows df /\
  length (tri_labels out) = nrows df /\
  Forall (fun b => b = 0 \/ b = 1) (binary_labels out) /\
  Forall (fun t => exists name, TRI_LABEL_NAMES t = Some name) (tri_labels out).
Proof.
  intros H. apply predict_hier_from_df_Ok in H as (art & _ & H).
  apply predict_hier_Ok in H
    as (names & X & tf1 & s_dos & tr2 & _ & HX & _ & Hs & Hb & Hst & _).
  assert (Hls : length (binary_scores out) = nrows df)
    by (rewrite Hs, length_map, length_frame_rows; exact (select_nrows _ _ _ HX)).
  assert (Hlen : length (map (fun s => (tf1 <=? s)%float) (binary_scores out))
                 = length (frame_rows X))
    by (rewrite Hs, !length_map; reflexivity).
  destruct (stage2_labels _ _ _ _ _ _ Hlen Hst) as [Hlt Hlab].
  split; [exact Hls|]. split; [rewrite Hb, !length_map; exact Hls|].
  split; [rewrite Hlt, length_frame_rows; exact (select_nrows _ _ _ HX)|]. split.
  - rewrite Hb. rewrite Forall_fmap. apply Forall_forall. intros m _. simpl.
    destruct m; simpl; auto.
  - apply Forall_lookup. intros i t Ht.
    assert (Hi : (i < length (map (fun s => (tf1 <=? s)%float) (binary_scores out)))%nat).
    { rewrite Hlen, <- Hlt. apply lookup_lt_Some in Ht. exact Ht. }
    apply lookup_lt_is_Some in Hi as [m Hm].
    specialize (Hlab i m t Hm Ht). destruct m.
    + destruct Hlab as [-> | ->]; eexists; reflexivity.
    + subst t. eexists; reflexivity.
Qed.

(** X15: the hierarchical prediction works row by row.  The outputs at a
    position depend on the row at that position alone: the binary score is
    the score of the first classifier on the row, the binary label tells
    whether it reaches [t1], and the three-way label is 0 when it does not
    and otherwise 1 plus the truth value of "the score of the second
    classifier on the row reaches [t2]". *)
Theorem hier_row_by_row (fs : filesystem) (df : DataFrame) (art_dir : string)
  (out : hier_predictions) (tr : list event) :
  predict_hier_from_df fs df art_dir = (Ok out, tr) ->
  exists art names X tf1,
    load_hier_artifacts fs art_dir = Ok art /\
    labels (feats art) = Ok names /\ select df names = Ok X /\
    threshold_float (t1 art) = Some tf1 /\
    forall i r, frame_rows X !! i = Some r ->
      let p1 := predict_proba (pipe_bin art) r in
      binary_scores out !! i = Some p1 /\
      binary_labels out !! i = Some (Z.b2z (tf1 <=? p1)%float) /\
      if (tf1 <=? p1)%float then
        exists tf2, threshold_float (t2 art) = Some tf2 /\
          tri_labels out !! i
          = Some (Z.b2z (tf2 <=? predict_proba (pipe_dos art) r)%float + 1)
      else tri_labels out !! i = Some 0.
Proof.
  intros H. apply predict_hier_from_df_Ok in H as (art & Ha & H).
  apply predict_hier_Ok in H
    as (names & X & tf1 & s_dos & tr2 & Hn & HX & Ht & Hs & Hb & Hst & _).
  exists art, names, X, tf1. split; [exact Ha|]. split; [exact Hn|].
  split; [exact HX|]. split; [exact Ht|].
  intros i r Hr. simpl.
  assert (Hsi : binary_scores out !! i = Some (predict_proba (pipe_bin art) r))
    by (rewrite Hs, list_lookup_fmap, Hr; reflexivity).
  split; [exact Hsi|].
  split; [rewrite Hb, !list_lookup_fmap, Hsi; reflexivity|].
  assert (Hlen : length (map (fun s => (tf1 <=? s)%float) (binary_scores out))
                 = length (frame_rows X))
    by (rewrite Hs, !length_map; reflexivity).
  assert (Hm : map (fun s => (tf1 <=? s)%float) (binary_scores out) !! i
               = Some (tf1 <=? predict_proba (pipe_bin art) r)%float)
    by (rewrite list_lookup_fmap, Hsi; reflexivity).
  exact (stage2_tri_lookup art _ _ _ _ _ i r _ Hlen Hst Hr Hm).
Qed.

Lemma hier_outputs_shape_witness :
  length (binary_scores predictions_packets) = nrows two_flows_frame /\
  length (binary_labels predictions_packets) = nrows two_flows_frame /\
  length (tri_labels predictions_packets) = nrows two_flows_frame /\
  Forall (fun b => b = 0 \/ b = 1) (binary_labels predictions_packets) /\
  Forall (fun t => exists name, TRI_LABEL_NAMES t = Some name)
         (tri_labels predictions_packets).
Proof.
  eapply (hier_outputs_shape fs_packets two_flows_frame "models" predictions_packets).
  vm_compute. reflexivity.
Defined.

Lemma hier_row_by_row_witness :
  exists art names X tf1,
    load_hier_artifacts fs_packets "models" = Ok art /\
    labels (feats art) = Ok names /\ select two_flows_frame names = Ok X /\
    threshold_float (t1 art) = Some tf1 /\
    forall i r, frame_rows X !! i = Some r ->
      let p1 := predict_proba (pipe_bin art) r in
      binary_scores predictions_packets !! i = Some p1 /\
      binary_labels predictions_packets !! i = Some (Z.b2z (tf1 <=? p1)%float) /\
      if (tf1 <=? p1)%float then
        exists tf2, threshold_float (t2 art) = Some tf2 /\
          tri_labels predictions_packets !! i
          = Some (Z.b2z (tf2 <=? predict_proba (pipe_dos art) r)%float + 1)
      else tri_labels predictions_packets !! i = Some 0.
Proof.
  eapply (hier_row_by_row fs_packets two_flows_frame "models" predictions_packets).
  vm_compute. reflexivity.
Defined.

Lemma binary_tie_is_attack_witness :
  binary_labels predictions_ties !! 0%nat = Some 1.
Proof.
  eapply (binary_tie_is_attack art_ties (flow_frame example_flow) predictions_ties _
            0x1p-1%float 0%nat 0x1p-1%float); vm_compute; reflexivity.
Defined.

Lemma predict_hier_returns_witness :
  exists out tr, predict_hier art_packets two_flows_frame = (Ok out, tr).
Proof.
  apply (predict_hier_returns art_packets two_flows_frame canonical_features
           0x1p-1%float 0x1p-1%float).
  - reflexivity.
  - repeat constructor.
  - reflexivity.
  - reflexivity.
Defined.

(** ** Bundles that were not validated, at prediction time *)

(** X17: a first threshold that is a text is found out only when the scores
    are compared with it: the first classifier has scored all the rows when
    [TypeError] is raised. *)
Theorem hier_text_first_threshold (art : hier_artifacts) (df : DataFrame)
  (names : list string) (X : DataFrame) (s : string) :
  labels (feats art) = Ok names ->
  select df names = Ok X ->
  t1 art = VStr s ->
  predict_hier art df = (Raise TypeError, [PredictProba ModelBin (frame_rows X)]).
Proof.
  intros Hn HX Ht. unfold predict_hier. rewrite Hn.
  cbv beta iota delta [bindM lift ret call_predict_proba array_ge].
  rewrite HX, Ht. reflexivity.
Qed.

(** X18: a second threshold that is a text goes unnoticed as long as no row
    is malicious: the prediction then returns, every row normal, and the
    second classifier is not called.  With a malicious row the second
    classifier is called and [TypeError] is raised. *)
Theorem hier_text_second_threshold (art : hier_artifacts) (df : DataFrame)
  (names : list string) (X : DataFrame) (tf1 : float) (s : string) :
  labels (feats art) = Ok names ->
  select df names = Ok X ->
  threshold_float (t1 art) = Some tf1 ->
  t2 art = VStr s ->
  let rows := frame_rows X in
  let scores := map (predict_proba (pipe_bin art)) rows in
  let is_mal := map (fun x => (tf1 <=? x)%float) scores in
  predict_hier art df =
  if existsb id is_mal then
    (Raise TypeError,
     [PredictProba ModelBin rows; PredictProba ModelDos (mask rows is_mal)])
  else
    (Ok {| binary_scores := scores; binary_labels := map Z.b2z is_mal;
           tri_labels := repeat 0 (length rows) |},
     [PredictProba ModelBin rows]).
Proof.
  intros Hn HX Ht1 Ht2. unfold predict_hier. rewrite Hn.
  cbv beta iota delta [bindM lift ret call_predict_proba array_ge stage2].
  rewrite HX, Ht1, Ht2. simpl.
  destruct (existsb id _); reflexivity.
Qed.

(** X19: a name of the manifest that is not a column of the table makes the
    hierarchical prediction raise [KeyError] before any classifier is
    called. *)
Theorem hier_missing_column (art : hier_artifacts) (df : DataFrame)
  (names : list string) (c : string) :
  labels (feats art) = Ok names ->
  c ∈ names -> has_column df c = false ->
  predict_hier art df = (Raise KeyError, []).
Proof.
  intros Hn Hin Hc. unfold predict_hier. rewrite Hn.
  cbv beta iota delta [bindM lift].
  rewrite (select_KeyError df names c Hin Hc). reflexivity.
Qed.

Lemma hier_text_first_threshold_witness :
  predict_hier art_text_t1 two_flows_frame
  = (Raise TypeError, [PredictProba ModelBin (frame_rows two_flows_frame)]).
Proof.
  apply (hier_text_first_threshold art_text_t1 two_flows_frame canonical_features
           two_flows_frame "high"); reflexivity.
Defined.

Lemma hier_text_second_threshold_witness :
  let rows := frame_rows two_flows_frame in
  let scores := map (predict_proba (pipe_bin art_text_t2)) rows in
  let is_mal := map (fun x => (0x1p-1 <=? x)%float) scores in
  predict_hier art_text_t2 two_flows_frame =
  if existsb id is_mal then
    (Raise TypeError,
     [PredictProba ModelBin rows; PredictProba ModelDos (mask rows is_mal)])
  else
    (Ok {| binary_scores := scores; binary_labels := map Z.b2z is_mal;
           tri_labels := repeat 0 (length rows) |},
     [PredictProba ModelBin rows]).
Proof.
  apply (hier_text_second_threshold art_text_t2 two_flows_frame canonical_features
           two_flows_frame 0x1p-1%float "high"); reflexivity.
Defined.

Lemma hier_missing_column_witness :
  predict_hier art_packets csv_frame_no_dur = (Raise KeyError, []).
Proof.
  apply (hier_missing_column art_packets csv_frame_no_dur canonical_features "dur").
  - reflexivity.
  - unfold canonical_features. rewrite ?elem_of_cons. auto 10.
  - reflexivity.
Defined.

(** ** What a run writes *)

Lemma bindM_no_write {A B : Type} (m : M A) (k : A -> M B) :
  Forall (fun e => is_write e = false) (snd m) ->
  (forall a, Forall (fun e => is_write e = false) (snd (k a))) ->
  Forall (fun e => is_write e = false) (snd (bindM m k)).
Proof.
  intros Hm Hk. unfold bindM. destruct m as [[a|e] t]; simpl in *; [|exact Hm].
  specialize (Hk a). destruct (k a) as [r t']. simpl in *.
  apply Forall_app. split; assumption.
Qed.

Lemma lift_no_write {A : Type} (r : result A) :
  Forall (fun e => is_write e = false) (snd (lift r)).
Proof. constructor. Qed.

Lemma stage2_no_write (art : hier_artifacts) (rows : list record) (is_mal : list bool) :
  Forall (fun e => is_write e = false) (snd (stage2 art rows is_mal)).
Proof.
  unfold stage2. destruct (existsb id is_mal); [|constructor].
  apply bindM_no_write; [repeat constructor|]. intros p.
  apply bindM_no_write; [apply lift_no_write|]. intros ge. constructor.
Qed.

Lemma predict_hier_from_df_no_write (fs : filesystem) (df : DataFrame) (art_dir : string) :
  Forall (fun e => is_write e = false) (snd (predict_hier_from_df fs df art_dir)).
Proof.
  unfold predict_hier_from_df, predict_hier.
  apply bindM_no_write; [apply lift_no_write|]. intros art.
  apply bindM_no_write; [apply lift_no_write|]. intros names.
  apply bindM_no_write; [apply lift_no_write|]. intros X.
  apply bindM_no_write; [repeat constructor|]. intros s_bin.
  apply bindM_no_write; [apply lift_no_write|]. intros is_mal.
  apply bindM_no_write; [apply stage2_no_write|]. intros st.
  apply bindM_no_write; [apply lift_no_write|]. intros lb. constructor.
Qed.

Lemma predict_from_df_no_write (fs : filesystem) (df : DataFrame) (mode art_dir : string) :
  Forall (fun e => is_write e = false) (snd (predict_from_df fs df mode art_dir)).
Proof.
  unfold predict_from_df.
  apply bindM_no_write; [apply lift_no_write|]. intros art.
  apply bindM_no_write; [apply lift_no_write|]. intros names.
  apply bindM_no_write; [apply lift_no_write|]. intros X.
  apply bindM_no_write.
  { destruct (is_mode mode _); [|constructor].
    apply bindM_no_write; [repeat constructor|]. intros scores.
    apply bindM_no_write; [apply lift_no_write|]. intros ge. constructor. }
  intros bin. apply bindM_no_write.
  { destruct (is_mode mode _); [|constructor].
    apply bindM_no_write; [repeat constructor|]. intros ls. constructor. }
  intros tri. constructor.
Qed.

(** The events of a run of [save_predictions_csv]: those of the prediction,
    none of which is a write, and then the write, if the prediction
    returned. *)
Lemma save_predictions_csv_trace (fs : filesystem) (df : DataFrame)
  (out_csv mode art_dir : string) :
  exists tr0 w,
    snd (save_predictions_csv fs df out_csv mode art_dir) = tr0 ++ w /\
    Forall (fun e => is_write e = false) tr0 /\
    (w = [] \/ exists d, w = [ToCsv out_csv d]) /\
    forall df_out, fst (save_predictions_csv fs df out_csv mode art_dir) = Ok df_out ->
                   w = [ToCsv out_csv df_out].
Proof.
  unfold save_predictions_csv.
  match goal with |- context [bindM ?m _] => set (run := m) end.
  assert (Hrun : Forall (fun e => is_write e = false) (snd run)).
  { unfold run. destruct (String.eqb mode "flat");
      [apply predict_from_df_no_write|].
    apply bindM_no_write; [apply predict_hier_from_df_no_write|].
    intros h. constructor. }
  destruct run as [[out|e] t0]; simpl in *.
  - eexists t0, [ToCsv out_csv _]. rewrite ?app_nil_r.
    split; [reflexivity|]. split; [exact Hrun|]. split; [right; eauto|].
    intros df_out [= <-]. reflexivity.
  - exists t0, []. rewrite app_nil_r. split; [reflexivity|]. split; [exact Hrun|].
    split; [left; reflexivity | discriminate].
Qed.

(** X21: the batch runner writes at the end only.  In every run of
    [save_predictions_csv], whether it returns or raises, the calls to the
    classifiers come before any write, and a write is asked for at most
    once, as the last event and for the given path; a run that returns has
    asked for the write of the table it returns.  Whether the file system
    carries out the write is not part of the statement. *)
Theorem save_writes_last (fs : filesystem) (df : DataFrame)
  (out_csv mode art_dir : string) :
  exists tr0 w,
    snd (save_predictions_csv fs df out_csv mode art_dir) = tr0 ++ w /\
    Forall (fun e => is_write e = false) tr0 /\
    (w = [] \/ exists d, w = [ToCsv out_csv d]) /\
    forall df_out, fst (save_predictions_csv fs df out_csv mode art_dir) = Ok df_out ->
                   w = [ToCsv out_csv df_out].
Proof. apply save_predictions_csv_trace. Qed.

Section MainTrace.
Context {rt : PyRuntime}.

(** X22: [main] writes at the end only.  In every run, whether it returns
    or raises, the calls to the classifiers come before any write, and a
    write is asked for at most once, as the last event and for the path of
    [--out]; a run that returns has asked for the write of the table it
    returns.  A run that raises in the adapter or at the check for an empty
    table has called no classifier and asked for no write. *)
Theorem main_writes_last (fs : filesystem) (a : args) :
  (exists tr0 w,
     snd (main fs a) = tr0 ++ w /\
     Forall (fun e => is_write e = false) tr0 /\
     (w = [] \/ exists d, w = [ToCsv (arg_out a) d]) /\
     forall df_out, fst (main fs a) = Ok df_out -> w = [ToCsv (arg_out a) df_out]) /\
  (forall e, load_flows fs a = Raise e -> main fs a = (Raise e, [])) /\
  (forall df, load_flows fs a = Ok df -> empty df = true ->
              main fs a = (Raise (SystemExit no_flows_message), [])).
Proof.
  unfold main. destruct (load_flows fs a) as [df|e]; simpl.
  - split; [|split; [discriminate|]].
    + destruct (empty df); simpl.
      { exists [], []. split; [reflexivity|]. split; [constructor|].
        split; [left; reflexivity | discriminate]. }
      destruct (String.eqb (arg_mode a) "hier").
      * destruct (save_predictions_csv_trace fs df (arg_out a) "hier" (arg_models a))
          as (tr0 & w & Htr & H0 & Hw & Hret).
        destruct (save_predictions_csv fs df (arg_out a) "hier" (arg_models a))
          as [r tr]. simpl in *. exists tr0, w. auto.
      * destruct (save_predictions_csv_trace fs df (arg_out a) "flat" (arg_models a))
          as (tr0 & w & Htr & H0 & Hw & Hret).
        destruct (save_predictions_csv fs df (arg_out a) "flat" (arg_models a))
          as [r tr]. simpl in *. exists tr0, w. auto.
    + intros df' [= <-] ->. reflexivity.
  - split; [|split; [intros e' [= <-]; reflexivity | discriminate]].
    exists [], []. split; [reflexivity|]. split; [constructor|].
    split; [left; reflexivity | discriminate].
Qed.

End MainTrace.

(** ** The table the batch runner returns *)

Lemma get_col_set_col (df : DataFrame) (c c' : string) (col : column) :
  get_col (set_col df c col) c' = if String.eqb c' c then Some col else get_col df c'.
Proof. unfold get_col, set_col. simpl. apply assoc_replace_col. Qed.

Lemma replace_col_new (c : string) (col : column) (cs : list (string * column)) :
  assoc c cs = None -> replace_col c col cs = cs ++ [(c, col)].
Proof.
  induction cs as [|[c0 col0] cs IH]; simpl; [reflexivity|].
  destruct (String.eqb c c0); [discriminate|]. intros H. rewrite (IH H). reflexivity.
Qed.

Lemma columns_set_col_new (df : DataFrame) (c : string) (col : column) :
  get_col df c = None -> columns (set_col df c col) = columns df ++ [c].
Proof.
  intros H. unfold columns, set_col. simpl. rewrite (replace_col_new c col _ H).
  rewrite map_app. reflexivity.
Qed.

Lemma get_col_None (df : DataFrame) (c : string) :
  get_col df c = None <-> has_column df c = false.
Proof.
  pose proof (has_column_get_col df c) as H.
  destruct (has_column df c); destruct (get_col df c); split; intros; try reflexivity;
    try discriminate; exfalso.
  - destruct H as [H _]. apply H; reflexivity.
  - destruct H as [_ H]. specialize (H ltac:(discriminate)). discriminate.
Qed.

Lemma label_column_IntLike (ts : list Z) : label_column (map IntLike ts) = Int64Col ts.
Proof.
  unfold label_column.
  assert (H : forallb raw_is_int (map IntLike ts) = true)
    by (induction ts; simpl; auto).
  rewrite H, map_map. simpl. rewrite map_id. reflexivity.
Qed.

Lemma predict_hier_lengths (fs : filesystem) (df : DataFrame) (art_dir : string)
  (h : hier_predictions) (tr : list event) :
  predict_hier_from_df fs df art_dir = (Ok h, tr) ->
  length (binary_scores h) = nrows df /\
  length (binary_labels h) = nrows df /\
  length (tri_labels h) = nrows df.
Proof.
  intros H. apply predict_hier_from_df_Ok in H as (art & _ & H).
  apply predict_hier_Ok in H
    as (names & X & tf1 & s_dos & tr2 & _ & HX & _ & Hs & Hb & Hst & _).
  assert (Hls : length (binary_scores h) = nrows df)
    by (rewrite Hs, length_map, length_frame_rows; exact (select_nrows _ _ _ HX)).
  assert (Hlen : length (map (fun s => (tf1 <=? s)%float) (binary_scores h))
                 = length (frame_rows X))
    by (rewrite Hs, !length_map; reflexivity).
  destruct (stage2_labels _ _ _ _ _ _ Hlen Hst) as [Hlt _].
  split; [exact Hls|]. split; [rewrite Hb, !length_map; exact Hls|].
  rewrite Hlt, length_frame_rows. exact (select_nrows _ _ _ HX).
Qed.

(** X23: in hierarchical mode the table the batch runner returns is the
    input table with four columns appended, [bin_prob_mal], [bin_label],
    [tri_label] and [final_label] in this order, when the input has none of
    them: the rows and the input columns are unchanged, and each new column
    has one entry for each row. *)
Theorem save_hier_appends_columns (fs : filesystem) (df : DataFrame)
  (out_csv art_dir : string) (df_out : DataFrame) (tr : list event) :
  save_predictions_csv fs df out_csv "hier" art_dir = (Ok df_out, tr) ->
  Forall (fun c => has_column df c = false) derived_columns ->
  nrows df_out = nrows df /\
  columns df_out = columns df ++ derived_columns /\
  (forall c, c ∈ columns df -> get_col df_out c = get_col df c) /\
  Forall (fun c => exists col, get_col df_out c = Some col /\
                               length (cells col) = nrows df) derived_columns.
Proof.
  intros H Hnew. unfold save_predictions_csv in H.
  change (String.eqb "hier" "flat") with false in H. cbv iota in H.
  apply bindM_Ok in H as (out & t0 & t0' & Hout & H & ->).
  apply bindM_Ok in Hout as (h & ta & ta' & Hh & Hout & ->).
  unfold ret in Hout. injection Hout as <- <-. simpl in H.
  unfold to_csv, bindM, ret in H. injection H as <- _.
  apply predict_hier_lengths in Hh as (Hl1 & Hl2 & Hl3).
  unfold derived_columns in *.
  apply Forall_cons in Hnew as [N1 Hnew]. apply Forall_cons in Hnew as [N2 Hnew].
  apply Forall_cons in Hnew as [N3 Hnew]. apply Forall_cons in Hnew as [N4 _].
  apply get_col_None in N1, N2, N3, N4.
  rewrite label_column_IntLike.
  split; [reflexivity|]. split.
  - rewrite !columns_set_col_new.
    + rewrite <- !app_assoc. reflexivity.
    + exact N1.
    + rewrite get_col_set_col. simpl. exact N2.
    + rewrite !get_col_set_col. simpl. exact N3.
    + rewrite !get_col_set_col. simpl. exact N4.
  - split.
    + intros c Hc. apply has_column_elem in Hc. rewrite !get_col_set_col.
      repeat match goal with
             | |- context [String.eqb c ?n] =>
                 let E := fresh "E" in
                 destruct (String.eqb c n) eqn:E;
                 [apply String.eqb_eq in E; subst c;
                  apply has_column_get_col in Hc; congruence|]
             end.
      reflexivity.
    + repeat (apply Forall_cons; split); try solve [apply List.Forall_nil];
        eexists; rewrite !get_col_set_col; simpl;
        (split; [reflexivity|]); simpl; rewrite ?length_map; assumption.
Qed.

(** ** The answers of the serving path *)

(** X24: the serving path always answers, and with an answer of its schema:
    either normal, without subtype, after a call to the first model only, or
    attack with the subtype dos or other_attack as final label, after one
    call to each model.  The second model is not called for a record the
    first one calls normal. *)
Theorem serving_answer (srv : server) (row : record) :
  exists o tr,
    classify_flow srv row = (Ok o, tr) /\
    ((bin_label o = "normal"%string /\ dos_vs_other_label o = None /\
      final_label o = "normal"%string /\ tr = [Predict ModelBin [row]]) \/
     (bin_label o = "attack"%string /\
      exists l, (l = "dos"%string \/ l = "other_attack"%string) /\
                dos_vs_other_label o = Some l /\ final_label o = l /\
                tr = [Predict ModelBin [row]; Predict ModelDos [row]])).
Proof.
  rewrite classify_flow_run.
  destruct (_is_attack_label (predict (model_bin srv) row)).
  - eexists _, _. split; [reflexivity|]. right. simpl. split; [reflexivity|].
    destruct (_is_dos_label (predict (model_dos srv) row)); eexists; eauto.
  - eexists _, _. split; [reflexivity|]. left. simpl. auto.
Qed.

Lemma save_hier_appends_columns_witness :
  nrows two_flows_labelled = nrows two_flows_frame /\
  columns two_flows_labelled = columns two_flows_frame ++ derived_columns /\
  (forall c, c ∈ columns two_flows_frame ->
             get_col two_flows_labelled c = get_col two_flows_frame c) /\
  Forall (fun c => exists col, get_col two_flows_labelled c = Some col /\
                               length (cells col) = nrows two_flows_frame)
         derived_columns.
Proof.
  eapply (save_hier_appends_columns fs_packets two_flows_frame "out.csv" "models"
            two_flows_labelled).
  - vm_compute. reflexivity.
  - repeat constructor.
Defined.
